(** * O&M contract management: the store, the workflow and its properties

    A shallow embedding of [streamlit_app.py].  The SQLite file
    [contracts.db] is a record of five tables, each a list of rows in
    insertion order.  A function of the source that opens a connection is a
    computation in a small connection monad: statements act on the open
    transaction, [conn_commit] makes it durable, and a raised exception
    abandons whatever was not committed.  Values drawn from [uuid.uuid4()]
    and from the clock are arguments of the function that draws them. *)

From Stdlib Require Import String List Bool Arith Lia.
From Stdlib Require QArith.
Import ListNotations.
Open Scope string_scope.

(** SQL [REAL] columns.  The program only stores and displays them. *)
Definition real : Type := QArith_base.Q.

(** ** Rows of the five tables (see [init_db]) *)

Module User.
Record t : Type := mk
  { user_id : string; username : string; password : string; role : string }.
End User.

Module Contract.
Record t : Type := mk
  { contract_id : string; vendor_name : string; description : string;
    start_date : string; end_date : string; budget : real; status : string }.
Definition set_status (s : string) (c : t) : t :=
  mk (contract_id c) (vendor_name c) (description c) (start_date c)
     (end_date c) (budget c) s.
End Contract.

Module Approval.
Record t : Type := mk
  { approval_id : string; contract_id : string; approver_id : string;
    approval_status : string; timestamp : string }.
Definition set_approval_status (s : string) (a : t) : t :=
  mk (approval_id a) (contract_id a) (approver_id a) s (timestamp a).
End Approval.

Module ServiceReport.
Record t : Type := mk
  { report_id : string; contract_id : string; service_date : string;
    work_performed : string; parts_cost : real; labor_hours : real }.
End ServiceReport.

Module Invoice.
Record t : Type := mk
  { invoice_id : string; contract_id : string; amount : real;
    invoice_date : string; payment_status : string }.
Definition set_payment_status (s : string) (i : t) : t :=
  mk (invoice_id i) (contract_id i) (amount i) (invoice_date i) s.
End Invoice.

Record database : Type := mkdb
  { users : list User.t;
    contracts : list Contract.t;
    approvals : list Approval.t;
    service_reports : list ServiceReport.t;
    invoices : list Invoice.t }.

(** [init_db] on a fresh file: five empty tables.  On an existing file every
    [CREATE TABLE IF NOT EXISTS] does nothing. *)
Definition init_db : database := mkdb [] [] [] [] [].

Definition set_users (x : list User.t) (d : database) : database :=
  mkdb x (contracts d) (approvals d) (service_reports d) (invoices d).
Definition set_contracts (x : list Contract.t) (d : database) : database :=
  mkdb (users d) x (approvals d) (service_reports d) (invoices d).
Definition set_approvals (x : list Approval.t) (d : database) : database :=
  mkdb (users d) (contracts d) x (service_reports d) (invoices d).
Definition set_service_reports (x : list ServiceReport.t) (d : database)
  : database :=
  mkdb (users d) (contracts d) (approvals d) x (invoices d).
Definition set_invoices (x : list Invoice.t) (d : database) : database :=
  mkdb (users d) (contracts d) (approvals d) (service_reports d) x.

(** ** SQL statements of the source, as functions on the tables *)

Inductive exn : Type :=
| IntegrityError     (* PRIMARY KEY or UNIQUE constraint failed *)
| OperationalError.  (* the store refused the call *)

(** [SELECT * FROM users WHERE username = ?] followed by [fetchone]. *)
Definition select_user_by_username (u : string) (d : database)
  : option User.t :=
  find (fun r => User.username r =? u) (users d).

(** [SELECT * FROM users WHERE username=? AND password=?], [fetchone]. *)
Definition select_user_by_login (u p : string) (d : database)
  : option User.t :=
  find (fun r => (User.username r =? u) && (User.password r =? p)) (users d).

(** [SELECT role FROM users WHERE user_id=?], [fetchone]. *)
Definition select_role (uid : string) (d : database) : option string :=
  option_map User.role (find (fun r => User.user_id r =? uid) (users d)).

(** [SELECT user_id FROM users WHERE role='approver'], [fetchall]. *)
Definition is_approver (r : User.t) : bool := User.role r =? "approver".
Definition select_approvers (d : database) : list string :=
  map User.user_id (filter is_approver (users d)).

(** [INSERT INTO users]: [user_id] is the primary key, [username] is
    [UNIQUE]. *)
Definition insert_user (r : User.t) (d : database) : exn + database :=
  if existsb (fun x => (User.user_id x =? User.user_id r)
                       || (User.username x =? User.username r)) (users d)
  then inl IntegrityError
  else inr (set_users (users d ++ [r]) d).

(** [INSERT INTO contracts]. *)
Definition insert_contract (r : Contract.t) (d : database) : exn + database :=
  if existsb (fun x => Contract.contract_id x =? Contract.contract_id r)
             (contracts d)
  then inl IntegrityError
  else inr (set_contracts (contracts d ++ [r]) d).

(** [UPDATE contracts SET status=? WHERE contract_id=?]. *)
Definition update_contract_status (s cid : string) (d : database)
  : database :=
  set_contracts
    (map (fun c => if Contract.contract_id c =? cid
                   then Contract.set_status s c else c) (contracts d)) d.

(** [INSERT INTO approvals]. *)
Definition insert_approval (r : Approval.t) (d : database) : exn + database :=
  if existsb (fun x => Approval.approval_id x =? Approval.approval_id r)
             (approvals d)
  then inl IntegrityError
  else inr (set_approvals (approvals d ++ [r]) d).

(** [UPDATE approvals SET approval_status=? WHERE approval_id=?]. *)
Definition update_approval_status (s aid : string) (d : database)
  : database :=
  set_approvals
    (map (fun a => if Approval.approval_id a =? aid
                   then Approval.set_approval_status s a else a)
         (approvals d)) d.

(** [SELECT COUNT( * ) FROM approvals WHERE contract_id=? AND
    approval_status='Approved'], [fetchone()[0]]. *)
Definition count_approved (cid : string) (d : database) : nat :=
  length (filter (fun a => (Approval.contract_id a =? cid)
                           && (Approval.approval_status a =? "Approved"))
                 (approvals d)).

(** [SELECT COUNT( * ) FROM approvals WHERE contract_id=?]. *)
Definition count_approvals (cid : string) (d : database) : nat :=
  length (filter (fun a => Approval.contract_id a =? cid) (approvals d)).

(** [INSERT INTO service_reports]. *)
Definition insert_service_report (r : ServiceReport.t) (d : database)
  : exn + database :=
  if existsb (fun x => ServiceReport.report_id x =? ServiceReport.report_id r)
             (service_reports d)
  then inl IntegrityError
  else inr (set_service_reports (service_reports d ++ [r]) d).

(** [SELECT report_id, ... FROM service_reports], [fetchall]. *)
Definition select_service_reports (d : database) : list ServiceReport.t :=
  service_reports d.

(** [INSERT INTO invoices]. *)
Definition insert_invoice (r : Invoice.t) (d : database) : exn + database :=
  if existsb (fun x => Invoice.invoice_id x =? Invoice.invoice_id r)
             (invoices d)
  then inl IntegrityError
  else inr (set_invoices (invoices d ++ [r]) d).

(** [UPDATE invoices SET payment_status='Paid' WHERE invoice_id=?]. *)
Definition update_invoice_paid (iid : string) (d : database) : database :=
  set_invoices
    (map (fun i => if Invoice.invoice_id i =? iid
                   then Invoice.set_payment_status "Paid" i else i)
         (invoices d)) d.

(** An [UPDATE] violates no constraint of this schema. *)
Definition update (f : database -> database) : database -> exn + database :=
  fun d => inr (f d).

(** The join of [review_contracts]: contracts with an approval that is
    assigned to [approver] and still ['Pending'].  Each row carries the
    contract id and the approval id the two buttons pass on. *)
Definition select_pending_reviews (approver : string) (d : database)
  : list (string * string) :=
  flat_map
    (fun c =>
       map (fun a => (Contract.contract_id c, Approval.approval_id a))
           (filter (fun a => (Contract.contract_id c =? Approval.contract_id a)
                             && (Approval.approver_id a =? approver)
                             && (Approval.approval_status a =? "Pending"))
                   (approvals d)))
    (contracts d).

(** ** Connections

    [durable] is the content of the file, [txn] is what the open connection
    sees.  [faults] schedules a refusal of the store: [Some n] lets [n]
    calls through and fails the next one, [None] never fails. *)

Record connection : Type := mkconn
  { durable : database; txn : database; faults : option nat }.

Inductive outcome (A : Type) : Type :=
| Done (a : A) (c : connection)
| Raised (e : exn) (c : connection).
Arguments Done {A} a c.
Arguments Raised {A} e c.

Definition M (A : Type) : Type := connection -> outcome A.

Definition ret {A} (a : A) : M A := fun c => Done a c.

Definition bind {A B} (m : M A) (k : A -> M B) : M B :=
  fun c => match m c with
           | Done a c' => k a c'
           | Raised e c' => Raised e c'
           end.

Notation "x <- m ;; k" := (bind m (fun x => k))
  (at level 61, m at next level, right associativity).
Notation "m ;; k" := (bind m (fun _ => k))
  (at level 61, right associativity).

(** One call into the store. *)
Definition store_call : M unit :=
  fun c => match faults c with
           | None => Done tt c
           | Some (S n) => Done tt (mkconn (durable c) (txn c) (Some n))
           | Some O => Raised OperationalError c
           end.

(** [c.execute] of a statement that writes. *)
Definition execute (stmt : database -> exn + database) : M unit :=
  store_call ;;
  fun c => match stmt (txn c) with
           | inr d => Done tt (mkconn (durable c) d (faults c))
           | inl e => Raised e c
           end.

(** [c.execute] of a [SELECT] together with its fetch. *)
Definition query {A} (q : database -> A) : M A :=
  store_call ;; fun c => Done (q (txn c)) c.

(** [conn.commit()]. *)
Definition conn_commit : M unit :=
  store_call ;; fun c => Done tt (mkconn (txn c) (txn c) (faults c)).

(** [sqlite3.connect], the body, and the end of the connection: what was not
    committed is lost, whether the body returned or raised. *)
Definition with_connection {A} (body : M A) (f : option nat) (disk : database)
  : database * (exn + A) :=
  match body (mkconn disk disk f) with
  | Done a c => (durable c, inr a)
  | Raised e c => (durable c, inl e)
  end.

(** ** The functions of the source *)

Definition demo_users : list (string * string * string) :=
  [ ("manager_user", "manager_pass", "manager");
    ("approver_user1", "approver_pass1", "approver");
    ("approver_user2", "approver_pass2", "approver");
    ("approver_user3", "approver_pass3", "approver");
    ("finance_user", "finance_pass", "finance") ].

(** The loop of [seed_users]; [uuid4 i] is the identifier drawn for the
    [i]-th demo user. *)
Fixpoint seed_loop (uuid4 : nat -> string) (i : nat)
  (l : list (string * string * string)) : M unit :=
  match l with
  | [] => ret tt
  | (username, password, role) :: rest =>
      found <- query (select_user_by_username username) ;;
      match found with
      | Some _ => ret tt
      | None =>
          let user_id := uuid4 i in
          execute (insert_user (User.mk user_id username password role))
      end ;;
      seed_loop uuid4 (S i) rest
  end.

Definition seed_users (uuid4 : nat -> string) : M unit :=
  seed_loop uuid4 0 demo_users ;;
  conn_commit.

Definition get_user (username password : string) : M (option User.t) :=
  query (select_user_by_login username password).

Definition get_user_role (user_id : string) : M (option string) :=
  query (select_role user_id).

(** [create_contract]; [uuid4] is the identifier drawn. *)
Definition create_contract (uuid4 : string)
  (vendor desc start_date end_date : string) (budget : real) : M unit :=
  let contract_id := uuid4 in
  execute (insert_contract
             (Contract.mk contract_id vendor desc start_date end_date budget
                          "Draft")) ;;
  conn_commit.

(** The loop of [submit_contract_for_approval]; [uuid4 i] and [now i] are
    the identifier and the clock reading of the [i]-th iteration. *)
Fixpoint approvals_loop (uuid4 now : nat -> string) (contract_id : string)
  (i : nat) (approvers : list string) : M unit :=
  match approvers with
  | [] => ret tt
  | approver_id :: rest =>
      let approval_id := uuid4 i in
      execute (insert_approval
                 (Approval.mk approval_id contract_id approver_id "Pending"
                              (now i))) ;;
      approvals_loop uuid4 now contract_id (S i) rest
  end.

Definition submit_contract_for_approval (uuid4 now : nat -> string)
  (contract_id : string) : M unit :=
  execute (update (update_contract_status "Pending Approval" contract_id)) ;;
  conn_commit ;;
  approvers <- query select_approvers ;;
  approvals_loop uuid4 now contract_id 0 approvers ;;
  conn_commit.

Definition approve_contract (approval_id contract_id : string) : M unit :=
  execute (update (update_approval_status "Approved" approval_id)) ;;
  conn_commit ;;
  approved_count <- query (count_approved contract_id) ;;
  total_approvers <- query (count_approvals contract_id) ;;
  (if Nat.eqb approved_count total_approvers
   then execute (update (update_contract_status "Active" contract_id))
   else ret tt) ;;
  conn_commit.

Definition reject_contract (approval_id contract_id : string) : M unit :=
  execute (update (update_approval_status "Rejected" approval_id)) ;;
  execute (update (update_contract_status "Rejected" contract_id)) ;;
  conn_commit.

(** The form of [manage_service_reports], once submitted. *)
Definition submit_service_report (uuid4 : string)
  (contract_id service_date work_performed : string)
  (parts_cost labor_hours : real) : M unit :=
  let report_id := uuid4 in
  execute (insert_service_report
             (ServiceReport.mk report_id contract_id service_date
                               work_performed parts_cost labor_hours)) ;;
  conn_commit.

(** The listing at the top of [manage_service_reports]. *)
Definition list_service_reports : M (list ServiceReport.t) :=
  query select_service_reports.

(** The [Mark Paid] button of [manage_invoices]: the page first reads all
    invoices, and the button exists only on a row whose status is not
    ["Paid"]. *)
Definition mark_paid (invoice_id : string) : M unit :=
  rows <- query invoices ;;
  if existsb (fun inv => (Invoice.invoice_id inv =? invoice_id)
                         && negb (Invoice.payment_status inv =? "Paid")) rows
  then execute (update (update_invoice_paid invoice_id)) ;; conn_commit
  else ret tt.

(** The form of [manage_invoices], once submitted; the page has read the
    invoices before. *)
Definition generate_invoice (uuid4 today : string)
  (contract_id : string) (amount : real) : M unit :=
  _ <- query invoices ;;
  let invoice_id := uuid4 in
  let invoice_date := today in
  execute (insert_invoice
             (Invoice.mk invoice_id contract_id amount invoice_date "Pending")) ;;
  conn_commit.

(** ** Requests

    One value per operation the pages can trigger, carrying what the
    operation draws from [uuid4] and the clock. *)

Inductive request : Type :=
| SeedUsers (uuid4 : nat -> string)
| Login (username password : string)
| CreateContract (uuid4 vendor desc start_date end_date : string)
    (budget : real)
| SubmitContract (uuid4 now : nat -> string) (contract_id : string)
| Approve (approval_id contract_id : string)
| Reject (approval_id contract_id : string)
| SubmitReport (uuid4 contract_id service_date work_performed : string)
    (parts_cost labor_hours : real)
| GenerateInvoice (uuid4 today contract_id : string) (amount : real)
| MarkPaid (invoice_id : string).

(** The content of the file after the body ran on a connection. *)
Definition run {A} (body : M A) (f : option nat) (d : database) : database :=
  fst (with_connection body f d).

Definition handle (r : request) (f : option nat) (d : database) : database :=
  match r with
  | SeedUsers uuid4 => run (seed_users uuid4) f d
  | Login u p => run (get_user u p) f d
  | CreateContract uuid4 vendor desc sd ed budget =>
      run (create_contract uuid4 vendor desc sd ed budget) f d
  | SubmitContract uuid4 now cid =>
      run (submit_contract_for_approval uuid4 now cid) f d
  | Approve aid cid => run (approve_contract aid cid) f d
  | Reject aid cid => run (reject_contract aid cid) f d
  | SubmitReport uuid4 cid sd wp pc lh =>
      run (submit_service_report uuid4 cid sd wp pc lh) f d
  | GenerateInvoice uuid4 today cid amount =>
      run (generate_invoice uuid4 today cid amount) f d
  | MarkPaid iid => run (mark_paid iid) f d
  end.

(** A sequence of requests, each with its fault schedule. *)
Fixpoint handle_all (rs : list (request * option nat)) (d : database)
  : database :=
  match rs with
  | [] => d
  | (r, f) :: rest => handle_all rest (handle r f d)
  end.

(** The status column of the row of [contracts] with this key. *)
Definition contract_status (cid : string) (d : database) : option string :=
  option_map Contract.status
    (find (fun c => Contract.contract_id c =? cid) (contracts d)).

(** The row of [invoices] with this key. *)
Definition invoice_row (iid : string) (d : database) : option Invoice.t :=
  find (fun i => Invoice.invoice_id i =? iid) (invoices d).

(** The rows [submit_contract_for_approval] inserts, one per approver id,
    numbered from [i]. *)
Fixpoint pending_rows (uuid4 now : nat -> string) (cid : string) (i : nat)
  (approvers : list string) : list Approval.t :=
  match approvers with
  | [] => []
  | u :: rest =>
      Approval.mk (uuid4 i) cid u "Pending" (now i)
      :: pending_rows uuid4 now cid (S i) rest
  end.

(** ** What the functions commit

    The states a function of the source writes to the file: after each of
    its commits. *)

Definition approve_committed (aid cid : string) (d : database) : database :=
  let d1 := update_approval_status "Approved" aid d in
  if Nat.eqb (count_approved cid d1) (count_approvals cid d1)
  then update_contract_status "Active" cid d1 else d1.

Definition reject_committed (aid cid : string) (d : database) : database :=
  update_contract_status "Rejected" cid
    (update_approval_status "Rejected" aid d).

Definition submit_committed (uuid4 now : nat -> string) (cid : string)
  (d : database) : database :=
  let d1 := update_contract_status "Pending Approval" cid d in
  set_approvals
    (approvals d1 ++ pending_rows uuid4 now cid 0 (select_approvers d1)) d1.

(** What a request can leave in the file, whatever the fault schedule. *)
Definition may_leave (r : request) (d d' : database) : Prop :=
  match r with
  | SeedUsers _ => exists extra, d' = set_users (users d ++ extra) d
  | Login _ _ => d' = d
  | CreateContract u v ds sd ed b =>
      d' = d \/
      d' = set_contracts (contracts d ++ [Contract.mk u v ds sd ed b "Draft"]) d
  | SubmitContract uuid4 now cid =>
      d' = d \/
      d' = update_contract_status "Pending Approval" cid d \/
      (d' = submit_committed uuid4 now cid d
       /\ (NoDup (map Approval.approval_id (approvals d)) ->
           NoDup (map Approval.approval_id (approvals d'))))
  | Approve aid cid =>
      d' = d \/
      d' = update_approval_status "Approved" aid d \/
      d' = approve_committed aid cid d
  | Reject aid cid => d' = d \/ d' = reject_committed aid cid d
  | SubmitReport u cid sd wp pc lh =>
      d' = d \/
      d' = set_service_reports
             (service_reports d ++ [ServiceReport.mk u cid sd wp pc lh]) d
  | GenerateInvoice u today cid amount =>
      d' = d \/
      d' = set_invoices
             (invoices d ++ [Invoice.mk u cid amount today "Pending"]) d
  | MarkPaid iid => d' = d \/ d' = update_invoice_paid iid d
  end.

(** ** New identifiers *)

(** The identifiers [uuid4 i], ..., [uuid4 (i + n - 1)] are new: none is in
    [taken] and no two are equal. *)
Definition fresh_from (taken : list string) (uuid4 : nat -> string)
  (i n : nat) : Prop :=
  forall j, i <= j < i + n ->
            ~ In (uuid4 j) taken /\
            forall k, i <= k < j -> uuid4 k <> uuid4 j.

Definition fresh_for (taken : list string) (uuid4 : nat -> string) (n : nat)
  : Prop :=
  fresh_from taken uuid4 0 n.

(** The same, as a test. *)
Definition fresh_forb (taken : list string) (uuid4 : nat -> string) (n : nat)
  : bool :=
  forallb (fun j =>
             negb (existsb (String.eqb (uuid4 j)) taken)
             && forallb (fun k => negb (uuid4 k =? uuid4 j)) (seq 0 j))
          (seq 0 n).

(** ** The workflow as the pages drive it *)

Definition statuses : list string :=
  ["Draft"; "Pending Approval"; "Active"; "Rejected"].

(** [review_contracts] shows [approver] the two buttons for each row of the
    join, that is for each of their approvals that is still Pending. *)
Definition offers_decision (approver aid cid : string) (d : database) : bool :=
  existsb (fun row => (fst row =? cid) && (snd row =? aid))
          (select_pending_reviews approver d).

(** Decisions are taken through those buttons. *)
Definition page_offers (actor : string) (r : request) (d : database) : bool :=
  match r with
  | Approve aid cid => offers_decision actor aid cid d
  | Reject aid cid => offers_decision actor aid cid d
  | _ => true
  end.

(** A run of the application: who acts, what is requested, and the fault
    schedule of the store. *)
Definition step : Type := (string * request * option nat)%type.

Fixpoint offered_all (steps : list step) (d : database) : bool :=
  match steps with
  | [] => true
  | (actor, r, f) :: rest =>
      page_offers actor r d && offered_all rest (handle r f d)
  end.

Definition requests_of (steps : list step) : list (request * option nat) :=
  map (fun s => (snd (fst s), snd s)) steps.

(** A decision on an approval the store holds, for the contract it belongs
    to, as [review_contracts] passes them on. *)
Definition decides_existing (aid cid : string) (d : database) : bool :=
  existsb (fun a => (Approval.approval_id a =? aid)
                    && (Approval.contract_id a =? cid)) (approvals d).

(** Requests other than a further submission of [cid]; decisions are taken on
    existing approvals. *)
Definition other_than_submit (cid : string) (r : request) (d : database)
  : bool :=
  match r with
  | SubmitContract _ _ cid' => negb (cid' =? cid)
  | Approve aid cid' => decides_existing aid cid' d
  | Reject aid cid' => decides_existing aid cid' d
  | _ => true
  end.

Fixpoint all_other_than_submit (cid : string)
  (rs : list (request * option nat)) (d : database) : bool :=
  match rs with
  | [] => true
  | (r, f) :: rest =>
      other_than_submit cid r d
      && all_other_than_submit cid rest (handle r f d)
  end.

(** What holds of every state the pages lead to. *)
Definition keys_unique (d : database) : Prop :=
  NoDup (map Approval.approval_id (approvals d)).

Definition active_unanimous (d : database) : Prop :=
  forall c a,
    In c (contracts d) -> Contract.status c = "Active" ->
    In a (approvals d) -> Approval.contract_id a = Contract.contract_id c ->
    Approval.approval_status a = "Approved".

Definition rejected_has_rejection (d : database) : Prop :=
  forall c,
    In c (contracts d) -> Contract.status c = "Rejected" ->
    exists a, In a (approvals d)
              /\ Approval.contract_id a = Contract.contract_id c
              /\ Approval.approval_status a = "Rejected".

Definition statuses_known (d : database) : Prop :=
  Forall (fun c => In (Contract.status c) statuses) (contracts d).

Definition workflow_inv (d : database) : Prop :=
  keys_unique d /\ active_unanimous d /\ rejected_has_rejection d
  /\ statuses_known d.

(** ** Scenarios of the specification *)

(** Identifiers and clock readings of the scenarios: a prefix and a digit. *)
Definition numbered (prefix : string) (i : nat) : string :=
  prefix ++ String (Ascii.ascii_of_nat (48 + i)) "".

Definition amount_of (n : nat) : real :=
  QArith_base.Qmake (BinInt.Z.of_nat n) BinNums.xH.

(** The demo users are seeded ([u0] the manager, [u1], [u2], [u3] the
    approvers, [u4] finance) and contract C1 is created. *)
Definition scenario_draft : database :=
  handle_all
    [ (SeedUsers (numbered "u"), None);
      (CreateContract "C1" "vendor" "pumps" "2025-01-01" "2025-12-31"
                      (amount_of 1000), None) ]
    init_db.

(** Scenario A: C1 is submitted, which creates approvals [a0], [a1], [a2]. *)
Definition scenario_submitted : database :=
  handle (SubmitContract (numbered "a") (numbered "t") "C1") None
         scenario_draft.

(** Two approvers approve. *)
Definition scenario_two_of_three : database :=
  handle_all [ (Approve "a0" "C1", None); (Approve "a1" "C1", None) ]
             scenario_submitted.

(** The third approves. *)
Definition scenario_active : database :=
  handle (Approve "a2" "C1") None scenario_two_of_three.

(** Scenario D: an invoice of 500 for C1. *)
Definition scenario_invoiced : database :=
  handle (GenerateInvoice "i0" "2025-03-01" "C1" (amount_of 500)) None
         scenario_submitted.

(** ** Session and navigation

    [st.session_state.user_id] is an [option string]; a role read from the
    store is an [option string] as well ([None] when no row has the id). *)

(** [login_page], once the button is pressed: the new value of the session,
    or the exception [get_user] ended with.  A failed login leaves the
    session at [None]. *)
Definition login_page (username password : string) (f : option nat)
  (d : database) : exn + option string :=
  match snd (with_connection (get_user username password) f d) with
  | inl e => inl e
  | inr (Some user_record) => inr (Some (User.user_id user_record))
  | inr None => inr None
  end.

(** [role == "manager"] and the like; [None] equals no string. *)
Definition role_is (name : string) (role : option string) : bool :=
  match role with
  | Some r => r =? name
  | None => false
  end.

(** The entries of the sidebar built by [app_layout]. *)
Definition menu (role : option string) : list string :=
  (["Home"] ++ ["Service Reports"]
   ++ (if role_is "manager" role then ["Contracts"] else [])
   ++ (if role_is "approver" role then ["Approvals"] else [])
   ++ (if role_is "finance" role then ["Invoices"] else [])
   ++ ["Logout"])%list.

Inductive page : Type :=
| HomePage
| ContractsPage        (* manage_contracts *)
| ApprovalsPage        (* review_contracts *)
| ServiceReportsPage   (* manage_service_reports *)
| InvoicesPage         (* manage_invoices *)
| LogoutAction
| NoPage.              (* no branch of the chain applies *)

(** The [if]/[elif] chain of [app_layout]. *)
Definition app_layout (role : option string) (choice : string) : page :=
  if choice =? "Home" then HomePage
  else if (choice =? "Contracts") && role_is "manager" role
       then ContractsPage
  else if (choice =? "Approvals") && role_is "approver" role
       then ApprovalsPage
  else if choice =? "Service Reports" then ServiceReportsPage
  else if (choice =? "Invoices") && role_is "finance" role
       then InvoicesPage
  else if choice =? "Logout" then LogoutAction
  else NoPage.

(** The listing of [manage_contracts]:
    [SELECT contract_id, vendor_name, status, budget FROM contracts]. *)
Definition select_contract_list (d : database)
  : list (string * string * string * real) :=
  map (fun c => (Contract.contract_id c, Contract.vendor_name c,
                 Contract.status c, Contract.budget c)) (contracts d).

(** [manage_contracts] shows the submit button on the rows whose status is
    ["Draft"]. *)
Definition offers_submit (cid : string) (d : database) : bool :=
  existsb (fun row => match row with
                      | (contract_id, _, status, _) =>
                          (contract_id =? cid) && (status =? "Draft")
                      end)
          (select_contract_list d).

(** Submissions are made through that button. *)
Definition manager_offers (r : request) (d : database) : bool :=
  match r with
  | SubmitContract _ _ cid => offers_submit cid d
  | _ => true
  end.

Fixpoint submitted_from_draft (rs : list (request * option nat))
  (d : database) : bool :=
  match rs with
  | [] => true
  | (r, f) :: rest =>
      manager_offers r d && submitted_from_draft rest (handle r f d)
  end.

(** ** Keys

    Every table has a primary key, and [username] is [UNIQUE]. *)

(** The two uniqueness constraints of [users]. *)
Definition users_unique (l : list User.t) : Prop :=
  NoDup (map User.user_id l) /\ NoDup (map User.username l).

Definition primary_keys_unique (d : database) : Prop :=
  NoDup (map User.user_id (users d))
  /\ NoDup (map User.username (users d))
  /\ NoDup (map Contract.contract_id (contracts d))
  /\ NoDup (map Approval.approval_id (approvals d))
  /\ NoDup (map ServiceReport.report_id (service_reports d))
  /\ NoDup (map Invoice.invoice_id (invoices d)).

(** The approvers that have an approval row for a contract. *)
Definition approvers_of (cid : string) (d : database) : list string :=
  map Approval.approver_id
      (filter (fun a => Approval.contract_id a =? cid) (approvals d)).

(** Every approval belongs to a contract of the store, a Draft contract has
    no approval, and no contract has two approvals of one approver. *)
Definition approvals_well_formed (d : database) : Prop :=
  (forall a, In a (approvals d) ->
             In (Approval.contract_id a)
                (map Contract.contract_id (contracts d)))
  /\ (forall c, In c (contracts d) -> Contract.status c = "Draft" ->
                approvers_of (Contract.contract_id c) d = [])
  /\ (forall cid, NoDup (approvers_of cid d)).

(** The approval [aid] exists and none of its rows is Pending. *)
Definition decided (aid : string) (d : database) : Prop :=
  In aid (map Approval.approval_id (approvals d))
  /\ forall a, In a (approvals d) -> Approval.approval_id a = aid ->
               Approval.approval_status a <> "Pending".


(** ** What is stored for good

    The columns no statement of the source updates. *)
Definition contract_core (c : Contract.t)
  : string * string * string * string * string * real :=
  (Contract.contract_id c, Contract.vendor_name c, Contract.description c,
   Contract.start_date c, Contract.end_date c, Contract.budget c).

Definition approval_core (a : Approval.t)
  : string * string * string * string :=
  (Approval.approval_id a, Approval.contract_id a, Approval.approver_id a,
   Approval.timestamp a).

Definition invoice_core (i : Invoice.t) : string * string * real * string :=
  (Invoice.invoice_id i, Invoice.contract_id i, Invoice.amount i,
   Invoice.invoice_date i).

(** [l'] is [l] followed by further elements. *)
Definition extends {A} (l l' : list A) : Prop :=
  exists extra, l' = (l ++ extra)%list.

(** From [d] to [d']: rows are only added, at the end, and an existing row
    changes in its status column at most. *)
Definition grows_only (d d' : database) : Prop :=
  extends (users d) (users d')
  /\ extends (map contract_core (contracts d))
             (map contract_core (contracts d'))
  /\ extends (map approval_core (approvals d))
             (map approval_core (approvals d'))
  /\ extends (service_reports d) (service_reports d')
  /\ extends (map invoice_core (invoices d)) (map invoice_core (invoices d')).

(** The values the two other status columns take. *)
Definition approval_statuses : list string :=
  ["Pending"; "Approved"; "Rejected"].

Definition payment_statuses : list string := ["Pending"; "Paid"].

(** The contract [cid] is in the store and none of its rows is in Draft. *)
Definition left_draft (cid : string) (d : database) : Prop :=
  In cid (map Contract.contract_id (contracts d))
  /\ forall c, In c (contracts d) -> Contract.contract_id c = cid ->
               Contract.status c <> "Draft".

(** * Reasoning about connections *)

Lemma store_call_cases (c : connection) :
  store_call c = Raised OperationalError c \/
  exists n, store_call c = Done tt (mkconn (durable c) (txn c) n).
Proof.
  unfold store_call. destruct c as [dur t [[|n]|]]; simpl.
  - now left.
  - right. now exists (Some n).
  - right. now exists None.
Qed.

Lemma execute_cases (stmt : database -> exn + database) (c : connection) :
  (exists e c', execute stmt c = Raised e c' /\ durable c' = durable c) \/
  (exists d n, stmt (txn c) = inr d /\
               execute stmt c = Done tt (mkconn (durable c) d n)).
Proof.
  unfold execute, bind.
  destruct (store_call_cases c) as [-> | [n ->]].
  - left. now exists OperationalError, c.
  - simpl. destruct (stmt (txn c)) as [e | d] eqn:E.
    + left. now eexists _, _.
    + right. now exists d, n.
Qed.

Lemma query_cases {A} (q : database -> A) (c : connection) :
  query q c = Raised OperationalError c \/
  exists n, query q c = Done (q (txn c)) (mkconn (durable c) (txn c) n).
Proof.
  unfold query, bind.
  destruct (store_call_cases c) as [-> | [n ->]]; [now left | right].
  now exists n.
Qed.

Lemma commit_cases (c : connection) :
  conn_commit c = Raised OperationalError c \/
  exists n, conn_commit c = Done tt (mkconn (txn c) (txn c) n).
Proof.
  unfold conn_commit, bind.
  destruct (store_call_cases c) as [-> | [n ->]]; [now left | right].
  now exists n.
Qed.

(** One step of a body: split on the next call into the store. *)
Ltac next_call :=
  match goal with
  | |- context [execute ?s ?c] =>
      let e := fresh "e" in let c' := fresh "c" in let H := fresh "Hdur" in
      let d := fresh "d" in let n := fresh "n" in let Hs := fresh "Hstmt" in
      destruct (execute_cases s c) as [(e & c' & -> & H) | (d & n & Hs & ->)];
      simpl in *
  | |- context [query ?q ?c] =>
      let n := fresh "n" in
      destruct (query_cases q c) as [-> | [n ->]]; simpl in *
  | |- context [conn_commit ?c] =>
      let n := fresh "n" in
      destruct (commit_cases c) as [-> | [n ->]]; simpl in *
  end.

Ltac open_body :=
  unfold run, with_connection, bind; simpl.

(** ** What each function can leave in the file

    Whatever the fault schedule, the file ends in one of the listed
    states. *)

Lemma approve_contract_outcomes (aid cid : string) (f : option nat)
  (d : database) :
  run (approve_contract aid cid) f d = d \/
  run (approve_contract aid cid) f d = update_approval_status "Approved" aid d \/
  run (approve_contract aid cid) f d = approve_committed aid cid d.
Proof.
  unfold approve_contract, approve_committed. open_body.
  next_call; [now left|]. unfold update in Hstmt. injection Hstmt as <-.
  next_call; [now left|].
  next_call; [now (right; left)|].
  next_call; [now (right; left)|].
  destruct (Nat.eqb _ _).
  - next_call; [right; left; congruence|].
    unfold update in Hstmt. injection Hstmt as <-.
    next_call; [now (right; left) | now (right; right)].
  - simpl. next_call; [now (right; left) | now (right; right)].
Qed.

Lemma reject_contract_outcomes (aid cid : string) (f : option nat)
  (d : database) :
  run (reject_contract aid cid) f d = d \/
  run (reject_contract aid cid) f d = reject_committed aid cid d.
Proof.
  unfold reject_contract, reject_committed. open_body.
  next_call; [now left|]. unfold update in Hstmt. injection Hstmt as <-.
  next_call; [left; congruence|]. unfold update in Hstmt. injection Hstmt as <-.
  next_call; [now left | now right].
Qed.

Lemma create_contract_outcomes (u v ds sd ed : string) (b : real)
  (f : option nat) (d : database) :
  run (create_contract u v ds sd ed b) f d = d \/
  run (create_contract u v ds sd ed b) f d
  = set_contracts (contracts d ++ [Contract.mk u v ds sd ed b "Draft"]) d.
Proof.
  unfold create_contract. open_body.
  next_call; [now left|].
  unfold insert_contract in Hstmt.
  destruct (existsb _ _); [discriminate|]. injection Hstmt as <-.
  next_call; [now left | now right].
Qed.

Lemma set_approvals_app_nil (d : database) :
  set_approvals (approvals d ++ []) d = d.
Proof. destruct d. unfold set_approvals. simpl. now rewrite app_nil_r. Qed.

Lemma existsb_approval_id (x : string) (l : list Approval.t) :
  existsb (fun a => Approval.approval_id a =? x) l = true
  <-> In x (map Approval.approval_id l).
Proof.
  rewrite existsb_exists, in_map_iff. split.
  - intros (a & Ha & E). apply String.eqb_eq in E. now exists a.
  - intros (a & E & Ha). exists a. split; [assumption|].
    now apply String.eqb_eq.
Qed.

Lemma NoDup_snoc {A} (l : list A) (x : A) :
  NoDup l -> ~ In x l -> NoDup (l ++ [x]).
Proof.
  intros Hnd Hx. induction Hnd as [|y l Hy _ IH]; simpl.
  - constructor; [intros [] | constructor].
  - constructor.
    + rewrite in_app_iff. simpl. intros [H | [H | []]]; [contradiction|].
      apply Hx. now left.
    + apply IH. intros H. apply Hx. now right.
Qed.

Lemma approvals_loop_cases (uuid4 now : nat -> string) (cid : string)
  (l : list string) :
  forall (i : nat) (c : connection),
    (exists e c', approvals_loop uuid4 now cid i l c = Raised e c' /\
                  durable c' = durable c) \/
    (exists n, approvals_loop uuid4 now cid i l c
               = Done tt (mkconn (durable c)
                            (set_approvals
                               (approvals (txn c)
                                ++ pending_rows uuid4 now cid i l) (txn c))
                            n)
               /\ (NoDup (map Approval.approval_id (approvals (txn c))) ->
                   NoDup (map Approval.approval_id
                              (approvals (txn c)
                               ++ pending_rows uuid4 now cid i l)))).
Proof.
  induction l as [|u rest IH]; intros i c; simpl.
  - right. exists (faults c). unfold ret.
    rewrite set_approvals_app_nil, app_nil_r. split; [now destruct c|trivial].
  - unfold bind. next_call.
    + left. now eexists _, _.
    + unfold insert_approval in Hstmt.
      destruct (existsb _ _) eqn:E; [discriminate|]. injection Hstmt as <-.
      simpl in E.
      match goal with |- context [approvals_loop _ _ _ _ _ ?c0] =>
        destruct (IH (S i) c0) as [(e & c' & -> & Hd) | (m & -> & Hk)] end.
      * left. now eexists _, _.
      * right. exists m. simpl in *. split.
        -- unfold set_approvals. simpl. now rewrite <- app_assoc.
        -- intros Hnd. rewrite <- app_assoc in Hk. apply Hk.
           rewrite map_app. simpl. apply NoDup_snoc; [exact Hnd|].
           intros Hin. apply existsb_approval_id in Hin. congruence.
Qed.

Lemma submit_contract_outcomes (uuid4 now : nat -> string) (cid : string)
  (f : option nat) (d : database) :
  run (submit_contract_for_approval uuid4 now cid) f d = d \/
  run (submit_contract_for_approval uuid4 now cid) f d
  = update_contract_status "Pending Approval" cid d \/
  (run (submit_contract_for_approval uuid4 now cid) f d
   = submit_committed uuid4 now cid d
   /\ (NoDup (map Approval.approval_id (approvals d)) ->
       NoDup (map Approval.approval_id
                  (approvals (submit_committed uuid4 now cid d))))).
Proof.
  unfold submit_contract_for_approval, submit_committed. open_body.
  next_call; [now left|]. unfold update in Hstmt. injection Hstmt as <-.
  next_call; [now left|].
  next_call; [now (right; left)|].
  match goal with |- context [approvals_loop ?a ?b ?c ?i ?l ?c0] =>
    destruct (approvals_loop_cases a b c l i c0)
      as [(e & c' & -> & Hd) | (m & -> & Hk)] end; simpl in *.
  - right; left. congruence.
  - next_call; [now (right; left) | right; right; now split].
Qed.

Lemma set_users_app_nil (d : database) : set_users (users d ++ []) d = d.
Proof. destruct d. unfold set_users. simpl. now rewrite app_nil_r. Qed.

Lemma seed_loop_cases (uuid4 : nat -> string)
  (l : list (string * string * string)) :
  forall (i : nat) (c : connection),
    (exists e c', seed_loop uuid4 i l c = Raised e c' /\
                  durable c' = durable c) \/
    (exists extra n,
        seed_loop uuid4 i l c
        = Done tt (mkconn (durable c)
                     (set_users (users (txn c) ++ extra) (txn c)) n)).
Proof.
  induction l as [|[[un pw] rl] rest IH]; intros i c; simpl.
  - right. exists [], (faults c). unfold ret.
    rewrite set_users_app_nil. now destruct c.
  - unfold bind. next_call; [left; now eexists _, _|].
    destruct (select_user_by_username un (txn c)).
    + unfold ret.
      match goal with |- context [seed_loop _ _ _ ?c0] =>
        destruct (IH (S i) c0) as [(e & c' & -> & Hd) | (us & m & ->)] end.
      * left. now eexists _, _.
      * right. now exists us, m.
    + next_call; [left; now eexists _, _|].
      unfold insert_user in Hstmt.
      destruct (existsb _ _); [discriminate|]. injection Hstmt as <-.
      match goal with |- context [seed_loop _ _ _ ?c0] =>
        destruct (IH (S i) c0) as [(e & c' & -> & Hd) | (us & m & ->)] end.
      * left. now eexists _, _.
      * right. eexists _, m. simpl. unfold set_users. simpl.
        now rewrite <- app_assoc.
Qed.

Lemma seed_users_outcomes (uuid4 : nat -> string) (f : option nat)
  (d : database) :
  exists extra, run (seed_users uuid4) f d = set_users (users d ++ extra) d.
Proof.
  unfold seed_users, run, with_connection, bind.
  destruct (seed_loop_cases uuid4 demo_users 0 (mkconn d d f))
    as [(e & c' & -> & Hd) | (us & m & ->)]; simpl in *.
  - exists []. rewrite Hd. now rewrite set_users_app_nil.
  - next_call.
    + exists []. now rewrite set_users_app_nil.
    + now exists us.
Qed.

Lemma get_user_outcomes (u p : string) (f : option nat) (d : database) :
  run (get_user u p) f d = d.
Proof. unfold get_user. open_body. next_call; reflexivity. Qed.

Lemma submit_service_report_outcomes (u cid sd wp : string) (pc lh : real)
  (f : option nat) (d : database) :
  run (submit_service_report u cid sd wp pc lh) f d = d \/
  run (submit_service_report u cid sd wp pc lh) f d
  = set_service_reports
      (service_reports d ++ [ServiceReport.mk u cid sd wp pc lh]) d.
Proof.
  unfold submit_service_report. open_body.
  next_call; [now left|].
  unfold insert_service_report in Hstmt.
  destruct (existsb _ _); [discriminate|]. injection Hstmt as <-.
  next_call; [now left | now right].
Qed.

Lemma generate_invoice_outcomes (u today cid : string) (amount : real)
  (f : option nat) (d : database) :
  run (generate_invoice u today cid amount) f d = d \/
  run (generate_invoice u today cid amount) f d
  = set_invoices (invoices d ++ [Invoice.mk u cid amount today "Pending"]) d.
Proof.
  unfold generate_invoice. open_body.
  next_call; [now left|].
  next_call; [now left|].
  unfold insert_invoice in Hstmt.
  destruct (existsb _ _); [discriminate|]. injection Hstmt as <-.
  next_call; [now left | now right].
Qed.

Lemma mark_paid_outcomes (iid : string) (f : option nat) (d : database) :
  run (mark_paid iid) f d = d \/
  run (mark_paid iid) f d = update_invoice_paid iid d.
Proof.
  unfold mark_paid. open_body.
  next_call; [now left|].
  destruct (existsb _ _); [|now left].
  next_call; [now left|]. unfold update in Hstmt. injection Hstmt as <-.
  next_call; [now left | now right].
Qed.

Lemma handle_may_leave (r : request) (f : option nat) (d : database) :
  may_leave r d (handle r f d).
Proof.
  destruct r; simpl.
  - apply seed_users_outcomes.
  - apply get_user_outcomes.
  - apply create_contract_outcomes.
  - destruct (submit_contract_outcomes uuid4 now contract_id f d)
      as [H | [H | [H Hk]]]; rewrite H; auto.
  - apply approve_contract_outcomes.
  - apply reject_contract_outcomes.
  - apply submit_service_report_outcomes.
  - apply generate_invoice_outcomes.
  - apply mark_paid_outcomes.
Qed.

(** ** Runs on which the store never fails *)

Lemma existsb_eqb_In (x : string) (l : list string) :
  existsb (String.eqb x) l = true <-> In x l.
Proof.
  rewrite existsb_exists. split.
  - intros (y & Hy & E). apply String.eqb_eq in E. now subst.
  - intros H. exists x. split; [assumption | apply String.eqb_refl].
Qed.

Lemma fresh_forb_sound (taken : list string) (uuid4 : nat -> string)
  (n : nat) :
  fresh_forb taken uuid4 n = true -> fresh_for taken uuid4 n.
Proof.
  unfold fresh_forb, fresh_for, fresh_from. intros H j Hj.
  rewrite forallb_forall in H.
  specialize (H j). rewrite in_seq in H. specialize (H ltac:(lia)).
  apply andb_true_iff in H as [H1 H2]. split.
  - intros Hin. apply existsb_eqb_In in Hin. rewrite Hin in H1. discriminate.
  - intros k Hk E. rewrite forallb_forall in H2.
    specialize (H2 k). rewrite in_seq in H2. specialize (H2 ltac:(lia)).
    rewrite E, String.eqb_refl in H2. discriminate.
Qed.

Lemma approvals_loop_ok (uuid4 now : nat -> string) (cid : string)
  (l : list string) :
  forall (i : nat) (dur t : database),
    fresh_from (map Approval.approval_id (approvals t)) uuid4 i (length l) ->
    approvals_loop uuid4 now cid i l (mkconn dur t None)
    = Done tt (mkconn dur
                 (set_approvals
                    (approvals t ++ pending_rows uuid4 now cid i l) t)
                 None).
Proof.
  induction l as [|u rest IH]; intros i dur t Hf; simpl.
  - unfold ret. now rewrite set_approvals_app_nil.
  - unfold bind, execute, bind, store_call. simpl.
    unfold insert_approval. simpl.
    destruct (existsb _ (approvals t)) eqn:E.
    + apply existsb_approval_id in E.
      destruct (Hf i) as [Hn _]; [simpl; lia | contradiction].
    + rewrite IH.
      * simpl. unfold set_approvals. simpl. now rewrite <- app_assoc.
      * simpl. intros j Hj. split.
        -- rewrite map_app, in_app_iff. simpl. intros [Hin | [Heq | []]].
           ++ destruct (Hf j) as [Hn _]; [simpl; lia | contradiction].
           ++ destruct (Hf j) as [_ Hd]; [simpl; lia|].
              apply (Hd i); [lia | assumption].
        -- intros k Hk. destruct (Hf j) as [_ Hd]; [simpl; lia|].
           apply Hd. lia.
Qed.

Lemma approve_contract_ok (aid cid : string) (d : database) :
  with_connection (approve_contract aid cid) None d
  = (approve_committed aid cid d, inr tt).
Proof.
  unfold with_connection, approve_contract, approve_committed, bind,
    execute, query, conn_commit, bind, store_call, update. simpl.
  destruct (Nat.eqb _ _); reflexivity.
Qed.

Lemma reject_contract_ok (aid cid : string) (d : database) :
  with_connection (reject_contract aid cid) None d
  = (reject_committed aid cid d, inr tt).
Proof. reflexivity. Qed.

Lemma select_approvers_update_status (s cid : string) (d : database) :
  select_approvers (update_contract_status s cid d) = select_approvers d.
Proof. reflexivity. Qed.

Lemma submit_contract_ok (uuid4 now : nat -> string) (cid : string)
  (d : database) :
  fresh_for (map Approval.approval_id (approvals d)) uuid4
            (length (select_approvers d)) ->
  with_connection (submit_contract_for_approval uuid4 now cid) None d
  = (submit_committed uuid4 now cid d, inr tt).
Proof.
  intros Hf.
  unfold with_connection, submit_contract_for_approval, submit_committed.
  unfold bind at 1 2 3 4. unfold execute, query, conn_commit, bind,
    store_call, update. simpl.
  rewrite approvals_loop_ok by exact Hf.
  reflexivity.
Qed.

(** ** Facts about the statements *)

Lemma contract_status_update_same (s cid : string) (d : database) :
  contract_status cid (update_contract_status s cid d)
  = option_map (fun _ => s) (contract_status cid d).
Proof.
  unfold contract_status, update_contract_status. simpl.
  induction (contracts d) as [|c l IH]; simpl; [reflexivity|].
  destruct (Contract.contract_id c =? cid) eqn:E; simpl.
  - now rewrite E.
  - now rewrite E.
Qed.

Lemma contract_status_update_other (s cid cid' : string) (d : database) :
  cid' <> cid ->
  contract_status cid' (update_contract_status s cid d)
  = contract_status cid' d.
Proof.
  intros Hne. unfold contract_status, update_contract_status. simpl.
  induction (contracts d) as [|c l IH]; simpl; [reflexivity|].
  destruct (Contract.contract_id c =? cid) eqn:E; simpl.
  - apply String.eqb_eq in E.
    destruct (Contract.contract_id c =? cid') eqn:E'.
    + apply String.eqb_eq in E'. congruence.
    + exact IH.
  - destruct (Contract.contract_id c =? cid'); [reflexivity | exact IH].
Qed.

Lemma filter_update_other_ids (s aid : string) (l : list Approval.t) :
  filter (fun a => negb (Approval.approval_id a =? aid))
         (map (fun a => if Approval.approval_id a =? aid
                        then Approval.set_approval_status s a else a) l)
  = filter (fun a => negb (Approval.approval_id a =? aid)) l.
Proof.
  induction l as [|a l IH]; simpl; [reflexivity|].
  destruct (Approval.approval_id a =? aid) eqn:E; simpl; rewrite E; simpl.
  - exact IH.
  - now rewrite IH.
Qed.

(** ** The rows a submission inserts *)

Lemma pending_rows_approvers (uuid4 now : nat -> string) (cid : string)
  (l : list string) :
  forall i, map Approval.approver_id (pending_rows uuid4 now cid i l) = l.
Proof.
  induction l as [|u rest IH]; intros i; simpl; [reflexivity|].
  now rewrite IH.
Qed.

Lemma pending_rows_length (uuid4 now : nat -> string) (cid : string)
  (l : list string) :
  forall i, length (pending_rows uuid4 now cid i l) = length l.
Proof.
  induction l as [|u rest IH]; intros i; simpl; [reflexivity|].
  now rewrite IH.
Qed.

Lemma pending_rows_nth (uuid4 now : nat -> string) (cid : string)
  (l : list string) :
  forall i k a,
    nth_error (pending_rows uuid4 now cid i l) k = Some a ->
    Approval.approval_id a = uuid4 (i + k)
    /\ Approval.timestamp a = now (i + k)
    /\ Approval.contract_id a = cid
    /\ Approval.approval_status a = "Pending"
    /\ nth_error l k = Some (Approval.approver_id a).
Proof.
  induction l as [|u rest IH]; intros i k a H.
  - destruct k; discriminate.
  - destruct k as [|k]; simpl in H.
    + injection H as <-. simpl. rewrite Nat.add_0_r. repeat split.
    + apply IH in H. replace (i + S k) with (S i + k) by lia. exact H.
Qed.

Lemma pending_rows_In (uuid4 now : nat -> string) (cid : string)
  (l : list string) (i : nat) (a : Approval.t) :
  In a (pending_rows uuid4 now cid i l) ->
  Approval.contract_id a = cid
  /\ Approval.approval_status a = "Pending"
  /\ exists k, k < length l /\ Approval.approval_id a = uuid4 (i + k).
Proof.
  intros H. apply In_nth_error in H as [k Hk].
  pose proof (pending_rows_nth _ _ _ _ _ _ _ Hk) as (H1 & _ & H3 & H4 & H5).
  repeat split; try assumption.
  exists k. split; [|assumption].
  apply nth_error_Some. congruence.
Qed.

(** ** Counting approvals *)

Lemma count_of_contract_le (cid : string) (q : Approval.t -> bool)
  (l : list Approval.t) :
  length (filter (fun a => (Approval.contract_id a =? cid) && q a) l)
  <= length (filter (fun a => Approval.contract_id a =? cid) l).
Proof.
  induction l as [|a l IH]; simpl; [lia|].
  destruct (Approval.contract_id a =? cid); simpl; [|exact IH].
  destruct (q a); simpl; lia.
Qed.

Lemma count_approved_le (cid : string) (d : database) :
  count_approved cid d <= count_approvals cid d.
Proof. apply count_of_contract_le. Qed.

Lemma count_approvals_update (s aid cid : string) (d : database) :
  count_approvals cid (update_approval_status s aid d) = count_approvals cid d.
Proof.
  unfold count_approvals, update_approval_status. simpl.
  induction (approvals d) as [|a l IH]; simpl; [reflexivity|].
  assert (E : Approval.contract_id
                (if Approval.approval_id a =? aid
                 then Approval.set_approval_status s a else a)
              = Approval.contract_id a)
    by (destruct (Approval.approval_id a =? aid); reflexivity).
  rewrite E. destruct (Approval.contract_id a =? cid); simpl; now rewrite IH.
Qed.

Lemma update_other_ids (s aid : string) (l : list Approval.t) :
  Forall (fun a => Approval.approval_id a <> aid) l ->
  map (fun a => if Approval.approval_id a =? aid
                then Approval.set_approval_status s a else a) l = l.
Proof.
  induction 1 as [|a l Ha _ IH]; simpl; [reflexivity|].
  apply String.eqb_neq in Ha. now rewrite Ha, IH.
Qed.

Lemma no_approved_among_pending (cid : string) (l : list Approval.t) :
  Forall (fun a => Approval.approval_status a = "Pending") l ->
  filter (fun a => (Approval.contract_id a =? cid)
                   && (Approval.approval_status a =? "Approved")) l = [].
Proof.
  induction 1 as [|a l Ha _ IH]; simpl; [reflexivity|].
  rewrite Ha. simpl. rewrite andb_false_r. exact IH.
Qed.

Lemma all_of_contract (cid : string) (l : list Approval.t) :
  Forall (fun a => Approval.contract_id a = cid) l ->
  filter (fun a => Approval.contract_id a =? cid) l = l.
Proof.
  induction 1 as [|a l Ha _ IH]; simpl; [reflexivity|].
  apply String.eqb_eq in Ha. now rewrite Ha, IH.
Qed.

Lemma pending_rows_status (uuid4 now : nat -> string) (cid : string)
  (i : nat) (l : list string) :
  Forall (fun a => Approval.approval_status a = "Pending")
         (pending_rows uuid4 now cid i l).
Proof.
  apply Forall_forall. intros a Ha. now apply pending_rows_In in Ha.
Qed.

Lemma pending_rows_contract (uuid4 now : nat -> string) (cid : string)
  (i : nat) (l : list string) :
  Forall (fun a => Approval.contract_id a = cid)
         (pending_rows uuid4 now cid i l).
Proof.
  apply Forall_forall. intros a Ha. now apply pending_rows_In in Ha.
Qed.

Lemma pending_rows_fresh (uuid4 now : nat -> string) (cid aid : string)
  (taken : list string) (l : list string) :
  fresh_for taken uuid4 (length l) ->
  In aid taken ->
  Forall (fun a => Approval.approval_id a <> aid)
         (pending_rows uuid4 now cid 0 l).
Proof.
  intros Hf Hin. apply Forall_forall. intros a Ha.
  apply pending_rows_In in Ha as (_ & _ & k & Hk & E). simpl in E.
  intros Heq. destruct (Hf k) as [Hn _]; [lia|]. congruence.
Qed.

(** ** Invoices *)

Lemma set_paid_of_paid (i : Invoice.t) :
  Invoice.payment_status i = "Paid" ->
  Invoice.set_payment_status "Paid" i = i.
Proof. destruct i. simpl. intros ->. reflexivity. Qed.

Lemma update_invoice_paid_noop (iid : string) (d : database) :
  existsb (fun inv => (Invoice.invoice_id inv =? iid)
                      && negb (Invoice.payment_status inv =? "Paid"))
          (invoices d) = false ->
  update_invoice_paid iid d = d.
Proof.
  intros H. unfold update_invoice_paid.
  assert (E : map (fun i => if Invoice.invoice_id i =? iid
                            then Invoice.set_payment_status "Paid" i else i)
                  (invoices d) = invoices d).
  { induction (invoices d) as [|i l IH]; simpl in *; [reflexivity|].
    apply orb_false_iff in H as [H1 H2]. rewrite (IH H2).
    destruct (Invoice.invoice_id i =? iid); [|reflexivity].
    simpl in H1. apply negb_false_iff, String.eqb_eq in H1.
    now rewrite set_paid_of_paid. }
  rewrite E. now destruct d.
Qed.

Lemma mark_paid_ok (iid : string) (d : database) :
  with_connection (mark_paid iid) None d = (update_invoice_paid iid d, inr tt).
Proof.
  unfold with_connection, mark_paid, bind, query, execute, conn_commit, bind,
    store_call, update. simpl.
  destruct (existsb _ (invoices d)) eqn:E; simpl; [reflexivity|].
  now rewrite (update_invoice_paid_noop _ _ E).
Qed.

Lemma invoice_row_update (iid iid' : string) (d : database) :
  invoice_row iid (update_invoice_paid iid' d)
  = option_map (fun i => if Invoice.invoice_id i =? iid'
                         then Invoice.set_payment_status "Paid" i else i)
               (invoice_row iid d).
Proof.
  unfold invoice_row, update_invoice_paid. simpl.
  induction (invoices d) as [|i l IH]; simpl; [reflexivity|].
  assert (E : Invoice.invoice_id
                (if Invoice.invoice_id i =? iid'
                 then Invoice.set_payment_status "Paid" i else i)
              = Invoice.invoice_id i)
    by (destruct (Invoice.invoice_id i =? iid'); reflexivity).
  rewrite E. destruct (Invoice.invoice_id i =? iid); [reflexivity | exact IH].
Qed.

Lemma invoice_row_app (iid : string) (d : database) (l : list Invoice.t)
  (inv : Invoice.t) :
  invoice_row iid d = Some inv ->
  invoice_row iid (set_invoices (invoices d ++ l) d) = Some inv.
Proof.
  unfold invoice_row. simpl.
  induction (invoices d) as [|i l' IH]; simpl; [discriminate|].
  destruct (Invoice.invoice_id i =? iid); [trivial | exact IH].
Qed.

Lemma update_invoice_paid_twice (iid : string) (d : database) :
  update_invoice_paid iid (update_invoice_paid iid d)
  = update_invoice_paid iid d.
Proof.
  unfold update_invoice_paid, set_invoices. simpl. f_equal.
  rewrite map_map. apply map_ext. intros i.
  destruct (Invoice.invoice_id i =? iid) eqn:E; simpl; now rewrite E.
Qed.

(** A Paid row is left alone by every request, whatever the store does. *)
Lemma paid_row_kept_by (r : request) (d d' : database)
  (iid : string) (inv : Invoice.t) :
  may_leave r d d' ->
  invoice_row iid d = Some inv ->
  Invoice.payment_status inv = "Paid" ->
  invoice_row iid d' = Some inv.
Proof.
  intros H Hrow Hpaid.
  destruct r; simpl in H;
    repeat match goal with
           | H : _ \/ _ |- _ => destruct H as [H | H]
           | H : exists _, _ |- _ => destruct H as [? H]
           | H : _ = _ /\ _ |- _ => destruct H as [H _]
           end;
    try (rewrite H; exact Hrow).
  - rewrite H. unfold approve_committed.
    destruct (Nat.eqb _ _); exact Hrow.
  - rewrite H. now apply invoice_row_app.
  - rewrite H, invoice_row_update, Hrow. simpl.
    rewrite (set_paid_of_paid _ Hpaid).
    now destruct (Invoice.invoice_id inv =? invoice_id).
Qed.

Lemma paid_row_kept (r : request) (f : option nat) (d : database)
  (iid : string) (inv : Invoice.t) :
  invoice_row iid d = Some inv ->
  Invoice.payment_status inv = "Paid" ->
  invoice_row iid (handle r f d) = Some inv.
Proof. apply (paid_row_kept_by r), handle_may_leave. Qed.

Lemma paid_row_kept_all (rs : list (request * option nat)) :
  forall (d : database) (iid : string) (inv : Invoice.t),
    invoice_row iid d = Some inv ->
    Invoice.payment_status inv = "Paid" ->
    invoice_row iid (handle_all rs d) = Some inv.
Proof.
  induction rs as [|[r f] rest IH]; intros d iid inv Hrow Hpaid; simpl.
  - exact Hrow.
  - apply IH; [|exact Hpaid]. now apply paid_row_kept.
Qed.

(** ** Commit points of the workflow functions *)

Lemma approve_contract_results (aid cid : string) (f : option nat)
  (d : database) :
  (exists e, with_connection (approve_contract aid cid) f d = (d, inl e))
  \/ (exists e, with_connection (approve_contract aid cid) f d
                = (update_approval_status "Approved" aid d, inl e))
  \/ with_connection (approve_contract aid cid) f d
     = (approve_committed aid cid d, inr tt).
Proof.
  unfold approve_contract, approve_committed, with_connection, bind. simpl.
  next_call; [left; eexists; now rewrite Hdur|].
  unfold update in Hstmt. injection Hstmt as <-.
  next_call; [left; now eexists|].
  next_call; [right; left; now eexists|].
  next_call; [right; left; now eexists|].
  destruct (Nat.eqb _ _).
  - next_call; [right; left; eexists; now rewrite Hdur|].
    unfold update in Hstmt. injection Hstmt as <-.
    next_call; [right; left; now eexists | now (right; right)].
  - simpl. next_call; [right; left; now eexists | now (right; right)].
Qed.

Lemma reject_contract_results (aid cid : string) (f : option nat)
  (d : database) :
  (exists e, with_connection (reject_contract aid cid) f d = (d, inl e))
  \/ with_connection (reject_contract aid cid) f d
     = (reject_committed aid cid d, inr tt).
Proof.
  unfold reject_contract, reject_committed, with_connection, bind. simpl.
  next_call; [left; eexists; now rewrite Hdur|].
  unfold update in Hstmt. injection Hstmt as <-.
  next_call; [left; eexists; now rewrite Hdur|].
  unfold update in Hstmt. injection Hstmt as <-.
  next_call; [left; now eexists | now right].
Qed.

Lemma submit_contract_results (uuid4 now : nat -> string) (cid : string)
  (f : option nat) (d : database) :
  (exists e, with_connection (submit_contract_for_approval uuid4 now cid) f d
             = (d, inl e))
  \/ (exists e, with_connection (submit_contract_for_approval uuid4 now cid)
                                f d
                = (update_contract_status "Pending Approval" cid d, inl e))
  \/ with_connection (submit_contract_for_approval uuid4 now cid) f d
     = (submit_committed uuid4 now cid d, inr tt).
Proof.
  unfold submit_contract_for_approval, submit_committed, with_connection,
    bind. simpl.
  next_call; [left; eexists; now rewrite Hdur|].
  unfold update in Hstmt. injection Hstmt as <-.
  next_call; [left; now eexists|].
  next_call; [right; left; now eexists|].
  match goal with |- context [approvals_loop ?a ?b ?c ?i ?l ?c0] =>
    destruct (approvals_loop_cases a b c l i c0)
      as [(e & c' & -> & Hd) | (m & -> & _)] end; simpl in *.
  - right; left. eexists. now rewrite Hd.
  - next_call; [right; left; now eexists | now (right; right)].
Qed.

(** ** Contracts without approvals *)

Lemma contract_status_app (cid : string) (d : database)
  (l : list Contract.t) :
  contract_status cid (set_contracts (contracts d ++ l) d)
  = match contract_status cid d with
    | Some s => Some s
    | None => option_map Contract.status
                (find (fun c => Contract.contract_id c =? cid) l)
    end.
Proof.
  unfold contract_status. simpl.
  induction (contracts d) as [|c l' IH]; simpl; [reflexivity|].
  destruct (Contract.contract_id c =? cid); [reflexivity | exact IH].
Qed.

Lemma count_approvals_app_other (cid : string) (d : database)
  (l : list Approval.t) :
  Forall (fun a => Approval.contract_id a <> cid) l ->
  count_approvals cid (set_approvals (approvals d ++ l) d)
  = count_approvals cid d.
Proof.
  intros H. unfold count_approvals. simpl. rewrite filter_app, length_app.
  assert (E : filter (fun a => Approval.contract_id a =? cid) l = []).
  { induction H as [|a l Ha _ IH]; simpl; [reflexivity|].
    apply String.eqb_neq in Ha. now rewrite Ha. }
  rewrite E. simpl. lia.
Qed.

Lemma decides_existing_counted (aid cid : string) (d : database) :
  decides_existing aid cid d = true -> 0 < count_approvals cid d.
Proof.
  unfold decides_existing, count_approvals. intros H.
  apply existsb_exists in H as (a & Hin & Ha).
  apply andb_true_iff in Ha as [_ Hc].
  assert (Hf : In a (filter (fun a => Approval.contract_id a =? cid)
                            (approvals d)))
    by (apply filter_In; now split).
  destruct (filter _ (approvals d)); [destruct Hf | simpl; lia].
Qed.

Lemma unapproved_kept_by (cid : string) (r : request) (d d' : database) :
  may_leave r d d' ->
  other_than_submit cid r d = true ->
  contract_status cid d = Some "Pending Approval" ->
  count_approvals cid d = 0 ->
  contract_status cid d' = Some "Pending Approval"
  /\ count_approvals cid d' = 0.
Proof.
  intros H Hadm Hst Hcnt.
  destruct r; simpl in H, Hadm;
    repeat match goal with
           | H : _ \/ _ |- _ => destruct H as [H | H]
           | H : exists _, _ |- _ => destruct H as [? H]
           | H : _ = _ /\ _ |- _ => destruct H as [H _]
           end;
    try (subst d'; now split).
  - (* a contract is inserted *)
    subst d'. split; [|exact Hcnt]. now rewrite contract_status_app, Hst.
  - (* another contract is submitted, status committed *)
    apply negb_true_iff, String.eqb_neq in Hadm. subst d'.
    split; [|exact Hcnt].
    rewrite contract_status_update_other by congruence. exact Hst.
  - apply negb_true_iff, String.eqb_neq in Hadm. subst d'.
    unfold submit_committed. split.
    + change (contract_status cid
                (update_contract_status "Pending Approval" contract_id d)
              = Some "Pending Approval").
      rewrite contract_status_update_other by congruence. exact Hst.
    + rewrite count_approvals_app_other; [exact Hcnt|].
      eapply Forall_impl; [|apply pending_rows_contract].
      simpl. intros a ->. exact Hadm.
  - subst d'. split; [exact Hst|]. now rewrite count_approvals_update.
  - apply decides_existing_counted in Hadm.
    assert (Hne : cid <> contract_id) by (intros ->; lia).
    subst d'. unfold approve_committed.
    destruct (Nat.eqb _ _).
    + split.
      * rewrite contract_status_update_other by exact Hne. exact Hst.
      * change (count_approvals cid
                  (update_approval_status "Approved" approval_id d) = 0).
        now rewrite count_approvals_update.
    + split; [exact Hst|]. now rewrite count_approvals_update.
  - apply decides_existing_counted in Hadm.
    assert (Hne : cid <> contract_id) by (intros ->; lia).
    subst d'. unfold reject_committed. split.
    + rewrite contract_status_update_other by exact Hne. exact Hst.
    + change (count_approvals cid
                (update_approval_status "Rejected" approval_id d) = 0).
      now rewrite count_approvals_update.
Qed.

Lemma unapproved_kept_all (cid : string) (rs : list (request * option nat)) :
  forall d,
    all_other_than_submit cid rs d = true ->
    contract_status cid d = Some "Pending Approval" ->
    count_approvals cid d = 0 ->
    contract_status cid (handle_all rs d) = Some "Pending Approval"
    /\ count_approvals cid (handle_all rs d) = 0.
Proof.
  induction rs as [|[r f] rest IH]; intros d Hadm Hst Hcnt; simpl in *.
  - now split.
  - apply andb_true_iff in Hadm as [H1 H2].
    destruct (unapproved_kept_by cid r d (handle r f d)
                (handle_may_leave r f d) H1 Hst Hcnt) as [Hst' Hcnt'].
    now apply IH.
Qed.

(** Only [approve_contract], called for that contract, makes a contract
    ["Active"]. *)
Lemma only_approve_activates (r : request) (f : option nat) (d : database)
  (cid : string) :
  contract_status cid d <> Some "Active" ->
  contract_status cid (handle r f d) = Some "Active" ->
  exists aid, r = Approve aid cid.
Proof.
  intros Hbefore Hafter.
  pose proof (handle_may_leave r f d) as H.
  remember (handle r f d) as d' eqn:Ed'. clear Ed'.
  destruct r; simpl in H;
    repeat match goal with
           | H : _ \/ _ |- _ => destruct H as [H | H]
           | H : exists _, _ |- _ => destruct H as [? H]
           | H : _ = _ /\ _ |- _ => destruct H as [H _]
           end;
    try (subst d'; contradiction).
  - subst d'. rewrite contract_status_app in Hafter.
    destruct (contract_status cid d); [contradiction|].
    simpl in Hafter. destruct (uuid4 =? cid); discriminate.
  - subst d'. destruct (String.eqb_spec cid contract_id) as [->|Hne].
    + rewrite contract_status_update_same in Hafter.
      destruct (contract_status contract_id d); discriminate.
    + rewrite contract_status_update_other in Hafter by exact Hne.
      contradiction.
  - subst d'. unfold submit_committed in Hafter.
    change (contract_status cid
              (update_contract_status "Pending Approval" contract_id d)
            = Some "Active") in Hafter.
    destruct (String.eqb_spec cid contract_id) as [->|Hne].
    + rewrite contract_status_update_same in Hafter.
      destruct (contract_status contract_id d); discriminate.
    + rewrite contract_status_update_other in Hafter by exact Hne.
      contradiction.
  - subst d'. destruct (String.eqb_spec cid contract_id) as [->|Hne].
    + now exists approval_id.
    + unfold approve_committed in Hafter. destruct (Nat.eqb _ _).
      * rewrite contract_status_update_other in Hafter by exact Hne.
        contradiction.
      * contradiction.
  - subst d'. unfold reject_committed in Hafter.
    destruct (String.eqb_spec cid contract_id) as [->|Hne].
    + rewrite contract_status_update_same in Hafter.
      change (contract_status contract_id
                (update_approval_status "Rejected" approval_id d))
        with (contract_status contract_id d) in Hafter.
      destruct (contract_status contract_id d); discriminate.
    + rewrite contract_status_update_other in Hafter by exact Hne.
      contradiction.
Qed.

(** Users are only ever appended, and approvals are only created for
    approvers: while no user is an approver the [approvals] table is
    empty. *)
Lemma no_approver_no_approval_by (r : request) (d d' : database) :
  may_leave r d d' ->
  (select_approvers d = [] -> approvals d = []) ->
  select_approvers d' = [] -> approvals d' = [].
Proof.
  intros H K Hno.
  destruct r; simpl in H;
    repeat match goal with
           | H : _ \/ _ |- _ => destruct H as [H | H]
           | H : exists _, _ |- _ => destruct H as [? H]
           | H : _ = _ /\ _ |- _ => destruct H as [H _]
           end;
    subst d'; try (exact (K Hno)).
  - (* users appended *)
    apply K. unfold select_approvers in *. simpl in Hno.
    rewrite filter_app, map_app in Hno. now apply app_eq_nil in Hno.
  - (* a submission *)
    change (select_approvers d = []) in Hno.
    change ((approvals d
             ++ pending_rows uuid4 now contract_id 0 (select_approvers d))%list
            = []).
    now rewrite Hno, (K Hno).
  - change (select_approvers d = []) in Hno. simpl. now rewrite (K Hno).
  - unfold approve_committed in *.
    destruct (Nat.eqb _ _); change (select_approvers d = []) in Hno; simpl;
      now rewrite (K Hno).
  - change (select_approvers d = []) in Hno. simpl. now rewrite (K Hno).
Qed.

Lemma no_approver_no_approval (rs : list (request * option nat)) :
  forall d,
    (select_approvers d = [] -> approvals d = []) ->
    select_approvers (handle_all rs d) = [] ->
    approvals (handle_all rs d) = [].
Proof.
  induction rs as [|[r f] rest IH]; intros d K; simpl.
  - exact K.
  - apply IH. apply (no_approver_no_approval_by r d).
    + apply handle_may_leave.
    + exact K.
Qed.

(** ** The invariant of the workflow *)

Lemma offers_decision_pending (approver aid cid : string) (d : database) :
  offers_decision approver aid cid d = true ->
  exists a, In a (approvals d)
            /\ Approval.approval_id a = aid
            /\ Approval.contract_id a = cid
            /\ Approval.approval_status a = "Pending".
Proof.
  unfold offers_decision, select_pending_reviews. intros H.
  apply existsb_exists in H as ([c' a'] & Hin & Hm). simpl in Hm.
  apply andb_true_iff in Hm as [H1 H2]. apply String.eqb_eq in H1, H2.
  subst c' a'.
  apply in_flat_map in Hin as (c & _ & Hin).
  apply in_map_iff in Hin as (a & Heq & Hin).
  injection Heq as Hc Ha.
  apply filter_In in Hin as [Hin Hm].
  apply andb_true_iff in Hm as [Hm H3].
  apply andb_true_iff in Hm as [H1 _].
  apply String.eqb_eq in H1, H3.
  exists a. repeat split; congruence.
Qed.

Lemma same_key_same_row (l : list Approval.t) (a b : Approval.t) :
  NoDup (map Approval.approval_id l) ->
  In a l -> In b l -> Approval.approval_id a = Approval.approval_id b ->
  a = b.
Proof.
  induction l as [|x l IH]; simpl; intros Hnd Ha Hb E; [destruct Ha|].
  inversion Hnd as [|? ? Hx Hnd']; subst.
  destruct Ha as [-> | Ha], Hb as [-> | Hb].
  - reflexivity.
  - exfalso. apply Hx. rewrite E. now apply in_map.
  - exfalso. apply Hx. rewrite <- E. now apply in_map.
  - now apply IH.
Qed.

Lemma update_keeps_keys (s aid : string) (l : list Approval.t) :
  map Approval.approval_id
      (map (fun a => if Approval.approval_id a =? aid
                     then Approval.set_approval_status s a else a) l)
  = map Approval.approval_id l.
Proof.
  rewrite map_map. apply map_ext. intros a.
  now destruct (Approval.approval_id a =? aid).
Qed.

(** Rows of [contracts] after a status update. *)
Lemma in_updated_contracts (s cid : string) (d : database) (c' : Contract.t) :
  In c' (contracts (update_contract_status s cid d)) ->
  exists c, In c (contracts d)
            /\ Contract.contract_id c' = Contract.contract_id c
            /\ ((Contract.contract_id c = cid /\ Contract.status c' = s)
                \/ (Contract.contract_id c <> cid /\ c' = c)).
Proof.
  unfold update_contract_status. simpl. intros H.
  apply in_map_iff in H as (c & E & Hin). exists c. split; [exact Hin|].
  destruct (String.eqb_spec (Contract.contract_id c) cid) as [Heq | Hne];
    subst c'.
  - split; [reflexivity|]. left. now split.
  - split; [reflexivity|]. right. now split.
Qed.

(** Rows of [approvals] after a status update. *)
Lemma in_updated_approvals (s aid : string) (d : database) (a' : Approval.t) :
  In a' (approvals (update_approval_status s aid d)) ->
  exists a, In a (approvals d)
            /\ Approval.contract_id a' = Approval.contract_id a
            /\ Approval.approval_id a' = Approval.approval_id a
            /\ ((Approval.approval_id a = aid
                 /\ Approval.approval_status a' = s)
                \/ (Approval.approval_id a <> aid /\ a' = a)).
Proof.
  unfold update_approval_status. simpl. intros H.
  apply in_map_iff in H as (a & E & Hin). exists a. split; [exact Hin|].
  destruct (String.eqb_spec (Approval.approval_id a) aid) as [Heq | Hne];
    subst a'.
  - repeat split. left. now split.
  - repeat split. right. now split.
Qed.

Lemma updated_approval_in (s aid : string) (d : database) (a : Approval.t) :
  In a (approvals d) ->
  In (if Approval.approval_id a =? aid
      then Approval.set_approval_status s a else a)
     (approvals (update_approval_status s aid d)).
Proof.
  intros H. unfold update_approval_status. simpl.
  apply in_map_iff. now exists a.
Qed.

(** When the two counts agree every approval of the contract is Approved. *)
Lemma unanimous_all_approved (cid : string) (l : list Approval.t) :
  length (filter (fun a => (Approval.contract_id a =? cid)
                           && (Approval.approval_status a =? "Approved")) l)
  = length (filter (fun a => Approval.contract_id a =? cid) l) ->
  forall a, In a l -> Approval.contract_id a = cid ->
            Approval.approval_status a = "Approved".
Proof.
  induction l as [|x l IH]; simpl; intros E a Ha Hc; [destruct Ha|].
  pose proof (count_of_contract_le cid
                (fun a => Approval.approval_status a =? "Approved") l) as Hle.
  destruct (Approval.contract_id x =? cid) eqn:Ex; simpl in E.
  - destruct (Approval.approval_status x =? "Approved") eqn:Es; simpl in E.
    + destruct Ha as [-> | Ha].
      * now apply String.eqb_eq.
      * apply IH; [lia | assumption | assumption].
    + lia.
  - destruct Ha as [-> | Ha].
    + apply String.eqb_neq in Ex. contradiction.
    + now apply IH.
Qed.

Lemma inv_frame (d d' : database) :
  contracts d' = contracts d -> approvals d' = approvals d ->
  workflow_inv d -> workflow_inv d'.
Proof.
  unfold workflow_inv, keys_unique, active_unanimous, rejected_has_rejection,
    statuses_known.
  intros -> ->. trivial.
Qed.

Lemma inv_create (r : Contract.t) (d : database) :
  Contract.status r = "Draft" ->
  workflow_inv d -> workflow_inv (set_contracts (contracts d ++ [r]) d).
Proof.
  intros Hr (K & A & R & S). repeat split.
  - exact K.
  - intros c a Hc Hs. simpl in Hc. apply in_app_iff in Hc as [Hc | [<- | []]].
    + now apply A.
    + rewrite Hr in Hs. discriminate.
  - intros c Hc Hs. simpl in Hc. apply in_app_iff in Hc as [Hc | [<- | []]].
    + now apply R.
    + rewrite Hr in Hs. discriminate.
  - unfold statuses_known. simpl. apply Forall_app. split; [exact S|].
    constructor; [|constructor]. rewrite Hr. simpl. auto.
Qed.

Lemma inv_status_pending (cid : string) (d : database) :
  workflow_inv d ->
  workflow_inv (update_contract_status "Pending Approval" cid d).
Proof.
  intros (K & A & R & S). repeat split.
  - exact K.
  - intros c' a Hc Hs Ha Hca.
    apply in_updated_contracts in Hc as (c & Hc & Hid & [[_ E] | [_ ->]]).
    + rewrite E in Hs. discriminate.
    + now apply (A c a).
  - intros c' Hc Hs.
    apply in_updated_contracts in Hc as (c & Hc & Hid & [[_ E] | [_ ->]]).
    + rewrite E in Hs. discriminate.
    + now apply R.
  - apply Forall_forall. intros c' Hc.
    apply in_updated_contracts in Hc as (c & Hc & Hid & [[_ E] | [_ ->]]).
    + rewrite E. simpl. auto.
    + unfold statuses_known in S. rewrite Forall_forall in S. now apply S.
Qed.

Lemma inv_submit_committed (uuid4 now : nat -> string) (cid : string)
  (d : database) :
  workflow_inv d ->
  keys_unique (submit_committed uuid4 now cid d) ->
  workflow_inv (submit_committed uuid4 now cid d).
Proof.
  intros Hinv K'.
  destruct (inv_status_pending cid d Hinv) as (_ & A & R & S).
  set (d1 := update_contract_status "Pending Approval" cid d) in *.
  unfold submit_committed. fold d1. repeat split.
  - exact K'.
  - intros c a Hc Hs Ha Hca. simpl in Hc, Ha.
    apply in_app_iff in Ha as [Ha | Ha]; [now apply (A c a)|].
    apply pending_rows_In in Ha as (Hcid & _).
    apply in_updated_contracts in Hc as (c0 & _ & Hid & [[_ E] | [Hne ->]]).
    + rewrite E in Hs. discriminate.
    + congruence.
  - intros c Hc Hs. simpl in Hc.
    destruct (R c Hc Hs) as (a & Ha & H1 & H2).
    exists a. split; [|now split]. simpl. apply in_app_iff. now left.
  - exact S.
Qed.

Lemma inv_approved (aid : string) (d : database) (p : Approval.t) :
  In p (approvals d) -> Approval.approval_id p = aid ->
  Approval.approval_status p = "Pending" ->
  workflow_inv d ->
  workflow_inv (update_approval_status "Approved" aid d).
Proof.
  intros Hp Hpid Hps (K & A & R & S). repeat split.
  - unfold keys_unique, update_approval_status. simpl.
    now rewrite update_keeps_keys.
  - intros c a' Hc Hs Ha Hca.
    apply in_updated_approvals in Ha
      as (a & Ha & Hcid & _ & [[_ E] | [_ ->]]); [exact E|].
    now apply (A c a).
  - intros c Hc Hs. destruct (R c Hc Hs) as (r & Hr & H1 & H2).
    exists r. split; [|now split].
    assert (Hne : Approval.approval_id r <> aid).
    { intros E. assert (r = p)
        by (apply (same_key_same_row (approvals d));
            [exact K | assumption | assumption | congruence]).
      subst r. rewrite Hps in H2. discriminate. }
    apply String.eqb_neq in Hne.
    pose proof (updated_approval_in "Approved" aid d r Hr) as Hin.
    now rewrite Hne in Hin.
  - exact S.
Qed.

Lemma inv_approve_committed (aid cid : string) (d : database)
  (p : Approval.t) :
  In p (approvals d) -> Approval.approval_id p = aid ->
  Approval.approval_status p = "Pending" ->
  workflow_inv d ->
  workflow_inv (approve_committed aid cid d).
Proof.
  intros Hp Hpid Hps Hinv.
  pose proof (inv_approved aid d p Hp Hpid Hps Hinv) as (K & A & R & S).
  unfold approve_committed.
  set (d1 := update_approval_status "Approved" aid d) in *.
  destruct (Nat.eqb (count_approved cid d1) (count_approvals cid d1)) eqn:E;
    [|now repeat split].
  apply Nat.eqb_eq in E. repeat split.
  - exact K.
  - intros c' a Hc Hs Ha Hca. simpl in Ha.
    apply in_updated_contracts in Hc as (c & Hc & Hid & [[Hcid _] | [_ ->]]).
    + apply (unanimous_all_approved cid (approvals d1) E a Ha). congruence.
    + now apply (A c a).
  - intros c' Hc Hs.
    apply in_updated_contracts in Hc as (c & Hc & Hid & [[_ E'] | [_ ->]]).
    + rewrite E' in Hs. discriminate.
    + now apply R.
  - apply Forall_forall. intros c' Hc.
    apply in_updated_contracts in Hc as (c & Hc & Hid & [[_ E'] | [_ ->]]).
    + rewrite E'. simpl. auto.
    + unfold statuses_known in S. rewrite Forall_forall in S. now apply S.
Qed.

Lemma inv_reject_committed (aid cid : string) (d : database)
  (p : Approval.t) :
  In p (approvals d) -> Approval.approval_id p = aid ->
  Approval.contract_id p = cid ->
  Approval.approval_status p = "Pending" ->
  workflow_inv d ->
  workflow_inv (reject_committed aid cid d).
Proof.
  intros Hp Hpid Hpc Hps (K & A & R & S). unfold reject_committed.
  set (d1 := update_approval_status "Rejected" aid d).
  repeat split.
  - unfold keys_unique, d1, update_approval_status. simpl.
    now rewrite update_keeps_keys.
  - intros c' a' Hc Hs Ha Hca. simpl in Ha.
    apply in_updated_contracts in Hc as (c & Hc & Hid & [[_ E] | [Hne ->]]).
    + rewrite E in Hs. discriminate.
    + apply in_updated_approvals in Ha
        as (a & Ha & Hcid & _ & [[Haid _] | [_ ->]]).
      * assert (a = p)
          by (apply (same_key_same_row (approvals d));
            [exact K | assumption | assumption | congruence]).
        subst a. congruence.
      * now apply (A c a).
  - intros c' Hc Hs.
    apply in_updated_contracts in Hc as (c & Hc & Hid & [[Hcid _] | [_ ->]]).
    + exists (Approval.set_approval_status "Rejected" p).
      split; [|split; [simpl; congruence | reflexivity]].
      pose proof (updated_approval_in "Rejected" aid d p Hp) as Hin.
      apply String.eqb_eq in Hpid. now rewrite Hpid in Hin.
    + destruct (R c Hc Hs) as (r & Hr & H1 & H2).
      pose proof (updated_approval_in "Rejected" aid d r Hr) as Hin.
      eexists. split; [exact Hin|].
      destruct (Approval.approval_id r =? aid); simpl; now split.
  - apply Forall_forall. intros c' Hc.
    apply in_updated_contracts in Hc as (c & Hc & Hid & [[_ E'] | [_ ->]]).
    + rewrite E'. simpl. auto.
    + unfold statuses_known in S. rewrite Forall_forall in S. now apply S.
Qed.

(** Every request the pages offer keeps the invariant, whatever the store
    does. *)
Lemma inv_kept_by (actor : string) (r : request) (d d' : database) :
  may_leave r d d' ->
  page_offers actor r d = true ->
  workflow_inv d -> workflow_inv d'.
Proof.
  intros H Hoff Hinv.
  destruct r; simpl in H, Hoff;
    repeat match goal with
           | H : _ \/ _ |- _ => destruct H as [H | H]
           | H : exists _, _ |- _ => destruct H as [? H]
           end;
    try (subst d'; exact Hinv);
    try (subst d'; now apply (inv_frame d)).
  - subst d'. now apply inv_create.
  - subst d'. now apply inv_status_pending.
  - destruct H as [-> Hk]. apply inv_submit_committed; [exact Hinv|].
    apply Hk, Hinv.
  - apply offers_decision_pending in Hoff as (p & Hp & H1 & H2 & H3).
    subst d'. now apply (inv_approved _ d p).
  - apply offers_decision_pending in Hoff as (p & Hp & H1 & H2 & H3).
    subst d'. now apply (inv_approve_committed _ _ d p).
  - apply offers_decision_pending in Hoff as (p & Hp & H1 & H2 & H3).
    subst d'. now apply (inv_reject_committed _ _ d p).
Qed.

Lemma inv_init : workflow_inv init_db.
Proof.
  repeat split.
  - constructor.
  - intros c a [].
  - intros c [].
  - constructor.
Qed.

Lemma inv_reachable (steps : list step) :
  forall d,
    workflow_inv d -> offered_all steps d = true ->
    workflow_inv (handle_all (requests_of steps) d).
Proof.
  induction steps as [|[[actor r] f] rest IH]; intros d Hinv Hoff; simpl in *.
  - exact Hinv.
  - apply andb_true_iff in Hoff as [H1 H2].
    apply IH; [|exact H2].
    apply (inv_kept_by actor r d); [apply handle_may_leave | exact H1
                                   | exact Hinv].
Qed.

Lemma contract_status_row (cid s : string) (d : database) :
  contract_status cid d = Some s ->
  exists c, In c (contracts d)
            /\ Contract.contract_id c = cid /\ Contract.status c = s.
Proof.
  unfold contract_status. intros H.
  destruct (find _ (contracts d)) as [c|] eqn:E; [|discriminate].
  apply find_some in E as [Hin Hid]. apply String.eqb_eq in Hid.
  injection H as <-. now exists c.
Qed.

(** The status column only ever holds one of the four statuses, whatever is
    requested and whatever the store does. *)
Lemma statuses_known_by (r : request) (d d' : database) :
  may_leave r d d' -> statuses_known d -> statuses_known d'.
Proof.
  assert (U : forall s cid d0,
             In s statuses -> statuses_known d0 ->
             statuses_known (update_contract_status s cid d0)).
  { intros s cid d0 Hs S. apply Forall_forall. intros c' Hc.
    apply in_updated_contracts in Hc as (c & Hc & _ & [[_ E] | [_ ->]]).
    - now rewrite E.
    - unfold statuses_known in S. rewrite Forall_forall in S. now apply S. }
  intros H S.
  destruct r; simpl in H;
    repeat match goal with
           | H : _ \/ _ |- _ => destruct H as [H | H]
           | H : exists _, _ |- _ => destruct H as [? H]
           | H : _ = _ /\ _ |- _ => destruct H as [H _]
           end;
    subst d'; try exact S.
  - unfold statuses_known. simpl. apply Forall_app. split; [exact S|].
    constructor; [simpl; auto | constructor].
  - apply U; [simpl; auto | exact S].
  - apply (U "Pending Approval" contract_id d); [simpl; auto | exact S].
  - unfold approve_committed. destruct (Nat.eqb _ _); [|exact S].
    apply U; [simpl; auto | exact S].
  - unfold reject_committed. apply U; [simpl; auto | exact S].
Qed.

Lemma statuses_known_all (rs : list (request * option nat)) :
  forall d, statuses_known d -> statuses_known (handle_all rs d).
Proof.
  induction rs as [|[r f] rest IH]; intros d S; simpl; [exact S|].
  apply IH. apply (statuses_known_by r d); [apply handle_may_leave | exact S].
Qed.

(** In a state with the invariant, a decision the approval page offers
    changes no status that is ["Active"] or ["Rejected"]. *)
Lemma terminal_kept (actor aid cid c0 : string) (f : option nat)
  (d : database) :
  workflow_inv d ->
  offers_decision actor aid cid d = true ->
  contract_status c0 d = Some "Active"
  \/ contract_status c0 d = Some "Rejected" ->
  contract_status c0 (handle (Approve aid cid) f d) = contract_status c0 d
  /\ contract_status c0 (handle (Reject aid cid) f d) = contract_status c0 d.
Proof.
  intros Hinv Hoff Hterm.
  pose proof Hinv as (K & A & R & S).
  apply offers_decision_pending in Hoff as (p & Hp & Hpid & Hpc & Hps).
  assert (Hnot_active : contract_status cid d <> Some "Active").
  { intros Hs. apply contract_status_row in Hs as (c & Hc & Hid & Hst).
    assert (E : Approval.approval_status p = "Approved")
      by (apply (A c p); congruence).
    rewrite Hps in E. discriminate. }
  split.
  - destruct (approve_contract_outcomes aid cid f d) as [E | [E | E]];
      simpl; rewrite E; try reflexivity.
    unfold approve_committed.
    set (d1 := update_approval_status "Approved" aid d).
    destruct (Nat.eqb (count_approved cid d1) (count_approvals cid d1))
      eqn:Ecnt; [|reflexivity].
    destruct (String.eqb_spec c0 cid) as [-> | Hne];
      [|now rewrite contract_status_update_other].
    exfalso. destruct Hterm as [Hs | Hs]; [contradiction|].
    apply contract_status_row in Hs as (c & Hc & Hid & Hst).
    pose proof (inv_approved aid d p Hp Hpid Hps Hinv) as (_ & _ & R1 & _).
    destruct (R1 c Hc Hst) as (r & Hr & Hrc & Hrs).
    apply Nat.eqb_eq in Ecnt.
    assert (E' : Approval.approval_status r = "Approved")
      by (apply (unanimous_all_approved cid (approvals d1) Ecnt r Hr);
          congruence).
    rewrite Hrs in E'. discriminate.
  - destruct (reject_contract_outcomes aid cid f d) as [E | E];
      simpl; rewrite E; [reflexivity|].
    unfold reject_committed.
    destruct (String.eqb_spec c0 cid) as [-> | Hne];
      [|now rewrite contract_status_update_other].
    rewrite contract_status_update_same.
    change (contract_status cid
              (update_approval_status "Rejected" aid d))
      with (contract_status cid d).
    destruct Hterm as [Hs | Hs]; [contradiction | now rewrite Hs].
Qed.

(** Without any condition on the state or on the approval: approving leaves
    an ["Active"] contract ["Active"], rejecting leaves a ["Rejected"] one
    ["Rejected"]. *)
Lemma same_decision_keeps_terminal (aid cid c0 : string) (f : option nat)
  (d : database) :
  (contract_status c0 d = Some "Active" ->
   contract_status c0 (handle (Approve aid cid) f d) = Some "Active")
  /\ (contract_status c0 d = Some "Rejected" ->
      contract_status c0 (handle (Reject aid cid) f d) = Some "Rejected").
Proof.
  split; intros Hs; simpl.
  - destruct (approve_contract_outcomes aid cid f d) as [E | [E | E]];
      rewrite E; try exact Hs.
    unfold approve_committed. destruct (Nat.eqb _ _); [|exact Hs].
    destruct (String.eqb_spec c0 cid) as [-> | Hne].
    + rewrite contract_status_update_same.
      change (contract_status cid (update_approval_status "Approved" aid d))
        with (contract_status cid d).
      now rewrite Hs.
    + rewrite contract_status_update_other by exact Hne. exact Hs.
  - destruct (reject_contract_outcomes aid cid f d) as [E | E];
      rewrite E; try exact Hs.
    unfold reject_committed.
    destruct (String.eqb_spec c0 cid) as [-> | Hne].
    + rewrite contract_status_update_same.
      change (contract_status cid (update_approval_status "Rejected" aid d))
        with (contract_status cid d).
      now rewrite Hs.
    + rewrite contract_status_update_other by exact Hne. exact Hs.
Qed.

Lemma all_approved_unanimous (cid : string) (l : list Approval.t) :
  (forall a, In a l -> Approval.contract_id a = cid ->
             Approval.approval_status a = "Approved") ->
  length (filter (fun a => (Approval.contract_id a =? cid)
                           && (Approval.approval_status a =? "Approved")) l)
  = length (filter (fun a => Approval.contract_id a =? cid) l).
Proof.
  induction l as [|x l IH]; simpl; intros H; [reflexivity|].
  destruct (String.eqb_spec (Approval.contract_id x) cid) as [E | _]; simpl.
  - rewrite (H x (or_introl eq_refl) E). simpl. f_equal.
    apply IH. intros a Ha. apply H. now right.
  - apply IH. intros a Ha. apply H. now right.
Qed.

(** When a request makes a contract ["Active"], the request is an approval
    for that contract and every approval row of the contract is Approved
    afterwards. *)
Lemma activation_is_unanimous (r : request) (f : option nat) (d : database)
  (cid : string) :
  contract_status cid d <> Some "Active" ->
  contract_status cid (handle r f d) = Some "Active" ->
  exists aid,
    r = Approve aid cid
    /\ forall a, In a (approvals (handle r f d)) ->
                 Approval.contract_id a = cid ->
                 Approval.approval_status a = "Approved".
Proof.
  intros Hbefore Hafter.
  destruct (only_approve_activates r f d cid Hbefore Hafter) as [aid ->].
  exists aid. split; [reflexivity|]. simpl in *.
  destruct (approve_contract_outcomes aid cid f d) as [E | [E | E]];
    rewrite E in *; try contradiction.
  unfold approve_committed in *.
  set (d1 := update_approval_status "Approved" aid d) in *.
  destruct (Nat.eqb (count_approved cid d1) (count_approvals cid d1)) eqn:Ec;
    [|contradiction].
  apply Nat.eqb_eq in Ec. intros a Ha Hc.
  now apply (unanimous_all_approved cid (approvals d1) Ec a Ha).
Qed.

(** * The claims *)

(** C1: [approve_contract] returns normally and leaves every approval row
    with the given key with status ["Approved"], its other columns and every
    other row as they were.  Let the Approved count be the number of rows of
    [approvals] with the contract's id and status ["Approved"] and the total
    the number of rows with the contract's id, both after that update.  The
    rows of the contract in [contracts] get status ["Active"] when the two
    are equal, and the [contracts] table is left as it was when they differ.
    The two are equal exactly when every approval of the contract is
    Approved. *)
Theorem approve_contract_active_iff_unanimous (aid cid : string)
  (d : database) :
  let d' := run (approve_contract aid cid) None d in
  let approved_count :=
    length (filter (fun a => (Approval.contract_id a =? cid)
                             && (Approval.approval_status a =? "Approved"))
                   (approvals d')) in
  let total_count :=
    length (filter (fun a => Approval.contract_id a =? cid) (approvals d')) in
  with_connection (approve_contract aid cid) None d = (d', inr tt)
  /\ approvals d'
     = map (fun a => if Approval.approval_id a =? aid
                     then Approval.mk (Approval.approval_id a)
                                      (Approval.contract_id a)
                                      (Approval.approver_id a)
                                      "Approved"
                                      (Approval.timestamp a)
                     else a)
           (approvals d)
  /\ (forall a, In a (approvals d') -> Approval.approval_id a = aid ->
                Approval.approval_status a = "Approved")
  /\ contracts d'
     = (if Nat.eqb approved_count total_count
        then map (fun c => if Contract.contract_id c =? cid
                           then Contract.mk (Contract.contract_id c)
                                            (Contract.vendor_name c)
                                            (Contract.description c)
                                            (Contract.start_date c)
                                            (Contract.end_date c)
                                            (Contract.budget c)
                                            "Active"
                           else c)
                 (contracts d)
        else contracts d)
  /\ contract_status cid d'
     = (if Nat.eqb approved_count total_count
        then option_map (fun _ => "Active") (contract_status cid d)
        else contract_status cid d)
  /\ (approved_count = total_count
      <-> forall a, In a (approvals d') -> Approval.contract_id a = cid ->
                    Approval.approval_status a = "Approved").
Proof.
  intros d' approved_count total_count.
  set (d1 := update_approval_status "Approved" aid d).
  assert (Hd' : d' = approve_committed aid cid d)
    by (unfold d', run; now rewrite approve_contract_ok).
  assert (Hap : approvals d' = approvals d1).
  { rewrite Hd'. unfold approve_committed. fold d1.
    now destruct (Nat.eqb _ _). }
  assert (Hac : approved_count = count_approved cid d1)
    by (unfold approved_count, count_approved; now rewrite Hap).
  assert (Htc : total_count = count_approvals cid d1)
    by (unfold total_count, count_approvals; now rewrite Hap).
  split; [unfold d', run; now rewrite approve_contract_ok|].
  split; [rewrite Hap; reflexivity|].
  split.
  { intros a Ha Hid. rewrite Hap in Ha.
    apply in_updated_approvals in Ha
      as (a0 & _ & _ & Hid0 & [[_ E] | [Hne _]]); [exact E | congruence]. }
  rewrite Hac, Htc, Hd'. unfold approve_committed. fold d1.
  split; [now destruct (Nat.eqb _ _)|].
  split.
  { destruct (Nat.eqb _ _); [|reflexivity].
    now rewrite contract_status_update_same. }
  assert (Hap1 : approvals
                   (if Nat.eqb (count_approved cid d1) (count_approvals cid d1)
                    then update_contract_status "Active" cid d1 else d1)
                 = approvals d1) by (now destruct (Nat.eqb _ _)).
  rewrite Hap1. split.
  - intros E a Ha Hc.
    now apply (unanimous_all_approved cid (approvals d1) E a Ha).
  - intros H. now apply all_approved_unanimous.
Qed.

(** Scenario A: after two of three approvals the contract is still
    ["Pending Approval"]; the third makes it ["Active"]. *)
Example scenario_a_two_of_three :
  contract_status "C1" scenario_submitted = Some "Pending Approval"
  /\ count_approvals "C1" scenario_submitted = 3
  /\ contract_status "C1" scenario_two_of_three = Some "Pending Approval"
  /\ count_approved "C1" scenario_two_of_three = 2
  /\ contract_status "C1" scenario_active = Some "Active".
Proof. vm_compute. repeat split. Qed.

(** C2: [reject_contract] returns normally, leaves every approval row with
    the given key with status ["Rejected"] and its other columns as they
    were, and gives the rows of the contract in [contracts] status
    ["Rejected"], whatever the other approvals say.  Every approval row with
    another key is left as it was (a Pending one stays Pending), and so is
    every other table. *)
Theorem reject_contract_rejects_unconditionally (aid cid : string)
  (d : database) :
  let d' := run (reject_contract aid cid) None d in
  with_connection (reject_contract aid cid) None d = (d', inr tt)
  /\ approvals d'
     = map (fun a => if Approval.approval_id a =? aid
                     then Approval.mk (Approval.approval_id a)
                                      (Approval.contract_id a)
                                      (Approval.approver_id a)
                                      "Rejected"
                                      (Approval.timestamp a)
                     else a)
           (approvals d)
  /\ (forall a, In a (approvals d') -> Approval.approval_id a = aid ->
                Approval.approval_status a = "Rejected")
  /\ filter (fun a => negb (Approval.approval_id a =? aid)) (approvals d')
     = filter (fun a => negb (Approval.approval_id a =? aid)) (approvals d)
  /\ contracts d'
     = map (fun c => if Contract.contract_id c =? cid
                     then Contract.mk (Contract.contract_id c)
                                      (Contract.vendor_name c)
                                      (Contract.description c)
                                      (Contract.start_date c)
                                      (Contract.end_date c)
                                      (Contract.budget c)
                                      "Rejected"
                     else c)
           (contracts d)
  /\ contract_status cid d'
     = option_map (fun _ => "Rejected") (contract_status cid d)
  /\ users d' = users d
  /\ service_reports d' = service_reports d
  /\ invoices d' = invoices d.
Proof.
  unfold run. rewrite reject_contract_ok. simpl. unfold reject_committed.
  split; [reflexivity|].
  split; [reflexivity|].
  split.
  { intros a Ha Hid.
    change (In a (approvals (update_approval_status "Rejected" aid d))) in Ha.
    apply in_updated_approvals in Ha
      as (a0 & _ & _ & Hid0 & [[_ E] | [Hne _]]); [exact E | congruence]. }
  split; [apply filter_update_other_ids|].
  split; [reflexivity|].
  split; [now rewrite contract_status_update_same|].
  repeat split.
Qed.

(** Scenario B: one rejection, two approvals still pending. *)
Example scenario_b_single_rejection :
  let d := handle (Reject "a0" "C1") None scenario_submitted in
  contract_status "C1" d = Some "Rejected"
  /\ map Approval.approval_status (approvals d)
     = ["Rejected"; "Pending"; "Pending"].
Proof. vm_compute. repeat split. Qed.

(** Rejection wins over approvals already given. *)
Example rejection_after_two_approvals :
  contract_status "C1"
    (handle (Reject "a2" "C1") None scenario_two_of_three)
  = Some "Rejected".
Proof. vm_compute. reflexivity. Qed.



(** C4, as stated, fails: in the state scenario A ends in, the contract is
    ["Active"] and rejecting one of its approvals, already Approved, makes it
    ["Rejected"]; and a contract rejected after two approvals becomes
    ["Active"] when the rejected approval is approved after all. *)
Lemma decided_again_changes_terminal_status :
  contract_status "C1" scenario_active = Some "Active"
  /\ contract_status "C1" (handle (Reject "a2" "C1") None scenario_active)
     = Some "Rejected"
  /\ contract_status "C1"
       (handle (Reject "a2" "C1") None scenario_two_of_three)
     = Some "Rejected"
  /\ contract_status "C1"
       (handle (Approve "a2" "C1") None
               (handle (Reject "a2" "C1") None scenario_two_of_three))
     = Some "Active".
Proof. vm_compute. repeat split. Qed.

(** C4, amended: after any sequence of requests from the empty store, under
    any fault schedules, the status of a contract is one of Draft,
    Pending Approval, Active, Rejected.  In every state and for every
    approval, decided before or not, approving does not change a status that
    is Active and rejecting does not change a status that is Rejected.  When
    moreover every decision of the sequence was one the approval page
    offered (an approval still Pending, with its contract), then once the
    status of a contract is Active or Rejected no further decision the page
    offers, Approved or Rejected, changes it, whatever the store does. *)
Theorem terminal_status_kept_by_offered_decisions :
  (forall rs cid s,
      contract_status cid (handle_all rs init_db) = Some s ->
      In s statuses)
  /\ (forall d aid cid f c0,
         (contract_status c0 d = Some "Active" ->
          contract_status c0 (handle (Approve aid cid) f d) = Some "Active")
         /\ (contract_status c0 d = Some "Rejected" ->
             contract_status c0 (handle (Reject aid cid) f d)
             = Some "Rejected"))
  /\ (forall steps actor aid cid f c0,
         offered_all steps init_db = true ->
         offers_decision actor aid cid
                         (handle_all (requests_of steps) init_db) = true ->
         contract_status c0 (handle_all (requests_of steps) init_db)
         = Some "Active"
         \/ contract_status c0 (handle_all (requests_of steps) init_db)
            = Some "Rejected" ->
         contract_status c0
           (handle (Approve aid cid) f
                   (handle_all (requests_of steps) init_db))
         = contract_status c0 (handle_all (requests_of steps) init_db)
         /\ contract_status c0
              (handle (Reject aid cid) f
                      (handle_all (requests_of steps) init_db))
            = contract_status c0 (handle_all (requests_of steps) init_db)).
Proof.
  split; [|split].
  - intros rs cid s H.
    apply contract_status_row in H as (c & Hc & _ & <-).
    pose proof (statuses_known_all rs init_db (Forall_nil _)) as S.
    unfold statuses_known in S. rewrite Forall_forall in S. now apply S.
  - intros d aid cid f c0. apply same_decision_keeps_terminal.
  - intros steps actor aid cid f c0 Hsteps Hoff Hterm.
    apply (terminal_kept actor); [|exact Hoff | exact Hterm].
    apply inv_reachable; [apply inv_init | exact Hsteps].
Qed.

(** Scenario B continued: the first approver rejects, the second is still
    offered both buttons; neither changes the status. *)
Lemma terminal_status_kept_by_offered_decisions_witness :
  contract_status "C1"
    (handle (Approve "a1" "C1") None
            (handle (Reject "a0" "C1") None scenario_submitted))
  = Some "Rejected"
  /\ contract_status "C1"
       (handle (Reject "a1" "C1") (Some 1)
               (handle (Reject "a0" "C1") None scenario_submitted))
     = Some "Rejected".
Proof.
  pose proof terminal_status_kept_by_offered_decisions as (_ & _ & H).
  pose (steps := [ ("u0", SeedUsers (numbered "u"), @None nat);
                   ("u0", CreateContract "C1" "vendor" "pumps" "2025-01-01"
                                         "2025-12-31" (amount_of 1000), None);
                   ("u0", SubmitContract (numbered "a") (numbered "t") "C1",
                    None);
                   ("u1", Reject "a0" "C1", None) ] : list step).
  assert (H1 : offered_all steps init_db = true) by (vm_compute; reflexivity).
  assert (H2 : offers_decision "u2" "a1" "C1"
                 (handle_all (requests_of steps) init_db) = true)
    by (vm_compute; reflexivity).
  assert (H3 : contract_status "C1" (handle_all (requests_of steps) init_db)
               = Some "Rejected") by (vm_compute; reflexivity).
  split.
  - destruct (H steps "u2" "a1" "C1" None "C1" H1 H2 (or_intror H3))
      as [Ha _].
    rewrite H3 in Ha. exact Ha.
  - destruct (H steps "u2" "a1" "C1" (Some 1) "C1" H1 H2 (or_intror H3))
      as [_ Hr].
    rewrite H3 in Hr. exact Hr.
Defined.

(** C5, as stated, fails: the store refuses the first [INSERT] of a
    submission.  The status update was committed before, so the contract is
    marked ["Pending Approval"] with no approval row for any of the three
    approvers: neither the prior state nor the complete effect. *)
Lemma submit_is_not_all_or_nothing :
  let body := submit_contract_for_approval (numbered "a") (numbered "t") "C1" in
  snd (with_connection body (Some 3) scenario_draft) = inl OperationalError
  /\ contract_status "C1" scenario_draft = Some "Draft"
  /\ contract_status "C1" (run body (Some 3) scenario_draft)
     = Some "Pending Approval"
  /\ length (select_approvers (run body (Some 3) scenario_draft)) = 3
  /\ approvals (run body (Some 3) scenario_draft) = []
  /\ run body (Some 3) scenario_draft <> scenario_draft
  /\ run body (Some 3) scenario_draft <> run body None scenario_draft.
Proof.
  cbv zeta. repeat split; try (vm_compute; reflexivity).
  - intros H. apply (f_equal (contract_status "C1")) in H.
    vm_compute in H. discriminate.
  - intros H. apply (f_equal (fun d => length (approvals d))) in H.
    vm_compute in H. discriminate.
Qed.

(** The same for an approval: the store fails after the first commit of the
    last approval; all three approvals are Approved and the contract is
    still ["Pending Approval"]. *)
Example approve_is_not_all_or_nothing :
  let d := run (approve_contract "a2" "C1") (Some 2) scenario_two_of_three in
  snd (with_connection (approve_contract "a2" "C1") (Some 2)
                       scenario_two_of_three) = inl OperationalError
  /\ count_approved "C1" d = 3 /\ count_approvals "C1" d = 3
  /\ contract_status "C1" d = Some "Pending Approval".
Proof. vm_compute. repeat split. Qed.

(** C5, amended: the workflow functions commit in the units the source
    writes.  [submit_contract_for_approval] commits the status update on its
    own and then all approval rows together: it ends with the prior state and
    an error, or with only the status updated and an error, or with the
    complete effect and no error.  [approve_contract] commits the update of
    the approval first and the conditional update of the contract second,
    with the same three endings.  [reject_contract] commits once: it ends
    with the prior state and an error or with the complete effect. *)
Theorem workflow_commit_units (f : option nat) (d : database) :
  (forall uuid4 now cid,
      (exists e,
          with_connection (submit_contract_for_approval uuid4 now cid) f d
          = (d, inl e))
      \/ (exists e,
             with_connection (submit_contract_for_approval uuid4 now cid) f d
             = (mkdb (users d)
                     (map (fun c => if Contract.contract_id c =? cid
                                    then Contract.set_status
                                           "Pending Approval" c
                                    else c) (contracts d))
                     (approvals d) (service_reports d) (invoices d),
                inl e))
      \/ with_connection (submit_contract_for_approval uuid4 now cid) f d
         = (mkdb (users d)
                 (map (fun c => if Contract.contract_id c =? cid
                                then Contract.set_status "Pending Approval" c
                                else c) (contracts d))
                 (approvals d
                  ++ pending_rows uuid4 now cid 0 (select_approvers d))
                 (service_reports d) (invoices d),
            inr tt))
  /\ (forall aid cid,
         (exists e, with_connection (approve_contract aid cid) f d
                    = (d, inl e))
         \/ (exists e, with_connection (approve_contract aid cid) f d
                       = (update_approval_status "Approved" aid d, inl e))
         \/ with_connection (approve_contract aid cid) f d
            = (approve_committed aid cid d, inr tt))
  /\ (forall aid cid,
         (exists e, with_connection (reject_contract aid cid) f d
                    = (d, inl e))
         \/ with_connection (reject_contract aid cid) f d
            = (mkdb (users d)
                    (map (fun c => if Contract.contract_id c =? cid
                                   then Contract.set_status "Rejected" c
                                   else c) (contracts d))
                    (map (fun a => if Approval.approval_id a =? aid
                                   then Approval.set_approval_status
                                          "Rejected" a
                                   else a) (approvals d))
                    (service_reports d) (invoices d),
               inr tt)).
Proof.
  split; [|split].
  - intros uuid4 now cid. apply submit_contract_results.
  - intros aid cid. apply approve_contract_results.
  - intros aid cid. apply reject_contract_results.
Qed.

(** C6: [submit_contract_for_approval] looks neither for the contract nor at
    its status.  Whatever the store holds, on a run the store does not fail
    and with new identifiers it returns normally, the status of the contract
    (if there is one) is ["Pending Approval"] afterwards, one Pending row per
    current approver is appended, the total of the unanimity check grows by
    the number of approvers while the Approved count stays; with at least one
    approver the Approved count is then below the total, and approving again
    any approval recorded before the call does not make the contract
    ["Active"]. *)
Theorem submit_is_unconditional (uuid4 now : nat -> string) (cid : string)
  (d : database) :
  fresh_for (map Approval.approval_id (approvals d)) uuid4
            (length (select_approvers d)) ->
  let n := length (select_approvers d) in
  let d' := run (submit_contract_for_approval uuid4 now cid) None d in
  with_connection (submit_contract_for_approval uuid4 now cid) None d
  = (d', inr tt)
  /\ contract_status cid d'
     = option_map (fun _ => "Pending Approval") (contract_status cid d)
  /\ approvals d'
     = (approvals d ++ pending_rows uuid4 now cid 0 (select_approvers d))%list
  /\ count_approvals cid d' = count_approvals cid d + n
  /\ count_approved cid d' = count_approved cid d
  /\ (0 < n ->
      count_approved cid d' < count_approvals cid d'
      /\ forall aid, In aid (map Approval.approval_id (approvals d)) ->
           contract_status cid (run (approve_contract aid cid) None d')
           = Some "Pending Approval"
           \/ contract_status cid (run (approve_contract aid cid) None d')
              = None).
Proof.
  intros Hf n d'.
  assert (Hd' : d' = submit_committed uuid4 now cid d).
  { unfold d', run. now rewrite (submit_contract_ok _ _ _ _ Hf). }
  assert (Hst : contract_status cid d'
                = option_map (fun _ => "Pending Approval")
                             (contract_status cid d)).
  { rewrite Hd'. unfold submit_committed.
    change (contract_status cid
              (update_contract_status "Pending Approval" cid d)
            = option_map (fun _ => "Pending Approval") (contract_status cid d)).
    apply contract_status_update_same. }
  assert (Hap : approvals d'
                = (approvals d
                   ++ pending_rows uuid4 now cid 0 (select_approvers d))%list).
  { rewrite Hd'. reflexivity. }
  assert (Htot : count_approvals cid d' = count_approvals cid d + n).
  { unfold count_approvals. rewrite Hap, filter_app, length_app.
    rewrite (all_of_contract cid (pending_rows _ _ _ _ _))
      by apply pending_rows_contract.
    now rewrite pending_rows_length. }
  assert (Hcnt : count_approved cid d' = count_approved cid d).
  { unfold count_approved. rewrite Hap, filter_app, length_app.
    rewrite (no_approved_among_pending cid (pending_rows _ _ _ _ _))
      by apply pending_rows_status.
    simpl. lia. }
  split; [unfold d', run; now rewrite (submit_contract_ok _ _ _ _ Hf)|].
  split; [exact Hst|]. split; [exact Hap|]. split; [exact Htot|].
  split; [exact Hcnt|].
  intros Hn. pose proof (count_approved_le cid d) as Hle.
  split; [lia|].
  intros aid Hin. unfold run. rewrite approve_contract_ok. simpl.
  unfold approve_committed.
  set (d1 := update_approval_status "Approved" aid d').
  assert (E : Nat.eqb (count_approved cid d1) (count_approvals cid d1)
              = false).
  { apply Nat.eqb_neq.
    assert (H1 : count_approvals cid d1 = count_approvals cid d + n).
    { unfold d1. now rewrite count_approvals_update. }
    assert (H2 : count_approved cid d1 <= count_approvals cid d).
    { unfold count_approved, d1, update_approval_status. simpl.
      rewrite Hap, map_app, filter_app, length_app.
      rewrite (update_other_ids _ _ (pending_rows _ _ _ _ _))
        by (eapply pending_rows_fresh; eassumption).
      rewrite (no_approved_among_pending cid (pending_rows _ _ _ _ _))
        by apply pending_rows_status.
      simpl. rewrite Nat.add_0_r.
      etransitivity; [apply count_of_contract_le|].
      pose proof (count_approvals_update "Approved" aid cid d) as H3.
      unfold count_approvals, update_approval_status in H3. simpl in H3.
      rewrite H3. reflexivity. }
    lia. }
  rewrite E.
  change (contract_status cid d1) with (contract_status cid d').
  rewrite Hst. destruct (contract_status cid d); simpl; [now left | now right].
Qed.

(** Submitting the Active contract of scenario A again. *)
Lemma submit_is_unconditional_witness :
  contract_status "C1" scenario_active = Some "Active"
  /\ contract_status "C1"
       (run (submit_contract_for_approval (numbered "b") (numbered "t") "C1")
            None scenario_active)
     = Some "Pending Approval"
  /\ count_approved "C1"
       (run (submit_contract_for_approval (numbered "b") (numbered "t") "C1")
            None scenario_active)
     < count_approvals "C1"
         (run (submit_contract_for_approval (numbered "b") (numbered "t")
                                            "C1")
              None scenario_active).
Proof.
  destruct (submit_is_unconditional (numbered "b") (numbered "t") "C1"
              scenario_active)
    as (_ & H2 & _ & _ & _ & H6).
  - apply fresh_forb_sound. vm_compute. reflexivity.
  - split; [vm_compute; reflexivity|]. split; [exact H2|].
    apply H6. vm_compute. lia.
Defined.

(** C7: for an invoice of the store, [mark_paid] leaves the row with the same
    key, contract id, amount and date and with payment status ["Paid"], and
    leaves the other four tables as they were; marking it again changes
    nothing in the file, whatever the store does; and after any sequence of
    requests, under any fault schedules, that row is still the same Paid
    row. *)
Theorem mark_paid_is_one_way (iid : string) (d : database) (inv : Invoice.t) :
  invoice_row iid d = Some inv ->
  let d' := run (mark_paid iid) None d in
  invoice_row iid d'
  = Some (Invoice.mk (Invoice.invoice_id inv) (Invoice.contract_id inv)
                     (Invoice.amount inv) (Invoice.invoice_date inv) "Paid")
  /\ users d' = users d /\ contracts d' = contracts d
  /\ approvals d' = approvals d /\ service_reports d' = service_reports d
  /\ with_connection (mark_paid iid) None d' = (d', inr tt)
  /\ (forall f, run (mark_paid iid) f d' = d')
  /\ (forall rs, invoice_row iid (handle_all rs d') = invoice_row iid d').
Proof.
  intros Hrow d'.
  assert (Hd' : d' = update_invoice_paid iid d)
    by (unfold d', run; now rewrite mark_paid_ok).
  assert (Hrow' : invoice_row iid d'
                  = Some (Invoice.set_payment_status "Paid" inv)).
  { rewrite Hd', invoice_row_update, Hrow. simpl.
    unfold invoice_row in Hrow. apply find_some in Hrow as [_ E].
    now rewrite E. }
  split; [exact Hrow'|].
  rewrite Hd'. repeat split.
  - now rewrite mark_paid_ok, update_invoice_paid_twice.
  - intros f. destruct (mark_paid_outcomes iid f (update_invoice_paid iid d))
      as [-> | ->]; [reflexivity | apply update_invoice_paid_twice].
  - intros rs. rewrite <- Hd', Hrow'.
    apply paid_row_kept_all; [exact Hrow' | reflexivity].
Qed.

(** Scenario D: an invoice of 500 for C1, then paid, then paid again. *)
Lemma mark_paid_is_one_way_witness :
  invoice_row "i0" scenario_invoiced
  = Some (Invoice.mk "i0" "C1" (amount_of 500) "2025-03-01" "Pending")
  /\ invoice_row "i0" (run (mark_paid "i0") None scenario_invoiced)
     = Some (Invoice.mk "i0" "C1" (amount_of 500) "2025-03-01" "Paid")
  /\ run (mark_paid "i0") None (run (mark_paid "i0") None scenario_invoiced)
     = run (mark_paid "i0") None scenario_invoiced.
Proof.
  assert (H0 : invoice_row "i0" scenario_invoiced
               = Some (Invoice.mk "i0" "C1" (amount_of 500) "2025-03-01"
                                  "Pending"))
    by (vm_compute; reflexivity).
  destruct (mark_paid_is_one_way "i0" scenario_invoiced _ H0)
    as (H1 & _ & _ & _ & _ & _ & H2 & _).
  split; [exact H0|]. split; [exact H1|]. apply H2.
Defined.

(** C8: whatever the contract id (no row of [contracts] is looked at), on a
    run the store does not fail and with a new identifier the report form
    returns normally and appends exactly one row to [service_reports],
    holding the identifier drawn and the five values given; every other table
    is left as it was, and the listing that follows contains the new row. *)
Theorem service_report_is_appended_unvalidated
  (uuid4 cid sd wp : string) (pc lh : real) (d : database) :
  ~ In uuid4 (map ServiceReport.report_id (service_reports d)) ->
  let r := ServiceReport.mk uuid4 cid sd wp pc lh in
  let d' := mkdb (users d) (contracts d) (approvals d)
                 (service_reports d ++ [r]) (invoices d) in
  with_connection (submit_service_report uuid4 cid sd wp pc lh) None d
  = (d', inr tt)
  /\ with_connection list_service_reports None d'
     = (d', inr (service_reports d ++ [r])%list)
  /\ In r (service_reports d').
Proof.
  intros Hnew r d'.
  assert (E : existsb (fun x => ServiceReport.report_id x =? uuid4)
                      (service_reports d) = false).
  { apply not_true_is_false. intros H. apply Hnew.
    apply existsb_exists in H as (x & Hx & Heq).
    apply String.eqb_eq in Heq. apply in_map_iff. now exists x. }
  split.
  - unfold with_connection, submit_service_report, bind, execute, conn_commit,
      bind, store_call, insert_service_report. simpl. rewrite E. reflexivity.
  - split; [reflexivity|]. simpl. apply in_or_app. right. now left.
Qed.

(** Scenario C: a report against a contract id no contract has. *)
Lemma service_report_is_appended_unvalidated_witness :
  contract_status "no-such-contract" scenario_submitted = None
  /\ with_connection
       (submit_service_report "r0" "no-such-contract" "2025-02-01"
                              "replaced seal" (amount_of 40) (amount_of 2))
       None scenario_submitted
     = (mkdb (users scenario_submitted) (contracts scenario_submitted)
             (approvals scenario_submitted)
             (service_reports scenario_submitted
              ++ [ServiceReport.mk "r0" "no-such-contract" "2025-02-01"
                                   "replaced seal" (amount_of 40)
                                   (amount_of 2)])
             (invoices scenario_submitted),
        inr tt).
Proof.
  split; [vm_compute; reflexivity|].
  assert (Hnew : ~ In "r0" (map ServiceReport.report_id
                                (service_reports scenario_submitted)))
    by (vm_compute; intros H; exact H).
  destruct (service_report_is_appended_unvalidated
              "r0" "no-such-contract" "2025-02-01" "replaced seal"
              (amount_of 40) (amount_of 2) scenario_submitted Hnew)
    as [H _].
  exact H.
Defined.

(** C9: [get_user] never changes the file, whatever the store does; on a
    run the store does not fail it returns a row of [users] whose username
    and password are the two strings given when there is one, and [None]
    exactly when there is none.  The comparison is equality of strings. *)
Theorem get_user_exact_match (u p : string) (d : database) :
  (forall f, run (get_user u p) f d = d)
  /\ exists res : option User.t,
       with_connection (get_user u p) None d = (d, inr res)
       /\ (forall r, res = Some r ->
                     In r (users d)
                     /\ User.username r = u /\ User.password r = p)
       /\ (res = None <->
           ~ exists r, In r (users d)
                       /\ User.username r = u /\ User.password r = p).
Proof.
  split; [intros f; apply get_user_outcomes|].
  exists (select_user_by_login u p d). split; [reflexivity|].
  unfold select_user_by_login. split.
  - intros r Hr. apply find_some in Hr as [Hin Hm].
    apply andb_true_iff in Hm as [H1 H2].
    apply String.eqb_eq in H1, H2. now repeat split.
  - split.
    + intros Hn (r & Hin & H1 & H2).
      pose proof (find_none _ _ Hn r Hin) as Hf. simpl in Hf.
      rewrite H1, H2, !String.eqb_refl in Hf. discriminate.
    + intros Hn.
      destruct (find _ (users d)) as [r|] eqn:E; [|reflexivity].
      exfalso. apply Hn. exists r.
      apply find_some in E as [Hin Hm].
      apply andb_true_iff in Hm as [H1 H2].
      apply String.eqb_eq in H1, H2. now repeat split.
Qed.

(** The seeded finance user logs in; a wrong password or a password of
    another user does not. *)
Example get_user_seeded :
  let d := handle (SeedUsers (numbered "u")) None init_db in
  snd (with_connection (get_user "finance_user" "finance_pass") None d)
  = inr (Some (User.mk "u4" "finance_user" "finance_pass" "finance"))
  /\ snd (with_connection (get_user "finance_user" "Finance_pass") None d)
     = inr None
  /\ snd (with_connection (get_user "finance_user" "manager_pass") None d)
     = inr None.
Proof. vm_compute. repeat split. Qed.

(** C10, as stated, fails: with no approver in the store, contract C0 is
    created and submitted; no approval row is created and the contract is
    ["Pending Approval"].  [approve_contract], called for C0 with an approval
    id the store does not hold, returns normally, finds both counts zero and
    makes the contract ["Active"]: one operation that is neither a submit
    nor a reject, on no existing Approval.  No page calls it that way. *)
Lemma approve_contract_mismatched_pair :
  let d_created :=
    handle (CreateContract "C0" "vendor" "valves" "2025-01-01" "2025-06-30"
                           (amount_of 10))
           None init_db in
  let d := run (submit_contract_for_approval (numbered "b") (numbered "t")
                                             "C0")
               None d_created in
  select_approvers d_created = []
  /\ approvals d = []
  /\ contract_status "C0" d = Some "Pending Approval"
  /\ decides_existing "a0" "C0" d = false
  /\ snd (with_connection (approve_contract "a0" "C0") None d) = inr tt
  /\ contract_status "C0" (run (approve_contract "a0" "C0") None d)
     = Some "Active"
  /\ contract_status "C0" (handle_all [(Approve "a0" "C0", None)] d)
     = Some "Active".
Proof. vm_compute. repeat split. Qed.

(** C10, amended: in a state the requests lead to from the empty store, with
    a contract [cid] in the store and no user of role ["approver"],
    submitting [cid] creates no approval row, the [approvals] table is
    empty, and the contract is ["Pending Approval"].  From then on, under
    every sequence of requests that contains no further submission of [cid]
    and decides only approvals the store holds, each for its own contract,
    and under any fault schedules, the contract keeps status
    ["Pending Approval"] and has no approval row.  [approve_contract] called
    for [cid] in that state, with whatever approval id, decides no approval
    the store holds and makes the contract ["Active"].  A request after
    which a contract is ["Active"] that was not before is an approval for
    that contract, and every approval row of the contract is then
    Approved. *)
Theorem no_approver_never_active (history : list (request * option nat))
  (uuid4 now : nat -> string) (cid : string) :
  select_approvers (handle_all history init_db) = [] ->
  contract_status cid (handle_all history init_db) <> None ->
  let d0 := run (submit_contract_for_approval uuid4 now cid) None
                (handle_all history init_db) in
  approvals d0 = []
  /\ contract_status cid d0 = Some "Pending Approval"
  /\ (forall rs,
         all_other_than_submit cid rs d0 = true ->
         contract_status cid (handle_all rs d0) = Some "Pending Approval"
         /\ filter (fun a => Approval.contract_id a =? cid)
                   (approvals (handle_all rs d0)) = [])
  /\ (forall aid,
         decides_existing aid cid d0 = false
         /\ snd (with_connection (approve_contract aid cid) None d0) = inr tt
         /\ contract_status cid (run (approve_contract aid cid) None d0)
            = Some "Active")
  /\ (forall r f d c,
         contract_status c d <> Some "Active" ->
         contract_status c (handle r f d) = Some "Active" ->
         exists aid,
           r = Approve aid c
           /\ forall a, In a (approvals (handle r f d)) ->
                        Approval.contract_id a = c ->
                        Approval.approval_status a = "Approved").
Proof.
  intros Hno Hex.
  set (d := handle_all history init_db) in *.
  intros d0.
  assert (Hnone : approvals d = [])
    by (apply no_approver_no_approval; [reflexivity | exact Hno]).
  assert (Hd0 : d0 = submit_committed uuid4 now cid d).
  { unfold d0, run. rewrite submit_contract_ok; [reflexivity|].
    rewrite Hno. intros j Hj. simpl in Hj. lia. }
  assert (Hap : approvals d0 = []).
  { rewrite Hd0.
    change ((approvals d
             ++ pending_rows uuid4 now cid 0 (select_approvers d))%list
            = []).
    rewrite Hno, Hnone. reflexivity. }
  assert (Hcnt : count_approvals cid d0 = 0).
  { unfold count_approvals. now rewrite Hap. }
  assert (Hst : contract_status cid d0 = Some "Pending Approval").
  { rewrite Hd0. unfold submit_committed.
    change (contract_status cid
              (update_contract_status "Pending Approval" cid d)
            = Some "Pending Approval").
    rewrite contract_status_update_same.
    destruct (contract_status cid d); [reflexivity | contradiction]. }
  split; [exact Hap|]. split; [exact Hst|].
  split; [|split].
  - intros rs Hrs.
    destruct (unapproved_kept_all cid rs d0 Hrs Hst Hcnt) as [H1 H2].
    split; [exact H1|].
    unfold count_approvals in H2. now apply length_zero_iff_nil.
  - intros aid. split; [unfold decides_existing; now rewrite Hap|].
    unfold run. rewrite approve_contract_ok. simpl.
    split; [reflexivity|].
    unfold approve_committed.
    assert (Hd1 : approvals (update_approval_status "Approved" aid d0) = []).
    { unfold update_approval_status. simpl. now rewrite Hap. }
    assert (E : Nat.eqb
                  (count_approved cid
                     (update_approval_status "Approved" aid d0))
                  (count_approvals cid
                     (update_approval_status "Approved" aid d0)) = true).
    { unfold count_approved, count_approvals. now rewrite Hd1. }
    rewrite E, contract_status_update_same.
    change (contract_status cid (update_approval_status "Approved" aid d0))
      with (contract_status cid d0).
    now rewrite Hst.
  - intros r f dd c. apply activation_is_unanimous.
Qed.

(** Before any user is seeded: a contract is created and submitted; users
    are seeded afterwards, a second contract goes through its approvals, a
    report and an invoice are filed.  The first contract stays where it
    was. *)
Lemma no_approver_never_active_witness :
  contract_status "C0"
    (handle_all
       [ (SeedUsers (numbered "u"), None);
         (CreateContract "C1" "vendor" "pumps" "2025-01-01" "2025-12-31"
                         (amount_of 1000), None);
         (SubmitContract (numbered "a") (numbered "t") "C1", None);
         (Approve "a0" "C1", None);
         (Approve "a1" "C1", Some 2);
         (Approve "a2" "C1", None);
         (Reject "a0" "C1", None);
         (SubmitReport "r0" "C0" "2025-02-01" "inspection" (amount_of 0)
                       (amount_of 3), None);
         (GenerateInvoice "i0" "2025-03-01" "C0" (amount_of 500), None);
         (MarkPaid "i0", None) ]
       (run (submit_contract_for_approval (numbered "b") (numbered "t") "C0")
            None
            (handle_all
               [ (CreateContract "C0" "vendor" "valves" "2025-01-01"
                                 "2025-06-30" (amount_of 10), None) ]
               init_db)))
  = Some "Pending Approval".
Proof.
  assert (H1 : select_approvers
                 (handle_all
                    [ (CreateContract "C0" "vendor" "valves" "2025-01-01"
                                      "2025-06-30" (amount_of 10), None) ]
                    init_db) = []) by (vm_compute; reflexivity).
  assert (H2 : contract_status "C0"
                 (handle_all
                    [ (CreateContract "C0" "vendor" "valves" "2025-01-01"
                                      "2025-06-30" (amount_of 10), None) ]
                    init_db) <> None) by (vm_compute; discriminate).
  destruct (no_approver_never_active _ (numbered "b") (numbered "t") "C0"
              H1 H2) as (_ & _ & H & _).
  apply H. vm_compute. reflexivity.
Defined.

(** * Further properties of the source *)

(** ** Inserts and their keys *)

Lemma not_existsb_key {A} (key : A -> string) (x : string) (l : list A) :
  existsb (fun r => key r =? x) l = false <-> ~ In x (map key l).
Proof.
  split.
  - intros E Hin. apply in_map_iff in Hin as (r & Hr & Hin).
    assert (H : existsb (fun r => key r =? x) l = true).
    { apply existsb_exists. exists r. split; [exact Hin|].
      now apply String.eqb_eq. }
    congruence.
  - intros Hn. apply not_true_is_false. intros H.
    apply existsb_exists in H as (r & Hin & E). apply String.eqb_eq in E.
    apply Hn. apply in_map_iff. now exists r.
Qed.

Lemma map_snoc {A B} (f : A -> B) (l : list A) (x : A) :
  map f (l ++ [x]) = (map f l ++ [f x])%list.
Proof. now rewrite map_app. Qed.

Lemma create_contract_results (u v ds sd ed : string) (b : real)
  (f : option nat) (d : database) :
  (exists e, with_connection (create_contract u v ds sd ed b) f d
             = (d, inl e))
  \/ (with_connection (create_contract u v ds sd ed b) f d
      = (set_contracts (contracts d ++ [Contract.mk u v ds sd ed b "Draft"])
                       d, inr tt)
      /\ ~ In u (map Contract.contract_id (contracts d))).
Proof.
  unfold create_contract, with_connection, bind. simpl.
  next_call; [left; eexists; now rewrite Hdur|].
  unfold insert_contract in Hstmt. simpl in Hstmt.
  destruct (existsb _ _) eqn:E; [discriminate|]. injection Hstmt as <-.
  apply not_existsb_key in E.
  next_call; [left; now eexists | right; now split].
Qed.

Lemma submit_service_report_results (u cid sd wp : string) (pc lh : real)
  (f : option nat) (d : database) :
  (exists e, with_connection (submit_service_report u cid sd wp pc lh) f d
             = (d, inl e))
  \/ (with_connection (submit_service_report u cid sd wp pc lh) f d
      = (set_service_reports
           (service_reports d ++ [ServiceReport.mk u cid sd wp pc lh]) d,
         inr tt)
      /\ ~ In u (map ServiceReport.report_id (service_reports d))).
Proof.
  unfold submit_service_report, with_connection, bind. simpl.
  next_call; [left; eexists; now rewrite Hdur|].
  unfold insert_service_report in Hstmt. simpl in Hstmt.
  destruct (existsb _ _) eqn:E; [discriminate|]. injection Hstmt as <-.
  apply not_existsb_key in E.
  next_call; [left; now eexists | right; now split].
Qed.

Lemma generate_invoice_results (u today cid : string) (amount : real)
  (f : option nat) (d : database) :
  (exists e, with_connection (generate_invoice u today cid amount) f d
             = (d, inl e))
  \/ (with_connection (generate_invoice u today cid amount) f d
      = (set_invoices
           (invoices d ++ [Invoice.mk u cid amount today "Pending"]) d,
         inr tt)
      /\ ~ In u (map Invoice.invoice_id (invoices d))).
Proof.
  unfold generate_invoice, with_connection, bind. simpl.
  next_call; [left; now eexists|].
  next_call; [left; eexists; now rewrite Hdur|].
  unfold insert_invoice in Hstmt. simpl in Hstmt.
  destruct (existsb _ _) eqn:E; [discriminate|]. injection Hstmt as <-.
  apply not_existsb_key in E.
  next_call; [left; now eexists | right; now split].
Qed.

Lemma insert_user_unique (r : User.t) (d d' : database) :
  insert_user r d = inr d' ->
  users_unique (users d) ->
  d' = set_users (users d ++ [r]) d /\ users_unique (users d').
Proof.
  unfold insert_user. destruct (existsb _ (users d)) eqn:E; [discriminate|].
  intros H [H1 H2]. injection H as <-. split; [reflexivity|].
  assert (Hn : forall x, In x (users d) ->
                         User.user_id x <> User.user_id r
                         /\ User.username x <> User.username r).
  { intros x Hx.
    assert (Hf : existsb
                   (fun x => (User.user_id x =? User.user_id r)
                             || (User.username x =? User.username r))
                   (users d) <> true) by (rewrite E; discriminate).
    split; intros Heq; apply Hf; apply existsb_exists; exists x;
      (split; [exact Hx|]); apply orb_true_iff;
      [left | right]; now apply String.eqb_eq. }
  split; simpl; rewrite map_snoc; apply NoDup_snoc; try assumption.
  - intros Hin. apply in_map_iff in Hin as (x & Hx & Hin).
    destruct (Hn x Hin) as [Hne _]. contradiction.
  - intros Hin. apply in_map_iff in Hin as (x & Hx & Hin).
    destruct (Hn x Hin) as [_ Hne]. contradiction.
Qed.

Lemma seed_loop_unique (uuid4 : nat -> string)
  (l : list (string * string * string)) :
  forall (i : nat) (c : connection),
    users_unique (users (txn c)) ->
    match seed_loop uuid4 i l c with
    | Done _ c' => durable c' = durable c /\ users_unique (users (txn c'))
    | Raised _ c' => durable c' = durable c
    end.
Proof.
  induction l as [|[[un pw] rl] rest IH]; intros i c Hu; simpl.
  - now split.
  - unfold bind. next_call; [reflexivity|].
    destruct (select_user_by_username un (txn c)).
    + unfold ret.
      match goal with |- context [seed_loop _ _ _ ?c0] =>
        specialize (IH (S i) c0 Hu);
        destruct (seed_loop uuid4 (S i) rest c0) end; exact IH.
    + next_call; [exact Hdur|].
      apply insert_user_unique in Hstmt as [_ Hu']; [|exact Hu].
      match goal with |- context [seed_loop _ _ _ ?c0] =>
        specialize (IH (S i) c0 Hu');
        destruct (seed_loop uuid4 (S i) rest c0) end; exact IH.
Qed.

Lemma seed_users_unique (uuid4 : nat -> string) (f : option nat)
  (d : database) :
  users_unique (users d) ->
  users_unique (users (run (seed_users uuid4) f d)).
Proof.
  intros Hu. unfold seed_users, run, with_connection, bind.
  pose proof (seed_loop_unique uuid4 demo_users 0 (mkconn d d f) Hu) as H.
  destruct (seed_loop uuid4 0 demo_users (mkconn d d f)) as [[] c'|e c'];
    simpl in *.
  - destruct H as [Hd Hu'].
    destruct (commit_cases c') as [E | [n E]]; rewrite E; simpl.
    + now rewrite Hd.
    + exact Hu'.
  - now rewrite H.
Qed.

Lemma contract_keys_updated (s cid : string) (d : database) :
  map Contract.contract_id (contracts (update_contract_status s cid d))
  = map Contract.contract_id (contracts d).
Proof.
  unfold update_contract_status. simpl. rewrite map_map. apply map_ext.
  intros c. now destruct (Contract.contract_id c =? cid).
Qed.

Lemma invoice_keys_updated (iid : string) (d : database) :
  map Invoice.invoice_id (invoices (update_invoice_paid iid d))
  = map Invoice.invoice_id (invoices d).
Proof.
  unfold update_invoice_paid. simpl. rewrite map_map. apply map_ext.
  intros i. now destruct (Invoice.invoice_id i =? iid).
Qed.

Lemma keys_kept (r : request) (f : option nat) (d : database) :
  primary_keys_unique d -> primary_keys_unique (handle r f d).
Proof.
  intros (K1 & K2 & K3 & K4 & K5 & K6).
  destruct r; simpl.
  - (* seed_users *)
    destruct (seed_users_unique uuid4 f d (conj K1 K2)) as [U1 U2].
    destruct (seed_users_outcomes uuid4 f d) as [extra E].
    unfold primary_keys_unique. rewrite E in *. simpl in *. now repeat split.
  - rewrite get_user_outcomes. now repeat split.
  - destruct (create_contract_results uuid4 vendor desc start_date end_date
                budget f d) as [[e E] | [E Hn]];
      unfold run; rewrite E; simpl; [now repeat split|].
    repeat split; simpl; try assumption.
    rewrite map_snoc. now apply NoDup_snoc.
  - destruct (submit_contract_outcomes uuid4 now contract_id f d)
      as [E | [E | [E Hk]]]; rewrite E.
    + now repeat split.
    + repeat split; try assumption. now rewrite contract_keys_updated.
    + repeat split; try assumption.
      * change (contracts (submit_committed uuid4 now contract_id d))
          with (contracts
                  (update_contract_status "Pending Approval" contract_id d)).
        now rewrite contract_keys_updated.
      * now apply Hk.
  - destruct (approve_contract_outcomes approval_id contract_id f d)
      as [E | [E | E]]; rewrite E.
    + now repeat split.
    + repeat split; try assumption. simpl. now rewrite update_keeps_keys.
    + unfold approve_committed. destruct (Nat.eqb _ _).
      * repeat split; try assumption.
        -- now rewrite contract_keys_updated.
        -- simpl. now rewrite update_keeps_keys.
      * repeat split; try assumption. simpl. now rewrite update_keeps_keys.
  - destruct (reject_contract_outcomes approval_id contract_id f d)
      as [E | E]; rewrite E.
    + now repeat split.
    + unfold reject_committed. repeat split; try assumption.
      * now rewrite contract_keys_updated.
      * simpl. now rewrite update_keeps_keys.
  - destruct (submit_service_report_results uuid4 contract_id service_date
                work_performed parts_cost labor_hours f d)
      as [[e E] | [E Hn]]; unfold run; rewrite E; simpl; [now repeat split|].
    repeat split; simpl; try assumption.
    rewrite map_snoc. now apply NoDup_snoc.
  - destruct (generate_invoice_results uuid4 today contract_id amount f d)
      as [[e E] | [E Hn]]; unfold run; rewrite E; simpl; [now repeat split|].
    repeat split; simpl; try assumption.
    rewrite map_snoc. now apply NoDup_snoc.
  - destruct (mark_paid_outcomes invoice_id f d) as [E | E]; rewrite E.
    + now repeat split.
    + repeat split; try assumption. now rewrite invoice_keys_updated.
Qed.

Lemma keys_kept_all (rs : list (request * option nat)) :
  forall d, primary_keys_unique d -> primary_keys_unique (handle_all rs d).
Proof.
  induction rs as [|[r f] rest IH]; intros d K; simpl; [exact K|].
  apply IH. now apply keys_kept.
Qed.

Lemma keys_init : primary_keys_unique init_db.
Proof. repeat split; constructor. Qed.

(** X1: after any sequence of requests from the empty store, under any fault
    schedules, no table holds two rows with the same primary key and no two
    users have the same username. *)
Theorem primary_keys_stay_unique (rs : list (request * option nat)) :
  primary_keys_unique (handle_all rs init_db).
Proof. apply keys_kept_all, keys_init. Qed.

(** ** Creating a contract *)

Lemma contract_status_absent (cid : string) (d : database) :
  ~ In cid (map Contract.contract_id (contracts d)) ->
  contract_status cid d = None.
Proof.
  intros Hn. unfold contract_status.
  destruct (find _ (contracts d)) as [c|] eqn:E; [|reflexivity].
  apply find_some in E as [Hin Hid]. apply String.eqb_eq in Hid.
  exfalso. apply Hn. apply in_map_iff. now exists c.
Qed.

(** X2: [create_contract] with an identifier no contract has returns
    normally and appends one row with the values given and status
    ["Draft"], which the status lookup then finds; the other rows and tables
    are as before.  With an identifier some contract already has it raises
    [IntegrityError] and leaves the file as it was. *)
Theorem create_contract_new_or_refused (u v ds sd ed : string) (b : real)
  (d : database) :
  (~ In u (map Contract.contract_id (contracts d)) ->
   with_connection (create_contract u v ds sd ed b) None d
   = (mkdb (users d) (contracts d ++ [Contract.mk u v ds sd ed b "Draft"])
           (approvals d) (service_reports d) (invoices d), inr tt)
   /\ contract_status u (run (create_contract u v ds sd ed b) None d)
      = Some "Draft"
   /\ (forall cid, cid <> u ->
         contract_status cid (run (create_contract u v ds sd ed b) None d)
         = contract_status cid d))
  /\ (In u (map Contract.contract_id (contracts d)) ->
      with_connection (create_contract u v ds sd ed b) None d
      = (d, inl IntegrityError)).
Proof.
  split.
  - intros Hn.
    assert (E : with_connection (create_contract u v ds sd ed b) None d
                = (set_contracts
                     (contracts d ++ [Contract.mk u v ds sd ed b "Draft"]) d,
                   inr tt)).
    { unfold with_connection, create_contract, bind, execute, conn_commit,
        bind, store_call, insert_contract. simpl.
      apply not_existsb_key in Hn. now rewrite Hn. }
    split; [exact E|]. unfold run. rewrite E. simpl. split.
    + rewrite contract_status_app, (contract_status_absent _ _ Hn). simpl.
      now rewrite String.eqb_refl.
    + intros cid Hne. rewrite contract_status_app.
      destruct (contract_status cid d); [reflexivity|]. simpl.
      apply not_eq_sym, String.eqb_neq in Hne. now rewrite Hne.
  - intros Hin.
    unfold with_connection, create_contract, bind, execute, conn_commit,
      bind, store_call, insert_contract. simpl.
    destruct (existsb _ (contracts d)) eqn:E; [reflexivity|].
    apply not_existsb_key in E. contradiction.
Qed.

(** A second contract with the identifier of C1 is refused. *)
Lemma create_contract_new_or_refused_witness :
  with_connection
    (create_contract "C1" "other" "filters" "2025-05-01" "2025-05-31"
                     (amount_of 7)) None scenario_draft
  = (scenario_draft, inl IntegrityError)
  /\ contract_status "C2"
       (run (create_contract "C2" "other" "filters" "2025-05-01"
                             "2025-05-31" (amount_of 7)) None scenario_draft)
     = Some "Draft".
Proof.
  destruct (create_contract_new_or_refused
              "C1" "other" "filters" "2025-05-01" "2025-05-31" (amount_of 7)
              scenario_draft) as [_ H1].
  destruct (create_contract_new_or_refused
              "C2" "other" "filters" "2025-05-01" "2025-05-31" (amount_of 7)
              scenario_draft) as [H2 _].
  split.
  - apply H1. vm_compute. now left.
  - apply H2. vm_compute. intros [H | []]. discriminate.
Defined.

(** ** Invoices, from creation to payment *)

Lemma invoice_row_absent (iid : string) (d : database) :
  ~ In iid (map Invoice.invoice_id (invoices d)) -> invoice_row iid d = None.
Proof.
  intros Hn. unfold invoice_row.
  destruct (find _ (invoices d)) as [i|] eqn:E; [|reflexivity].
  apply find_some in E as [Hin Hid]. apply String.eqb_eq in Hid.
  exfalso. apply Hn. apply in_map_iff. now exists i.
Qed.

Lemma invoice_row_appended (iid : string) (d : database) (i : Invoice.t) :
  invoice_row iid d = None -> Invoice.invoice_id i = iid ->
  invoice_row iid (set_invoices (invoices d ++ [i]) d) = Some i.
Proof.
  unfold invoice_row. simpl. intros Hn Hid.
  induction (invoices d) as [|x l IH]; simpl in *.
  - apply String.eqb_eq in Hid. now rewrite Hid.
  - destruct (Invoice.invoice_id x =? iid); [discriminate | now apply IH].
Qed.

(** X3: [generate_invoice] with a new identifier, for any contract id (none
    is looked up), returns normally and appends one invoice with the amount
    given, the date of the day and status ["Pending"]; [mark_paid] on it then
    yields the same invoice with status ["Paid"].  With an identifier some
    invoice already has, [generate_invoice] raises [IntegrityError] and the
    file is as it was. *)
Theorem invoice_from_pending_to_paid (u today cid : string) (amount : real)
  (d : database) :
  (~ In u (map Invoice.invoice_id (invoices d)) ->
   with_connection (generate_invoice u today cid amount) None d
   = (mkdb (users d) (contracts d) (approvals d) (service_reports d)
           (invoices d ++ [Invoice.mk u cid amount today "Pending"]),
      inr tt)
   /\ invoice_row u (run (generate_invoice u today cid amount) None d)
      = Some (Invoice.mk u cid amount today "Pending")
   /\ invoice_row u
        (run (mark_paid u) None
             (run (generate_invoice u today cid amount) None d))
      = Some (Invoice.mk u cid amount today "Paid"))
  /\ (In u (map Invoice.invoice_id (invoices d)) ->
      with_connection (generate_invoice u today cid amount) None d
      = (d, inl IntegrityError)).
Proof.
  split.
  - intros Hn.
    assert (E : with_connection (generate_invoice u today cid amount) None d
                = (set_invoices
                     (invoices d ++ [Invoice.mk u cid amount today "Pending"])
                     d, inr tt)).
    { unfold with_connection, generate_invoice, bind, query, execute,
        conn_commit, bind, store_call, insert_invoice. simpl.
      apply not_existsb_key in Hn. now rewrite Hn. }
    split; [exact E|].
    assert (R : run (generate_invoice u today cid amount) None d
                = set_invoices
                    (invoices d ++ [Invoice.mk u cid amount today "Pending"])
                    d) by (unfold run; now rewrite E).
    rewrite R.
    assert (Hrow : invoice_row u
                     (set_invoices
                        (invoices d
                         ++ [Invoice.mk u cid amount today "Pending"]) d)
                   = Some (Invoice.mk u cid amount today "Pending"))
      by (apply invoice_row_appended;
          [now apply invoice_row_absent | reflexivity]).
    split; [exact Hrow|].
    unfold run. rewrite mark_paid_ok. simpl.
    rewrite invoice_row_update, Hrow. simpl. now rewrite String.eqb_refl.
  - intros Hin.
    unfold with_connection, generate_invoice, bind, query, execute,
      conn_commit, bind, store_call, insert_invoice. simpl.
    destruct (existsb _ (invoices d)) eqn:E; [reflexivity|].
    apply not_existsb_key in E. contradiction.
Qed.

Lemma invoice_from_pending_to_paid_witness :
  invoice_row "i1"
    (run (mark_paid "i1") None
         (run (generate_invoice "i1" "2025-03-02" "no-such-contract"
                                (amount_of 20)) None scenario_invoiced))
  = Some (Invoice.mk "i1" "no-such-contract" (amount_of 20) "2025-03-02"
                     "Paid")
  /\ with_connection
       (generate_invoice "i0" "2025-03-02" "C1" (amount_of 20)) None
       scenario_invoiced
     = (scenario_invoiced, inl IntegrityError).
Proof.
  destruct (invoice_from_pending_to_paid
              "i1" "2025-03-02" "no-such-contract" (amount_of 20)
              scenario_invoiced) as [H1 _].
  destruct (invoice_from_pending_to_paid
              "i0" "2025-03-02" "C1" (amount_of 20) scenario_invoiced)
    as [_ H2].
  split.
  - apply H1. vm_compute. intros [H | []]. discriminate.
  - apply H2. vm_compute. now left.
Defined.

(** X4: [mark_paid] with an identifier no invoice has returns normally,
    writes nothing and leaves the file as it was, whatever the store does;
    and for any identifier, it leaves every invoice with another identifier
    as it was. *)
Theorem mark_paid_missing_or_other (iid : string) (d : database) :
  (~ In iid (map Invoice.invoice_id (invoices d)) ->
   with_connection (mark_paid iid) None d = (d, inr tt)
   /\ forall f, run (mark_paid iid) f d = d)
  /\ (forall f other, other <> iid ->
        invoice_row other (run (mark_paid iid) f d) = invoice_row other d).
Proof.
  split.
  - intros Hn.
    assert (E : update_invoice_paid iid d = d).
    { apply update_invoice_paid_noop. apply not_true_is_false. intros H.
      apply existsb_exists in H as (i & Hin & Hm).
      apply andb_true_iff in Hm as [Hid _]. apply String.eqb_eq in Hid.
      apply Hn. apply in_map_iff. now exists i. }
    split.
    + now rewrite mark_paid_ok, E.
    + intros f. destruct (mark_paid_outcomes iid f d) as [-> | ->];
        [reflexivity | exact E].
  - intros f other Hne.
    destruct (mark_paid_outcomes iid f d) as [-> | ->]; [reflexivity|].
    rewrite invoice_row_update.
    destruct (invoice_row other d) as [i|] eqn:E; [|reflexivity]. simpl.
    unfold invoice_row in E. apply find_some in E as [_ Hid].
    apply String.eqb_eq in Hid.
    assert (Hx : (Invoice.invoice_id i =? iid) = false)
      by (apply String.eqb_neq; congruence).
    now rewrite Hx.
Qed.

Lemma mark_paid_missing_or_other_witness :
  with_connection (mark_paid "i9") None scenario_invoiced
  = (scenario_invoiced, inr tt).
Proof.
  destruct (mark_paid_missing_or_other "i9" scenario_invoiced) as [H _].
  apply H. vm_compute. intros [H0 | []]. discriminate.
Defined.

(** ** Seeding the demo users *)

Lemma username_found_app (un : string) (l extra : list User.t) :
  find (fun r => User.username r =? un) l <> None ->
  find (fun r => User.username r =? un) (l ++ extra) <> None.
Proof.
  induction l as [|x l IH]; simpl; [congruence|].
  destruct (User.username x =? un); [discriminate | exact IH].
Qed.

Lemma username_found_snoc (un : string) (l : list User.t) (r : User.t) :
  User.username r = un ->
  find (fun r => User.username r =? un) (l ++ [r]) <> None.
Proof.
  intros E. induction l as [|x l IH]; simpl.
  - apply String.eqb_eq in E. rewrite E. discriminate.
  - destruct (User.username x =? un); [discriminate | exact IH].
Qed.

(** After a loop that ended normally every username of the list is in the
    table, and the table has only grown. *)
Lemma seed_loop_done_present (uuid4 : nat -> string)
  (l : list (string * string * string)) :
  forall (i : nat) (c c' : connection) (x : unit),
    seed_loop uuid4 i l c = Done x c' ->
    (exists extra, users (txn c') = (users (txn c) ++ extra)%list)
    /\ Forall (fun entry =>
                 select_user_by_username (fst (fst entry)) (txn c') <> None)
              l.
Proof.
  induction l as [|[[un pw] rl] rest IH]; intros i c c' x H; simpl in H.
  - unfold ret in H. injection H as _ <-. split; [|constructor].
    exists []. now rewrite app_nil_r.
  - unfold bind in H.
    destruct (query_cases (select_user_by_username un) c) as [E | [n E]];
      rewrite E in H; [discriminate|]. simpl in H.
    destruct (select_user_by_username un (txn c)) as [r|] eqn:Efound.
    + unfold ret in H.
      apply IH in H as [[extra Hex] Hall]. simpl in Hex.
      split; [now exists extra|]. constructor; [|exact Hall]. simpl.
      unfold select_user_by_username in *. rewrite Hex.
      apply username_found_app. congruence.
    + match type of H with context [execute ?s ?c0] =>
        destruct (execute_cases s c0)
          as [(e & c1 & E1 & _) | (d1 & m & Hs & E1)] end;
        rewrite E1 in H; [discriminate|].
      simpl in Hs. unfold insert_user in Hs.
      destruct (existsb _ _); [discriminate|]. injection Hs as <-.
      apply IH in H as [[extra Hex] Hall]. simpl in Hex.
      split.
      * exists ([User.mk (uuid4 i) un pw rl] ++ extra)%list.
        now rewrite Hex, <- app_assoc.
      * constructor; [|exact Hall]. simpl.
        unfold select_user_by_username. rewrite Hex.
        apply username_found_app. now apply username_found_snoc.
Qed.

(** With every username of the list in the table, the loop only reads. *)
Lemma seed_loop_present (uuid4 : nat -> string)
  (l : list (string * string * string)) :
  forall (i : nat) (c : connection),
    Forall (fun entry =>
              select_user_by_username (fst (fst entry)) (txn c) <> None) l ->
    (exists e c', seed_loop uuid4 i l c = Raised e c'
                  /\ durable c' = durable c)
    \/ (exists n, seed_loop uuid4 i l c
                  = Done tt (mkconn (durable c) (txn c) n)).
Proof.
  induction l as [|[[un pw] rl] rest IH]; intros i c Hall; simpl.
  - right. exists (faults c). unfold ret. now destruct c.
  - inversion Hall as [|? ? Hhd Htl]; subst. simpl in Hhd.
    unfold bind.
    destruct (query_cases (select_user_by_username un) c) as [E | [n E]];
      rewrite E; [left; now eexists _, _|]. simpl.
    destruct (select_user_by_username un (txn c)); [|contradiction].
    unfold ret.
    destruct (IH (S i) (mkconn (durable c) (txn c) n) Htl)
      as [(e & c' & E' & Hd) | [m E']]; rewrite E'.
    + left. now exists e, c'.
    + right. now exists m.
Qed.

(** X5: [seed_users] is idempotent.  After a run of [seed_users] that
    returned normally, a further run, whatever identifiers it draws and
    whatever the store does, leaves the file as it is: every demo username is
    found, so nothing is inserted. *)
Theorem seed_users_idempotent (uuid4 uuid4' : nat -> string)
  (f f' : option nat) (d : database) :
  snd (with_connection (seed_users uuid4) f d) = inr tt ->
  run (seed_users uuid4') f' (run (seed_users uuid4) f d)
  = run (seed_users uuid4) f d.
Proof.
  unfold run, with_connection, seed_users, bind.
  generalize demo_users. intros l.
  destruct (seed_loop uuid4 0 l (mkconn d d f)) as [[] c1|e c1] eqn:E1;
    [|discriminate].
  destruct (commit_cases c1) as [E | [n E]]; rewrite E; simpl;
    [discriminate|]. intros _.
  apply seed_loop_done_present in E1 as [_ Hall].
  destruct (seed_loop_present uuid4' l 0 (mkconn (txn c1) (txn c1) f') Hall)
    as [(e & c' & E' & Hd) | [m E']]; rewrite E'; simpl.
  - exact Hd.
  - destruct (commit_cases (mkconn (txn c1) (txn c1) m)) as [E2 | [k E2]];
      rewrite E2; reflexivity.
Qed.

Lemma seed_users_idempotent_witness :
  run (seed_users (numbered "v")) (Some 4)
      (run (seed_users (numbered "u")) None init_db)
  = run (seed_users (numbered "u")) None init_db.
Proof.
  apply seed_users_idempotent. vm_compute. reflexivity.
Defined.

(** ** Logging in and the role of the session *)

Lemma find_by_unique_key {A} (key : A -> string) (l : list A) (r : A) :
  NoDup (map key l) -> In r l ->
  find (fun x => key x =? key r) l = Some r.
Proof.
  induction l as [|x l IH]; simpl; intros Hnd Hin; [destruct Hin|].
  inversion Hnd as [|? ? Hx Hnd']; subst.
  destruct Hin as [-> | Hin].
  - now rewrite String.eqb_refl.
  - destruct (String.eqb_spec (key x) (key r)) as [E | _].
    + exfalso. apply Hx. rewrite E. now apply in_map.
    + now apply IH.
Qed.

(** X6: in a store whose user ids are pairwise different, a login that
    succeeds puts into the session the id of a user whose username and
    password are the ones entered, and [get_user_role] on that id then
    returns that user's role; a login for which no user matches leaves the
    session empty, and [get_user_role] on an id no user has returns
    [None]. *)
Theorem login_then_role (u p : string) (d : database) :
  NoDup (map User.user_id (users d)) ->
  (forall uid,
      login_page u p None d = inr (Some uid) ->
      exists r, In r (users d)
                /\ User.username r = u /\ User.password r = p
                /\ User.user_id r = uid
                /\ with_connection (get_user_role uid) None d
                   = (d, inr (Some (User.role r))))
  /\ ((forall r, In r (users d) ->
                 ~ (User.username r = u /\ User.password r = p)) ->
      login_page u p None d = inr None)
  /\ (forall uid, ~ In uid (map User.user_id (users d)) ->
                  with_connection (get_user_role uid) None d
                  = (d, inr None)).
Proof.
  intros Hnd. split; [|split].
  - intros uid H. unfold login_page in H. simpl in H.
    destruct (select_user_by_login u p d) as [r|] eqn:E; [|discriminate].
    injection H as <-.
    unfold select_user_by_login in E. apply find_some in E as [Hin Hm].
    apply andb_true_iff in Hm as [H1 H2]. apply String.eqb_eq in H1, H2.
    exists r. repeat split; try assumption.
    unfold with_connection, get_user_role, query, bind, store_call. simpl.
    unfold select_role.
    now rewrite (find_by_unique_key User.user_id (users d) r Hnd Hin).
  - intros Hnone. unfold login_page. simpl.
    destruct (select_user_by_login u p d) as [r|] eqn:E; [|reflexivity].
    unfold select_user_by_login in E. apply find_some in E as [Hin Hm].
    apply andb_true_iff in Hm as [H1 H2]. apply String.eqb_eq in H1, H2.
    exfalso. now apply (Hnone r Hin).
  - intros uid Hn.
    unfold with_connection, get_user_role, query, bind, store_call. simpl.
    unfold select_role.
    destruct (find _ (users d)) as [r|] eqn:E; [|reflexivity].
    apply find_some in E as [Hin Hid]. apply String.eqb_eq in Hid.
    exfalso. apply Hn. apply in_map_iff. now exists r.
Qed.

Lemma login_then_role_witness :
  exists r, In r (users scenario_draft)
            /\ User.username r = "approver_user2"
            /\ User.password r = "approver_pass2"
            /\ User.user_id r = "u2"
            /\ with_connection (get_user_role "u2") None scenario_draft
               = (scenario_draft, inr (Some (User.role r))).
Proof.
  assert (Hnd : NoDup (map User.user_id (users scenario_draft))).
  { vm_compute. repeat constructor; simpl; intuition discriminate. }
  destruct (login_then_role "approver_user2" "approver_pass2" scenario_draft
              Hnd) as [H _].
  apply H. vm_compute. reflexivity.
Defined.

(** ** The sidebar *)

Lemma role_is_spec (name : string) (role : option string) :
  role_is name role = true <-> role = Some name.
Proof.
  destruct role as [r|]; simpl.
  - rewrite String.eqb_eq. split; [now intros -> | now intros [= ->]].
  - split; discriminate.
Qed.

(** X7: the pages behind a role.  [app_layout] reaches the contracts page
    only for the choice "Contracts" and role manager, the approvals page
    only for "Approvals" and role approver, the invoices page only for
    "Invoices" and role finance; the service reports page is reached for the
    choice "Service Reports" whatever the role, even with no role at all.
    The three role pages are in the menu exactly for their role, and every
    entry of the menu leads to a page. *)
Theorem app_layout_gates_pages (role : option string) (choice : string) :
  (app_layout role choice = ContractsPage
   <-> choice = "Contracts" /\ role = Some "manager")
  /\ (app_layout role choice = ApprovalsPage
      <-> choice = "Approvals" /\ role = Some "approver")
  /\ (app_layout role choice = InvoicesPage
      <-> choice = "Invoices" /\ role = Some "finance")
  /\ (app_layout role choice = ServiceReportsPage
      <-> choice = "Service Reports")
  /\ (In "Contracts" (menu role) <-> role = Some "manager")
  /\ (In "Approvals" (menu role) <-> role = Some "approver")
  /\ (In "Invoices" (menu role) <-> role = Some "finance")
  /\ (In choice (menu role) -> app_layout role choice <> NoPage).
Proof.
  assert (Hpage : forall pg,
             pg <> HomePage -> pg <> LogoutAction -> pg <> NoPage ->
             app_layout role choice = pg ->
             (pg = ContractsPage /\ choice = "Contracts"
              /\ role_is "manager" role = true)
             \/ (pg = ApprovalsPage /\ choice = "Approvals"
                 /\ role_is "approver" role = true)
             \/ (pg = ServiceReportsPage /\ choice = "Service Reports")
             \/ (pg = InvoicesPage /\ choice = "Invoices"
                 /\ role_is "finance" role = true)).
  { intros pg N1 N2 N3 H. unfold app_layout in H.
    destruct (String.eqb_spec choice "Home"); [congruence|].
    destruct (String.eqb_spec choice "Contracts");
      destruct (role_is "manager" role) eqn:Em; simpl in H;
      try (left; now subst pg).
    all: destruct (String.eqb_spec choice "Approvals");
      destruct (role_is "approver" role) eqn:Ea; simpl in H;
      try (right; left; now subst pg).
    all: destruct (String.eqb_spec choice "Service Reports");
      try (right; right; left; now subst pg).
    all: destruct (String.eqb_spec choice "Invoices");
      destruct (role_is "finance" role) eqn:Ef; simpl in H;
      try (right; right; right; now subst pg).
    all: destruct (String.eqb_spec choice "Logout"); congruence. }
  assert (Hback : forall name pg,
             (name = "manager" /\ choice = "Contracts" /\ pg = ContractsPage)
             \/ (name = "approver" /\ choice = "Approvals"
                 /\ pg = ApprovalsPage)
             \/ (name = "finance" /\ choice = "Invoices"
                 /\ pg = InvoicesPage) ->
             role_is name role = true -> app_layout role choice = pg).
  { intros name pg Hcase Hr.
    destruct Hcase as [H | [H | H]];
      destruct H as (Hname & Hchoice & Hpg); subst name choice pg;
      unfold app_layout; simpl; rewrite Hr; simpl; reflexivity. }
  rewrite <- !role_is_spec.
  split; [|split; [|split; [|split]]].
  - split.
    + intros H. apply Hpage in H; try discriminate.
      destruct H as [(_ & ? & ?) | [(? & _) | [(? & _) | (? & _)]]];
        [now split | discriminate..].
    + intros [Hc Hr]. apply (Hback "manager"); [|exact Hr]. left. now split.
  - split.
    + intros H. apply Hpage in H; try discriminate.
      destruct H as [(? & _) | [(_ & ? & ?) | [(? & _) | (? & _)]]];
        [discriminate | now split | discriminate..].
    + intros [Hc Hr]. apply (Hback "approver"); [|exact Hr].
      right; left. now split.
  - split.
    + intros H. apply Hpage in H; try discriminate.
      destruct H as [(? & _) | [(? & _) | [(? & _) | (_ & ? & ?)]]];
        [discriminate.. | now split].
    + intros [Hc Hr]. apply (Hback "finance"); [|exact Hr].
      right; right. now split.
  - split.
    + intros H. apply Hpage in H; try discriminate.
      destruct H as [(? & _) | [(? & _) | [(_ & ?) | (? & _)]]];
        [discriminate | discriminate | assumption | discriminate].
    + intros ->. unfold app_layout. simpl.
      destruct (role_is "approver" role); reflexivity.
  - unfold menu, app_layout.
    destruct (role_is "manager" role), (role_is "approver" role),
             (role_is "finance" role); simpl;
      (split; [intuition discriminate|];
       split; [intuition discriminate|];
       split; [intuition discriminate|]);
      intros H;
      repeat (destruct H as [H | H]; [subst choice; simpl; discriminate|]);
      destruct H.
Qed.

(** ** The approval page *)

Lemma listed_is_pending (approver aid cid : string) (d : database) :
  In (cid, aid) (select_pending_reviews approver d) ->
  exists a, In a (approvals d)
            /\ Approval.approval_id a = aid
            /\ Approval.approval_status a = "Pending".
Proof.
  unfold select_pending_reviews. rewrite in_flat_map.
  intros (c & Hc & Hin).
  apply in_map_iff in Hin as (a & Heq & Hin). injection Heq as H1 H2.
  apply filter_In in Hin as [Hin Hm].
  apply andb_true_iff in Hm as [_ H5]. apply String.eqb_eq in H5.
  now exists a.
Qed.

(** X8: [review_contracts] lists a pair of contract id and approval id for an
    approver exactly when the store holds a contract with that id and an
    approval with that id which belongs to that contract, is assigned to
    that approver and is still Pending.  The status of the contract plays no
    part: the Pending approvals of a contract already Rejected or Active are
    listed too. *)
Theorem review_contracts_lists_pending (approver aid cid : string)
  (d : database) :
  In (cid, aid) (select_pending_reviews approver d)
  <-> (exists c, In c (contracts d) /\ Contract.contract_id c = cid)
      /\ (exists a, In a (approvals d)
                    /\ Approval.approval_id a = aid
                    /\ Approval.contract_id a = cid
                    /\ Approval.approver_id a = approver
                    /\ Approval.approval_status a = "Pending").
Proof.
  unfold select_pending_reviews. rewrite in_flat_map. split.
  - intros (c & Hc & Hin).
    apply in_map_iff in Hin as (a & Heq & Hin). injection Heq as H1 H2.
    apply filter_In in Hin as [Hin Hm].
    apply andb_true_iff in Hm as [Hm H5].
    apply andb_true_iff in Hm as [H3 H4].
    apply String.eqb_eq in H3, H4, H5. split.
    + now exists c.
    + exists a. repeat split; congruence.
  - intros [(c & Hc & Hcid) (a & Ha & H1 & H2 & H3 & H4)].
    exists c. split; [exact Hc|]. apply in_map_iff. exists a. split.
    + congruence.
    + apply filter_In. split; [exact Ha|].
      rewrite !andb_true_iff, !String.eqb_eq. repeat split; congruence.
Qed.

(** After the rejection of scenario B the contract is Rejected and the
    second approver is still shown their approval. *)
Example rejected_contract_still_listed :
  let d := handle (Reject "a0" "C1") None scenario_submitted in
  contract_status "C1" d = Some "Rejected"
  /\ select_pending_reviews "u2" d = [("C1", "a1")]
  /\ select_pending_reviews "u1" d = [].
Proof. vm_compute. repeat split. Qed.

(** A key of the old rows is not among the keys of the rows added. *)
Lemma key_not_among_added (old added : list string) (k : string) :
  NoDup (old ++ added) -> In k old -> ~ In k added.
Proof.
  intros Hnd Hk Hadded.
  induction old as [|y old IH]; simpl in *; [destruct Hk|].
  inversion Hnd as [|? ? Hy Hnd']; subst.
  destruct Hk as [-> | Hk].
  - apply Hy. apply in_or_app. now right.
  - now apply IH.
Qed.

Lemma decided_after_update (s aid aid' : string) (d : database) :
  s <> "Pending" -> decided aid d ->
  decided aid (update_approval_status s aid' d).
Proof.
  intros Hs [Hin Hall]. split.
  - unfold update_approval_status. simpl. now rewrite update_keeps_keys.
  - intros a' Ha' Hid.
    apply in_updated_approvals in Ha'
      as (a & Ha & _ & Hid' & [[_ E] | [_ ->]]).
    + congruence.
    + now apply Hall.
Qed.

Lemma decided_kept (aid : string) (r : request) (f : option nat)
  (d : database) :
  keys_unique d -> decided aid d -> decided aid (handle r f d).
Proof.
  intros K Hd.
  pose proof (handle_may_leave r f d) as H.
  remember (handle r f d) as d' eqn:Ed'. clear Ed'.
  destruct r; simpl in H;
    repeat match goal with
           | H : _ \/ _ |- _ => destruct H as [H | H]
           | H : exists _, _ |- _ => destruct H as [? H]
           end;
    try (subst d'; exact Hd).
  - destruct H as [-> Hk]. specialize (Hk K).
    destruct Hd as [Hin Hall]. unfold decided.
    change (approvals (submit_committed uuid4 now contract_id d))
      with (approvals d
            ++ pending_rows uuid4 now contract_id 0 (select_approvers d))%list
      in *.
    rewrite map_app in Hk. split.
    + rewrite map_app. apply in_or_app. now left.
    + intros a Ha Hid. apply in_app_iff in Ha as [Ha | Ha];
        [now apply Hall|].
      exfalso. apply (key_not_among_added _ _ aid Hk Hin).
      apply in_map_iff. now exists a.
  - subst d'. apply decided_after_update; [discriminate | exact Hd].
  - subst d'. unfold approve_committed.
    destruct (Nat.eqb _ _);
      apply (decided_after_update "Approved" aid approval_id d);
      (discriminate || exact Hd).
  - subst d'. unfold reject_committed.
    apply (decided_after_update "Rejected" aid approval_id d);
      (discriminate || exact Hd).
Qed.

Lemma decided_kept_all (aid : string) (rs : list (request * option nat)) :
  forall d,
    primary_keys_unique d -> decided aid d -> decided aid (handle_all rs d).
Proof.
  induction rs as [|[r f] rest IH]; intros d K Hd; simpl; [exact Hd|].
  apply IH; [now apply keys_kept|].
  apply decided_kept; [apply K | exact Hd].
Qed.

Lemma decided_by_update (s aid : string) (d : database) :
  s <> "Pending" ->
  In aid (map Approval.approval_id (approvals d)) ->
  decided aid (update_approval_status s aid d).
Proof.
  intros Hs Hin. split.
  - unfold update_approval_status. simpl. now rewrite update_keeps_keys.
  - intros a' Ha' Hid.
    apply in_updated_approvals in Ha'
      as (a & Ha & _ & Hid' & [[_ E] | [Hne _]]); congruence.
Qed.

(** X9: a decision is final for the page.  In a state reached from the empty
    store, once [approve_contract] or [reject_contract] has run for an
    approval the store holds, no approver is ever shown that approval again,
    whatever requests follow and whatever the store does: nothing sets an
    approval back to Pending and no second row can take its key. *)
Theorem decided_approval_never_listed_again
  (history rs : list (request * option nat)) (aid cid : string) :
  In aid (map Approval.approval_id (approvals (handle_all history init_db))) ->
  forall approver cid',
    ~ In (cid', aid)
         (select_pending_reviews approver
            (handle_all rs (handle (Approve aid cid) None
                                   (handle_all history init_db))))
    /\ ~ In (cid', aid)
           (select_pending_reviews approver
              (handle_all rs (handle (Reject aid cid) None
                                     (handle_all history init_db)))).
Proof.
  intros Hin approver cid'.
  set (d := handle_all history init_db) in *.
  assert (K : primary_keys_unique d) by apply keys_kept_all, keys_init.
  assert (G : forall d1,
             primary_keys_unique d1 -> decided aid d1 ->
             ~ In (cid', aid)
                  (select_pending_reviews approver (handle_all rs d1))).
  { intros d1 K1 D1 Hl.
    apply listed_is_pending in Hl as (a & Ha & Hid & Hst).
    destruct (decided_kept_all aid rs d1 K1 D1) as [_ Hall].
    now apply (Hall a Ha Hid). }
  split; apply G.
  - now apply keys_kept.
  - simpl. unfold run. rewrite approve_contract_ok. simpl.
    unfold approve_committed. destruct (Nat.eqb _ _);
      now apply (decided_by_update "Approved" aid d).
  - now apply keys_kept.
  - simpl. unfold run. rewrite reject_contract_ok. simpl.
    unfold reject_committed.
    now apply (decided_by_update "Rejected" aid d).
Qed.

Lemma decided_approval_never_listed_again_witness :
  ~ In ("C1", "a0")
       (select_pending_reviews "u1"
          (handle_all
             [ (SubmitContract (numbered "a") (numbered "t") "C1", None);
               (Approve "a1" "C1", Some 2) ]
             (handle (Approve "a0" "C1") None
                (handle_all
                   [ (SeedUsers (numbered "u"), None);
                     (CreateContract "C1" "vendor" "pumps" "2025-01-01"
                                     "2025-12-31" (amount_of 1000), None);
                     (SubmitContract (numbered "a") (numbered "t") "C1",
                      None) ]
                   init_db)))).
Proof.
  assert (Hin : In "a0"
                   (map Approval.approval_id
                        (approvals
                           (handle_all
                              [ (SeedUsers (numbered "u"), None);
                                (CreateContract "C1" "vendor" "pumps"
                                   "2025-01-01" "2025-12-31"
                                   (amount_of 1000), None);
                                (SubmitContract (numbered "a") (numbered "t")
                                                "C1", None) ]
                              init_db))))
    by (vm_compute; now left).
  destruct (decided_approval_never_listed_again _
              [ (SubmitContract (numbered "a") (numbered "t") "C1", None);
                (Approve "a1" "C1", Some 2) ]
              "a0" "C1" Hin "u1" "C1") as [H _].
  exact H.
Defined.

(** ** Approvals and their contracts *)

Lemma approvers_of_updated (s aid cid : string) (d : database) :
  approvers_of cid (update_approval_status s aid d) = approvers_of cid d.
Proof.
  unfold approvers_of, update_approval_status. simpl.
  induction (approvals d) as [|a l IH]; simpl; [reflexivity|].
  assert (E1 : Approval.contract_id
                 (if Approval.approval_id a =? aid
                  then Approval.set_approval_status s a else a)
               = Approval.contract_id a)
    by (destruct (Approval.approval_id a =? aid); reflexivity).
  assert (E2 : Approval.approver_id
                 (if Approval.approval_id a =? aid
                  then Approval.set_approval_status s a else a)
               = Approval.approver_id a)
    by (destruct (Approval.approval_id a =? aid); reflexivity).
  rewrite E1. destruct (Approval.contract_id a =? cid); simpl;
    now rewrite ?E2, IH.
Qed.

Lemma approvers_of_none (cid : string) (d : database) :
  (forall a, In a (approvals d) -> Approval.contract_id a <> cid) ->
  approvers_of cid d = [].
Proof.
  unfold approvers_of. intros H.
  induction (approvals d) as [|a l IH]; simpl; [reflexivity|].
  assert (Ha : Approval.contract_id a <> cid) by (apply H; now left).
  apply String.eqb_neq in Ha. rewrite Ha. apply IH.
  intros x Hx. apply H. now right.
Qed.

Lemma approvers_of_appended (uuid4 now : nat -> string) (cid cid' : string)
  (l : list string) (d : database) :
  approvers_of cid'
    (set_approvals (approvals d ++ pending_rows uuid4 now cid 0 l) d)
  = (approvers_of cid' d ++ (if cid =? cid' then l else []))%list.
Proof.
  unfold approvers_of. simpl. rewrite filter_app, map_app. f_equal.
  destruct (String.eqb_spec cid cid') as [<- | Hne].
  - rewrite all_of_contract by apply pending_rows_contract.
    apply pending_rows_approvers.
  - assert (E : filter (fun a => Approval.contract_id a =? cid')
                       (pending_rows uuid4 now cid 0 l) = []).
    { generalize 0. induction l as [|u rest IH]; intros i; simpl;
        [reflexivity|].
      apply String.eqb_neq in Hne. rewrite Hne. apply IH. }
    now rewrite E.
Qed.

(** Among users with pairwise different ids, so are the approvers. *)
Lemma approver_ids_distinct (us : list User.t) :
  NoDup (map User.user_id us) ->
  NoDup (map User.user_id (filter is_approver us)).
Proof.
  intros Hnd. induction us as [|u us IH]; simpl; [constructor|].
  inversion Hnd as [|? ? Hu Hnd']; subst.
  destruct (is_approver u); simpl; [|now apply IH].
  constructor; [|now apply IH].
  intros Hin. apply Hu. apply in_map_iff in Hin as (y & E & Hy).
  apply filter_In in Hy as [Hy _]. apply in_map_iff. now exists y.
Qed.

Lemma wf_frame (d d' : database) :
  contracts d' = contracts d -> approvals d' = approvals d ->
  approvals_well_formed d -> approvals_well_formed d'.
Proof.
  unfold approvals_well_formed, approvers_of. intros -> ->. trivial.
Qed.

Lemma wf_status_update (s cid : string) (d : database) :
  s <> "Draft" ->
  approvals_well_formed d ->
  approvals_well_formed (update_contract_status s cid d).
Proof.
  intros Hs (R & D & U). repeat split.
  - intros a Ha. rewrite contract_keys_updated. now apply R.
  - intros c' Hc Hst.
    apply in_updated_contracts in Hc as (c & Hc & Hid & [[_ E] | [_ ->]]).
    + congruence.
    + now apply D.
  - exact U.
Qed.

Lemma wf_approval_update (s aid : string) (d : database) :
  approvals_well_formed d ->
  approvals_well_formed (update_approval_status s aid d).
Proof.
  intros (R & D & U). repeat split.
  - intros a' Ha.
    apply in_updated_approvals in Ha as (a & Ha & Hc & _).
    rewrite Hc. now apply R.
  - intros c Hc Hst. rewrite approvers_of_updated. now apply D.
  - intros cid. rewrite approvers_of_updated. apply U.
Qed.

Lemma wf_create (r : Contract.t) (d : database) :
  ~ In (Contract.contract_id r) (map Contract.contract_id (contracts d)) ->
  approvals_well_formed d ->
  approvals_well_formed (set_contracts (contracts d ++ [r]) d).
Proof.
  intros Hn (R & D & U). repeat split.
  - intros a Ha. simpl. rewrite map_app. apply in_or_app. left. now apply R.
  - intros c Hc Hst. simpl in Hc. apply in_app_iff in Hc as [Hc | [<- | []]].
    + now apply D.
    + apply approvers_of_none. intros a Ha E. apply Hn. rewrite <- E.
      now apply R.
  - exact U.
Qed.

Lemma wf_submitted (uuid4 now : nat -> string) (cid : string)
  (d : database) :
  NoDup (map User.user_id (users d)) ->
  offers_submit cid d = true ->
  approvals_well_formed d ->
  approvals_well_formed (submit_committed uuid4 now cid d).
Proof.
  intros Ku Hoff Hwf.
  assert (Hdraft : exists c, In c (contracts d)
                             /\ Contract.contract_id c = cid
                             /\ Contract.status c = "Draft").
  { unfold offers_submit, select_contract_list in Hoff.
    apply existsb_exists in Hoff as ([[[i v] s] b] & Hin & Hm).
    apply in_map_iff in Hin as (c & E & Hc). injection E as <- _ <- _.
    apply andb_true_iff in Hm as [H1 H2]. apply String.eqb_eq in H1, H2.
    now exists c. }
  destruct Hdraft as (c0 & Hc0 & Hid0 & Hst0).
  pose proof Hwf as (R0 & D0 & U0).
  destruct (wf_status_update "Pending Approval" cid d ltac:(discriminate) Hwf)
    as (R & D & U).
  unfold submit_committed.
  set (d1 := update_contract_status "Pending Approval" cid d) in *.
  repeat split.
  - intros a Ha. simpl in Ha. apply in_app_iff in Ha as [Ha | Ha].
    + now apply R.
    + apply pending_rows_In in Ha as (-> & _).
      change (In cid (map Contract.contract_id
                          (contracts
                             (update_contract_status "Pending Approval" cid
                                                     d)))).
      rewrite contract_keys_updated. rewrite <- Hid0. now apply in_map.
  - intros c Hc Hst. simpl in Hc.
    rewrite approvers_of_appended.
    apply in_updated_contracts in Hc as (c1 & Hc1 & Hid & [[_ E] | [Hne ->]]).
    + congruence.
    + apply not_eq_sym, String.eqb_neq in Hne. rewrite Hne, app_nil_r.
      change (approvers_of (Contract.contract_id c1) d1)
        with (approvers_of (Contract.contract_id c1) d).
      now apply D0.
  - intros cid'. rewrite approvers_of_appended.
    change (approvers_of cid' d1) with (approvers_of cid' d).
    destruct (String.eqb_spec cid cid') as [<- | Hne].
    + rewrite <- Hid0, (D0 c0 Hc0 Hst0). simpl.
      unfold select_approvers. now apply approver_ids_distinct.
    + rewrite app_nil_r. apply U0.
Qed.

Lemma wf_kept (r : request) (f : option nat) (d : database) :
  primary_keys_unique d ->
  manager_offers r d = true ->
  approvals_well_formed d -> approvals_well_formed (handle r f d).
Proof.
  intros K Hoff Hwf. destruct r; simpl in *.
  - destruct (seed_users_outcomes uuid4 f d) as [extra ->].
    now apply (wf_frame d).
  - now rewrite get_user_outcomes.
  - destruct (create_contract_results uuid4 vendor desc start_date end_date
                budget f d) as [[e E] | [E Hn]];
      unfold run; rewrite E; simpl; [exact Hwf|].
    now apply wf_create.
  - destruct (submit_contract_outcomes uuid4 now contract_id f d)
      as [E | [E | [E _]]]; rewrite E.
    + exact Hwf.
    + apply wf_status_update; [discriminate | exact Hwf].
    + apply wf_submitted; [apply K | exact Hoff | exact Hwf].
  - destruct (approve_contract_outcomes approval_id contract_id f d)
      as [E | [E | E]]; rewrite E.
    + exact Hwf.
    + now apply wf_approval_update.
    + unfold approve_committed. destruct (Nat.eqb _ _).
      * apply wf_status_update; [discriminate|].
        now apply wf_approval_update.
      * now apply wf_approval_update.
  - destruct (reject_contract_outcomes approval_id contract_id f d)
      as [E | E]; rewrite E; [exact Hwf|].
    unfold reject_committed. apply wf_status_update; [discriminate|].
    now apply wf_approval_update.
  - destruct (submit_service_report_outcomes uuid4 contract_id service_date
                work_performed parts_cost labor_hours f d) as [E | E];
      rewrite E; [exact Hwf | now apply (wf_frame d)].
  - destruct (generate_invoice_outcomes uuid4 today contract_id amount f d)
      as [E | E]; rewrite E; [exact Hwf | now apply (wf_frame d)].
  - destruct (mark_paid_outcomes invoice_id f d) as [E | E];
      rewrite E; [exact Hwf | now apply (wf_frame d)].
Qed.

Lemma wf_kept_all (rs : list (request * option nat)) :
  forall d,
    primary_keys_unique d -> approvals_well_formed d ->
    submitted_from_draft rs d = true ->
    approvals_well_formed (handle_all rs d).
Proof.
  induction rs as [|[r f] rest IH]; intros d K Hwf Hoff; simpl in *;
    [exact Hwf|].
  apply andb_true_iff in Hoff as [H1 H2].
  apply IH; [now apply keys_kept | now apply wf_kept | exact H2].
Qed.

(** X10: when contracts are submitted only through the button
    [manage_contracts] shows on Draft rows, then after any sequence of
    requests from the empty store, under any fault schedules, every approval
    belongs to a contract of the store, a contract still in Draft has no
    approval, and no contract has two approvals of the same approver.
    Decisions need no condition for this. *)
Theorem approvals_stay_well_formed (rs : list (request * option nat)) :
  submitted_from_draft rs init_db = true ->
  approvals_well_formed (handle_all rs init_db).
Proof.
  intros H. apply wf_kept_all; [apply keys_init | | exact H].
  split; [|split].
  - intros a [].
  - intros c [].
  - intros cid. constructor.
Qed.

Lemma approvals_stay_well_formed_witness :
  approvals_well_formed
    (handle_all
       [ (SeedUsers (numbered "u"), None);
         (CreateContract "C1" "vendor" "pumps" "2025-01-01" "2025-12-31"
                         (amount_of 1000), None);
         (SubmitContract (numbered "a") (numbered "t") "C1", None);
         (Approve "a0" "C1", None); (Approve "a1" "C1", None);
         (Approve "a2" "C1", None) ]
       init_db).
Proof.
  apply approvals_stay_well_formed. vm_compute. reflexivity.
Defined.

(** Without the button the property is lost: submitting the contract of
    scenario A a second time gives every approver a second approval. *)
Example second_submission_duplicates_approvers :
  approvers_of "C1"
    (handle (SubmitContract (numbered "b") (numbered "t") "C1") None
            scenario_submitted)
  = ["u1"; "u2"; "u3"; "u1"; "u2"; "u3"].
Proof. vm_compute. reflexivity. Qed.

(** ** Decisions *)

(** X11: what [approve_contract] decides.  After it has updated the
    approval, the contract is set to ["Active"] when every approval row of
    the contract is Approved, which includes the case of a contract with no
    approval row at all; when some approval row of the contract is not
    Approved the [contracts] table is left as it was. *)
Theorem approve_contract_activates_when_all_approved (aid cid : string)
  (d : database) :
  let d' := run (approve_contract aid cid) None d in
  ((forall a, In a (approvals d') -> Approval.contract_id a = cid ->
              Approval.approval_status a = "Approved") ->
   contract_status cid d'
   = option_map (fun _ => "Active") (contract_status cid d))
  /\ ((exists a, In a (approvals d') /\ Approval.contract_id a = cid
                 /\ Approval.approval_status a <> "Approved") ->
      contracts d' = contracts d)
  /\ (count_approvals cid d = 0 ->
      contract_status cid d'
      = option_map (fun _ => "Active") (contract_status cid d)).
Proof.
  intros d'.
  assert (Hd' : d' = approve_committed aid cid d)
    by (unfold d', run; now rewrite approve_contract_ok).
  set (d1 := update_approval_status "Approved" aid d).
  assert (Hap : approvals d' = approvals d1).
  { rewrite Hd'. unfold approve_committed. fold d1.
    now destruct (Nat.eqb _ _). }
  assert (Hall : (forall a, In a (approvals d') ->
                            Approval.contract_id a = cid ->
                            Approval.approval_status a = "Approved") ->
                 contract_status cid d'
                 = option_map (fun _ => "Active") (contract_status cid d)).
  { intros H. rewrite Hap in H. apply all_approved_unanimous in H.
    rewrite Hd'. unfold approve_committed. fold d1.
    unfold count_approved, count_approvals.
    rewrite H, Nat.eqb_refl. now rewrite contract_status_update_same. }
  split; [exact Hall|]. split.
  - intros (a & Ha & Hc & Hs). rewrite Hap in Ha.
    rewrite Hd'. unfold approve_committed. fold d1.
    destruct (Nat.eqb (count_approved cid d1) (count_approvals cid d1))
      eqn:E; [|reflexivity].
    apply Nat.eqb_eq in E. exfalso. apply Hs.
    now apply (unanimous_all_approved cid (approvals d1) E a Ha).
  - intros Hzero. apply Hall. intros a Ha Hc. exfalso.
    rewrite Hap in Ha.
    assert (Hz : count_approvals cid d1 = 0)
      by (unfold d1; now rewrite count_approvals_update).
    unfold count_approvals in Hz.
    assert (Hf : In a (filter (fun a => Approval.contract_id a =? cid)
                              (approvals d1)))
      by (apply filter_In; split; [exact Ha | now apply String.eqb_eq]).
    destruct (filter _ (approvals d1)); [destruct Hf | discriminate].
Qed.

(** A contract created before any user is seeded has no approval after its
    submission; any call of [approve_contract] for it makes it Active. *)
Lemma approve_contract_activates_when_all_approved_witness :
  contract_status "C0"
    (run (approve_contract "a0" "C0") None
         (handle_all
            [ (CreateContract "C0" "vendor" "valves" "2025-01-01"
                              "2025-06-30" (amount_of 10), None);
              (SubmitContract (numbered "b") (numbered "t") "C0", None) ]
            init_db))
  = Some "Active".
Proof.
  destruct (approve_contract_activates_when_all_approved "a0" "C0"
              (handle_all
                 [ (CreateContract "C0" "vendor" "valves" "2025-01-01"
                                   "2025-06-30" (amount_of 10), None);
                   (SubmitContract (numbered "b") (numbered "t") "C0",
                    None) ]
                 init_db)) as (_ & _ & H).
  rewrite H; vm_compute; reflexivity.
Defined.

(** X12: a decision for an approval id no approval has.  Both functions
    return normally and change no approval; [reject_contract] still sets the
    contract to ["Rejected"], and [approve_contract] sets it to ["Active"]
    exactly when the approvals of the contract were already all Approved. *)
Theorem decision_on_missing_approval (aid cid : string) (d : database) :
  ~ In aid (map Approval.approval_id (approvals d)) ->
  with_connection (reject_contract aid cid) None d
  = (update_contract_status "Rejected" cid d, inr tt)
  /\ contract_status cid (run (reject_contract aid cid) None d)
     = option_map (fun _ => "Rejected") (contract_status cid d)
  /\ with_connection (approve_contract aid cid) None d
     = ((if Nat.eqb (count_approved cid d) (count_approvals cid d)
         then update_contract_status "Active" cid d else d), inr tt).
Proof.
  intros Hn.
  assert (E : update_approval_status "Approved" aid d = d
              /\ update_approval_status "Rejected" aid d = d).
  { unfold update_approval_status.
    assert (F : Forall (fun a => Approval.approval_id a <> aid)
                       (approvals d)).
    { apply Forall_forall. intros a Ha Heq. apply Hn.
      apply in_map_iff. now exists a. }
    rewrite !update_other_ids by exact F. now destruct d. }
  destruct E as [E1 E2].
  rewrite reject_contract_ok, approve_contract_ok.
  unfold run. rewrite reject_contract_ok. simpl.
  unfold reject_committed, approve_committed. rewrite E1, E2.
  split; [reflexivity|]. split; [apply contract_status_update_same|].
  reflexivity.
Qed.

Lemma decision_on_missing_approval_witness :
  contract_status "C1"
    (run (reject_contract "no-such-approval" "C1") None scenario_active)
  = Some "Rejected".
Proof.
  assert (Hn : ~ In "no-such-approval"
                    (map Approval.approval_id (approvals scenario_active)))
    by (vm_compute; intuition discriminate).
  destruct (decision_on_missing_approval "no-such-approval" "C1"
              scenario_active Hn) as (_ & H & _).
  rewrite H. vm_compute. reflexivity.
Defined.

Lemma update_approvals_commute (s1 s2 aid1 aid2 : string)
  (l : list Approval.t) :
  aid1 <> aid2 ->
  map (fun a => if Approval.approval_id a =? aid1
                then Approval.set_approval_status s1 a else a)
      (map (fun a => if Approval.approval_id a =? aid2
                     then Approval.set_approval_status s2 a else a) l)
  = map (fun a => if Approval.approval_id a =? aid2
                  then Approval.set_approval_status s2 a else a)
        (map (fun a => if Approval.approval_id a =? aid1
                       then Approval.set_approval_status s1 a else a) l).
Proof.
  intros Hne. rewrite !map_map. apply map_ext. intros a.
  destruct (Approval.approval_id a =? aid1) eqn:E1,
           (Approval.approval_id a =? aid2) eqn:E2;
    simpl; rewrite ?E1, ?E2; try reflexivity.
  apply String.eqb_eq in E1, E2. congruence.
Qed.

Lemma update_status_overrides (s s' cid : string) (l : list Contract.t) :
  map (fun c => if Contract.contract_id c =? cid
                then Contract.set_status s c else c)
      (map (fun c => if Contract.contract_id c =? cid
                     then Contract.set_status s' c else c) l)
  = map (fun c => if Contract.contract_id c =? cid
                  then Contract.set_status s c else c) l.
Proof.
  rewrite map_map. apply map_ext. intros c.
  destruct (Contract.contract_id c =? cid) eqn:E; simpl; now rewrite E.
Qed.

Lemma decisions_swap (s2 s1 s aid2 aid1 cid : string) (d : database) :
  aid2 <> aid1 ->
  update_approval_status s2 aid2
    (update_contract_status s cid (update_approval_status s1 aid1 d))
  = update_contract_status s cid
      (update_approval_status s1 aid1 (update_approval_status s2 aid2 d)).
Proof.
  intros Hne.
  unfold update_contract_status, update_approval_status, set_contracts,
    set_approvals. simpl. f_equal.
  now apply update_approvals_commute.
Qed.

Lemma status_update_absorbs (s s' s1 aid1 cid : string) (d : database) :
  update_contract_status s cid
    (update_approval_status s1 aid1 (update_contract_status s' cid d))
  = update_contract_status s cid (update_approval_status s1 aid1 d).
Proof.
  unfold update_contract_status, update_approval_status, set_contracts,
    set_approvals. simpl. f_equal.
  apply update_status_overrides.
Qed.

Lemma run_approve_contract (aid cid : string) (d : database) :
  run (approve_contract aid cid) None d = approve_committed aid cid d.
Proof. unfold run. now rewrite approve_contract_ok. Qed.

Lemma run_reject_contract (aid cid : string) (d : database) :
  run (reject_contract aid cid) None d = reject_committed aid cid d.
Proof. unfold run. now rewrite reject_contract_ok. Qed.

(** X13: a rejection is not undone by the approval of another approval of
    the same contract, in either order.  For an approval the store holds for
    the contract and any other approval id, rejecting the first and then
    approving the second leaves exactly the file that approving the second
    and then rejecting the first leaves, and in it the contract is
    ["Rejected"]. *)
Theorem rejection_and_approval_commute (aid1 aid2 cid : string)
  (d : database) (r : Approval.t) :
  In r (approvals d) -> Approval.approval_id r = aid1 ->
  Approval.contract_id r = cid -> aid1 <> aid2 ->
  run (approve_contract aid2 cid) None (run (reject_contract aid1 cid) None d)
  = run (reject_contract aid1 cid) None (run (approve_contract aid2 cid) None d)
  /\ contract_status cid
       (run (approve_contract aid2 cid) None
            (run (reject_contract aid1 cid) None d))
     = option_map (fun _ => "Rejected") (contract_status cid d).
Proof.
  intros Hr Hid Hc Hne.
  rewrite !run_approve_contract, !run_reject_contract.
  set (dr := reject_committed aid1 cid d).
  assert (Hcnt : Nat.eqb
                   (count_approved cid
                      (update_approval_status "Approved" aid2 dr))
                   (count_approvals cid
                      (update_approval_status "Approved" aid2 dr)) = false).
  { apply Nat.eqb_neq. intros E.
    assert (Hin : In (Approval.set_approval_status "Rejected" r)
                     (approvals (update_approval_status "Approved" aid2 dr))).
    { pose proof (updated_approval_in "Rejected" aid1 d r Hr) as H1.
      apply String.eqb_eq in Hid. rewrite Hid in H1.
      pose proof (updated_approval_in "Approved" aid2 dr _ H1) as H2.
      simpl in H2. apply String.eqb_eq in Hid. rewrite Hid in H2.
      apply String.eqb_neq in Hne. now rewrite Hne in H2. }
    pose proof (unanimous_all_approved cid _ E _ Hin Hc) as Hs.
    discriminate. }
  assert (EA : approve_committed aid2 cid dr
               = update_approval_status "Approved" aid2 dr)
    by (unfold approve_committed; now rewrite Hcnt).
  rewrite !EA. clear Hcnt EA.
  split.
  - unfold dr, reject_committed, approve_committed.
    rewrite (decisions_swap "Approved" "Rejected" "Rejected" aid2 aid1 cid d)
      by (apply not_eq_sym; exact Hne).
    destruct (Nat.eqb
                (count_approved cid (update_approval_status "Approved" aid2 d))
                (count_approvals cid
                   (update_approval_status "Approved" aid2 d)));
      [|reflexivity].
    now rewrite status_update_absorbs.
  - subst dr. unfold reject_committed.
    change (contract_status cid
              (update_contract_status "Rejected" cid
                 (update_approval_status "Rejected" aid1 d))
            = option_map (fun _ => "Rejected") (contract_status cid d)).
    now rewrite contract_status_update_same.
Qed.

Lemma rejection_and_approval_commute_witness :
  contract_status "C1"
    (run (approve_contract "a2" "C1") None
         (run (reject_contract "a0" "C1") None scenario_two_of_three))
  = option_map (fun _ => "Rejected")
               (contract_status "C1" scenario_two_of_three).
Proof.
  assert (Hr : In (Approval.mk "a0" "C1" "u1" "Approved" "t0")
                  (approvals scenario_two_of_three))
    by (vm_compute; now left).
  destruct (rejection_and_approval_commute "a0" "a2" "C1"
              scenario_two_of_three _ Hr eq_refl eq_refl
              ltac:(discriminate)) as [_ H].
  exact H.
Defined.

(** X14: what the statuses of a contract say about its approvals.  When
    every decision was taken through the approval page (on an approval still
    Pending, with its contract), then in every state reached from the empty
    store, under any fault schedules, each approval of an Active contract is
    Approved and each Rejected contract has an approval that is Rejected. *)
Theorem contract_status_reflects_approvals (steps : list step) :
  offered_all steps init_db = true ->
  (forall c a,
      In c (contracts (handle_all (requests_of steps) init_db)) ->
      Contract.status c = "Active" ->
      In a (approvals (handle_all (requests_of steps) init_db)) ->
      Approval.contract_id a = Contract.contract_id c ->
      Approval.approval_status a = "Approved")
  /\ (forall c,
         In c (contracts (handle_all (requests_of steps) init_db)) ->
         Contract.status c = "Rejected" ->
         exists a,
           In a (approvals (handle_all (requests_of steps) init_db))
           /\ Approval.contract_id a = Contract.contract_id c
           /\ Approval.approval_status a = "Rejected").
Proof.
  intros H.
  destruct (inv_reachable steps init_db inv_init H) as (_ & A & R & _).
  split; [exact A | exact R].
Qed.

(** Scenario B: the contract is Rejected and the first approval is the
    Rejected one. *)
Lemma contract_status_reflects_approvals_witness :
  exists a,
    In a (approvals
            (handle_all
               (requests_of
                  [ ("u0", SeedUsers (numbered "u"), None);
                    ("u0", CreateContract "C1" "vendor" "pumps" "2025-01-01"
                                          "2025-12-31" (amount_of 1000),
                     None);
                    ("u0", SubmitContract (numbered "a") (numbered "t") "C1",
                     None);
                    ("u1", Reject "a0" "C1", None) ])
               init_db))
    /\ Approval.contract_id a = "C1"
    /\ Approval.approval_status a = "Rejected".
Proof.
  match goal with
  | |- exists a, In a (approvals (handle_all (requests_of ?st) _)) /\ _ =>
      assert (H : offered_all st init_db = true)
        by (vm_compute; reflexivity);
      assert (Hin : In (Contract.mk "C1" "vendor" "pumps" "2025-01-01"
                                    "2025-12-31" (amount_of 1000) "Rejected")
                       (contracts (handle_all (requests_of st) init_db)))
        by (vm_compute; left; reflexivity);
      destruct (contract_status_reflects_approvals st H) as [_ HR]
  end.
  exact (HR _ Hin eq_refl).
Defined.

(** ** Nothing is deleted *)

Lemma extends_refl {A} (l : list A) : extends l l.
Proof. exists []. now rewrite app_nil_r. Qed.

Lemma extends_trans {A} (l1 l2 l3 : list A) :
  extends l1 l2 -> extends l2 l3 -> extends l1 l3.
Proof.
  intros [e1 ->] [e2 ->]. exists (e1 ++ e2)%list. now rewrite app_assoc.
Qed.

Lemma extends_app {A} (l extra : list A) : extends l (l ++ extra).
Proof. now exists extra. Qed.

Lemma extends_map_app {A B} (f : A -> B) (l extra : list A) :
  extends (map f l) (map f (l ++ extra)).
Proof. exists (map f extra). apply map_app. Qed.

Lemma grows_only_refl (d : database) : grows_only d d.
Proof. repeat split; apply extends_refl. Qed.

Lemma grows_only_trans (d1 d2 d3 : database) :
  grows_only d1 d2 -> grows_only d2 d3 -> grows_only d1 d3.
Proof.
  intros (A1 & A2 & A3 & A4 & A5) (B1 & B2 & B3 & B4 & B5).
  repeat split; eapply extends_trans; eassumption.
Qed.

Lemma contract_core_updated (s cid : string) (d : database) :
  map contract_core (contracts (update_contract_status s cid d))
  = map contract_core (contracts d).
Proof.
  unfold update_contract_status. simpl. rewrite map_map. apply map_ext.
  intros c. now destruct (Contract.contract_id c =? cid).
Qed.

Lemma approval_core_updated (s aid : string) (d : database) :
  map approval_core (approvals (update_approval_status s aid d))
  = map approval_core (approvals d).
Proof.
  unfold update_approval_status. simpl. rewrite map_map. apply map_ext.
  intros a. now destruct (Approval.approval_id a =? aid).
Qed.

Lemma invoice_core_updated (iid : string) (d : database) :
  map invoice_core (invoices (update_invoice_paid iid d))
  = map invoice_core (invoices d).
Proof.
  unfold update_invoice_paid. simpl. rewrite map_map. apply map_ext.
  intros i. now destruct (Invoice.invoice_id i =? iid).
Qed.

Lemma grows_status_update (s cid : string) (d : database) :
  grows_only d (update_contract_status s cid d).
Proof.
  repeat split; try apply extends_refl.
  rewrite contract_core_updated. apply extends_refl.
Qed.

Lemma grows_approval_update (s aid : string) (d : database) :
  grows_only d (update_approval_status s aid d).
Proof.
  repeat split; try apply extends_refl.
  rewrite approval_core_updated. apply extends_refl.
Qed.

Lemma grows_by (r : request) (d d' : database) :
  may_leave r d d' -> grows_only d d'.
Proof.
  intros H.
  destruct r; simpl in H;
    repeat match goal with
           | H : _ \/ _ |- _ => destruct H as [H | H]
           | H : exists _, _ |- _ => destruct H as [? H]
           | H : _ = _ /\ _ |- _ => destruct H as [H _]
           end;
    subst d'; try apply grows_only_refl;
    try apply grows_status_update; try apply grows_approval_update.
  - repeat split; try apply extends_refl. apply extends_app.
  - repeat split; try apply extends_refl. apply extends_map_app.
  - eapply grows_only_trans; [apply grows_status_update|].
    unfold submit_committed.
    repeat split; try apply extends_refl. apply extends_map_app.
  - unfold approve_committed. destruct (Nat.eqb _ _).
    + eapply grows_only_trans;
        [apply grows_approval_update | apply grows_status_update].
    + apply grows_approval_update.
  - unfold reject_committed.
    eapply grows_only_trans;
      [apply grows_approval_update | apply grows_status_update].
  - repeat split; try apply extends_refl. apply extends_app.
  - repeat split; try apply extends_refl. apply extends_map_app.
  - repeat split; try apply extends_refl.
    rewrite invoice_core_updated. apply extends_refl.
Qed.

(** X15: nothing is deleted and only the status columns are rewritten.
    Across any sequence of requests, under any fault schedules, the tables
    [users] and [service_reports] keep their rows and get further rows at the
    end; [contracts], [approvals] and [invoices] do the same up to the
    columns [status], [approval_status] and [payment_status]: in particular
    the timestamp of an approval stays the one of its creation when the
    approval is decided. *)
Theorem rows_are_kept (rs : list (request * option nat)) (d : database) :
  grows_only d (handle_all rs d).
Proof.
  revert d. induction rs as [|[r f] rest IH]; intros d; simpl.
  - apply grows_only_refl.
  - eapply grows_only_trans; [|apply IH].
    apply (grows_by r), handle_may_leave.
Qed.

(** The approvals of scenario A after the three decisions: identifiers,
    contract, approvers and timestamps are those of the submission. *)
Example timestamps_of_decided_approvals :
  map approval_core (approvals scenario_active)
  = map approval_core (approvals scenario_submitted)
  /\ map Approval.timestamp (approvals scenario_active) = ["t0"; "t1"; "t2"].
Proof. vm_compute. split; reflexivity. Qed.

(** ** The other two status columns *)

Lemma approval_statuses_by (r : request) (d d' : database) :
  may_leave r d d' ->
  Forall (fun a => In (Approval.approval_status a) approval_statuses)
         (approvals d) ->
  Forall (fun a => In (Approval.approval_status a) approval_statuses)
         (approvals d').
Proof.
  assert (U : forall s aid d0,
             In s approval_statuses ->
             Forall (fun a => In (Approval.approval_status a)
                                 approval_statuses) (approvals d0) ->
             Forall (fun a => In (Approval.approval_status a)
                                 approval_statuses)
                    (approvals (update_approval_status s aid d0))).
  { intros s aid d0 Hs F. apply Forall_forall. intros a' Ha.
    apply in_updated_approvals in Ha
      as (a & Ha & _ & _ & [[_ E] | [_ ->]]).
    - now rewrite E.
    - rewrite Forall_forall in F. now apply F. }
  intros H F.
  destruct r; simpl in H;
    repeat match goal with
           | H : _ \/ _ |- _ => destruct H as [H | H]
           | H : exists _, _ |- _ => destruct H as [? H]
           | H : _ = _ /\ _ |- _ => destruct H as [H _]
           end;
    subst d'; try exact F.
  - unfold submit_committed. simpl. apply Forall_app. split; [exact F|].
    apply Forall_forall. intros a Ha.
    apply pending_rows_In in Ha as (_ & -> & _). simpl. auto.
  - apply U; [simpl; auto | exact F].
  - unfold approve_committed. destruct (Nat.eqb _ _);
      apply (U "Approved" approval_id d); (simpl; auto) || exact F.
  - unfold reject_committed.
    apply (U "Rejected" approval_id d); [simpl; auto | exact F].
Qed.

Lemma payment_statuses_by (r : request) (d d' : database) :
  may_leave r d d' ->
  Forall (fun i => In (Invoice.payment_status i) payment_statuses)
         (invoices d) ->
  Forall (fun i => In (Invoice.payment_status i) payment_statuses)
         (invoices d').
Proof.
  intros H F.
  destruct r; simpl in H;
    repeat match goal with
           | H : _ \/ _ |- _ => destruct H as [H | H]
           | H : exists _, _ |- _ => destruct H as [? H]
           | H : _ = _ /\ _ |- _ => destruct H as [H _]
           end;
    subst d'; try exact F.
  - unfold approve_committed. now destruct (Nat.eqb _ _).
  - simpl. apply Forall_app. split; [exact F|].
    constructor; [simpl; auto | constructor].
  - unfold update_invoice_paid. simpl. apply Forall_forall. intros i' Hi.
    apply in_map_iff in Hi as (i & <- & Hi).
    destruct (Invoice.invoice_id i =? invoice_id); [simpl; auto|].
    rewrite Forall_forall in F. now apply F.
Qed.

(** X16: after any sequence of requests from the empty store, under any
    fault schedules, the status of every approval is Pending, Approved or
    Rejected and the payment status of every invoice is Pending or Paid. *)
Theorem status_columns_stay_in_range (rs : list (request * option nat)) :
  Forall (fun a => In (Approval.approval_status a) approval_statuses)
         (approvals (handle_all rs init_db))
  /\ Forall (fun i => In (Invoice.payment_status i) payment_statuses)
            (invoices (handle_all rs init_db)).
Proof.
  assert (G : forall d,
             Forall (fun a => In (Approval.approval_status a)
                                 approval_statuses) (approvals d)
             /\ Forall (fun i => In (Invoice.payment_status i)
                                    payment_statuses) (invoices d) ->
             Forall (fun a => In (Approval.approval_status a)
                                 approval_statuses)
                    (approvals (handle_all rs d))
             /\ Forall (fun i => In (Invoice.payment_status i)
                                    payment_statuses)
                       (invoices (handle_all rs d))).
  { induction rs as [|[r f] rest IH]; intros d [F1 F2]; simpl;
      [now split|].
    apply IH. split.
    - apply (approval_statuses_by r d);
        [apply handle_may_leave | exact F1].
    - apply (payment_statuses_by r d);
        [apply handle_may_leave | exact F2]. }
  apply G. split; constructor.
Qed.

(** ** Leaving Draft *)

Lemma offers_submit_false (cid : string) (d : database) :
  offers_submit cid d = false
  <-> forall c, In c (contracts d) -> Contract.contract_id c = cid ->
                Contract.status c <> "Draft".
Proof.
  unfold offers_submit, select_contract_list. split.
  - intros E c Hc Hid Hst.
    assert (H : existsb
                  (fun row => match row with
                              | (contract_id, _, status, _) =>
                                  (contract_id =? cid) && (status =? "Draft")
                              end)
                  (map (fun c => (Contract.contract_id c,
                                  Contract.vendor_name c, Contract.status c,
                                  Contract.budget c)) (contracts d)) = true).
    { apply existsb_exists. eexists. split; [apply in_map; exact Hc|].
      simpl. rewrite Hid, Hst, !String.eqb_refl. reflexivity. }
    congruence.
  - intros H. apply not_true_is_false. intros E.
    apply existsb_exists in E as ([[[i v] s] b] & Hin & Hm).
    apply in_map_iff in Hin as (c & Heq & Hc). injection Heq as <- _ <- _.
    apply andb_true_iff in Hm as [H1 H2]. apply String.eqb_eq in H1, H2.
    now apply (H c Hc H1).
Qed.

Lemma left_draft_status_update (s cid cid' : string) (d : database) :
  s <> "Draft" -> left_draft cid d ->
  left_draft cid (update_contract_status s cid' d).
Proof.
  intros Hs [Hin Hall]. split.
  - now rewrite contract_keys_updated.
  - intros c' Hc Hid.
    apply in_updated_contracts in Hc as (c & Hc & Hid' & [[_ E] | [_ ->]]).
    + congruence.
    + now apply Hall.
Qed.

Lemma left_draft_kept (cid : string) (r : request) (f : option nat)
  (d : database) :
  left_draft cid d -> left_draft cid (handle r f d).
Proof.
  intros Hl. destruct r; simpl.
  - destruct (seed_users_outcomes uuid4 f d) as [extra ->]. exact Hl.
  - now rewrite get_user_outcomes.
  - destruct (create_contract_results uuid4 vendor desc start_date end_date
                budget f d) as [[e E] | [E Hn]];
      unfold run; rewrite E; simpl; [exact Hl|].
    destruct Hl as [Hin Hall]. split; simpl.
    + rewrite map_app. apply in_or_app. now left.
    + intros c Hc Hid. apply in_app_iff in Hc as [Hc | [<- | []]].
      * now apply Hall.
      * simpl in Hid. subst uuid4. contradiction.
  - destruct (submit_contract_outcomes uuid4 now contract_id f d)
      as [E | [E | [E _]]]; rewrite E.
    + exact Hl.
    + apply left_draft_status_update; [discriminate | exact Hl].
    + apply (left_draft_status_update "Pending Approval" cid contract_id d
               ltac:(discriminate)) in Hl.
      exact Hl.
  - destruct (approve_contract_outcomes approval_id contract_id f d)
      as [E | [E | E]]; rewrite E; try exact Hl.
    unfold approve_committed. destruct (Nat.eqb _ _); [|exact Hl].
    apply (left_draft_status_update "Active" cid contract_id d
             ltac:(discriminate)) in Hl.
    exact Hl.
  - destruct (reject_contract_outcomes approval_id contract_id f d)
      as [E | E]; rewrite E; [exact Hl|].
    apply (left_draft_status_update "Rejected" cid contract_id d
             ltac:(discriminate)) in Hl.
    exact Hl.
  - destruct (submit_service_report_outcomes uuid4 contract_id service_date
                work_performed parts_cost labor_hours f d) as [E | E];
      rewrite E; exact Hl.
  - destruct (generate_invoice_outcomes uuid4 today contract_id amount f d)
      as [E | E]; rewrite E; exact Hl.
  - destruct (mark_paid_outcomes invoice_id f d) as [E | E];
      rewrite E; exact Hl.
Qed.

Lemma left_draft_kept_all (cid : string) (rs : list (request * option nat)) :
  forall d, left_draft cid d -> left_draft cid (handle_all rs d).
Proof.
  induction rs as [|[r f] rest IH]; intros d Hl; simpl; [exact Hl|].
  apply IH. now apply left_draft_kept.
Qed.

(** X17: Draft is left for good.  For a contract of the store for which
    [manage_contracts] shows no submit button, no sequence of requests,
    under any fault schedules, brings the button back; and a call of
    [submit_contract_for_approval] for a contract of the store either leaves
    the file as it was or removes the button, also when the store fails
    before the approvals are written. *)
Theorem draft_is_left_for_good (cid : string) (d : database) :
  In cid (map Contract.contract_id (contracts d)) ->
  (offers_submit cid d = false ->
   forall rs, offers_submit cid (handle_all rs d) = false)
  /\ (forall uuid4 now f rs,
         run (submit_contract_for_approval uuid4 now cid) f d = d
         \/ offers_submit cid
              (handle_all rs
                 (run (submit_contract_for_approval uuid4 now cid) f d))
            = false).
Proof.
  intros Hin. split.
  - intros Hoff rs. apply offers_submit_false.
    apply (left_draft_kept_all cid rs d). split; [exact Hin|].
    now apply offers_submit_false.
  - intros uuid4 now f rs.
    assert (Hl : left_draft cid
                   (update_contract_status "Pending Approval" cid d)).
    { split; [now rewrite contract_keys_updated|].
      intros c' Hc Hid.
      apply in_updated_contracts in Hc as (c & Hc & Hid' & [[_ E] | [Hne _]]).
      - rewrite E. discriminate.
      - congruence. }
    destruct (submit_contract_outcomes uuid4 now cid f d)
      as [E | [E | [E _]]]; rewrite E; [now left | right | right];
      apply offers_submit_false; apply (left_draft_kept_all cid rs).
    + exact Hl.
    + exact Hl.
Qed.

(** The submission of C1 fails on its first insert; the button is gone and
    the contract has no approval. *)
Lemma draft_is_left_for_good_witness :
  offers_submit "C1" scenario_draft = true
  /\ offers_submit "C1"
       (handle_all
          [ (SeedUsers (numbered "v"), None) ]
          (run (submit_contract_for_approval (numbered "a") (numbered "t")
                                             "C1")
               (Some 3) scenario_draft))
     = false.
Proof.
  split; [vm_compute; reflexivity|].
  assert (Hin : In "C1" (map Contract.contract_id (contracts scenario_draft)))
    by (vm_compute; now left).
  destruct (draft_is_left_for_good "C1" scenario_draft Hin) as [_ H].
  destruct (H (numbered "a") (numbered "t") (Some 3)
              [ (SeedUsers (numbered "v"), @None nat) ]) as [E | E].
  - exfalso. apply (f_equal (contract_status "C1")) in E.
    vm_compute in E. discriminate.
  - exact E.
Defined.

(** ** Seeding, then logging in *)

Lemma demo_users_functional (un pw rl pw' rl' : string) :
  In (un, pw, rl) demo_users -> In (un, pw', rl') demo_users ->
  pw = pw' /\ rl = rl'.
Proof.
  unfold demo_users. simpl. intros H1 H2.
  repeat (destruct H1 as [H1 | H1]; [|]); try contradiction;
    injection H1 as <- <- <-;
    repeat (destruct H2 as [H2 | H2]; [|]); try contradiction;
    try discriminate; injection H2 as <- <-; split; reflexivity.
Qed.

(** The rows a loop that ended normally has added come from the list. *)
Lemma seed_loop_done_rows (uuid4 : nat -> string)
  (l : list (string * string * string)) :
  forall (i : nat) (c c' : connection) (x : unit),
    seed_loop uuid4 i l c = Done x c' ->
    exists extra,
      users (txn c') = (users (txn c) ++ extra)%list
      /\ Forall (fun r => In (User.username r, User.password r, User.role r)
                             l) extra.
Proof.
  induction l as [|[[un pw] rl] rest IH]; intros i c c' x H; simpl in H.
  - unfold ret in H. injection H as _ <-. exists []. split; [|constructor].
    now rewrite app_nil_r.
  - unfold bind in H.
    destruct (query_cases (select_user_by_username un) c) as [E | [n E]];
      rewrite E in H; [discriminate|]. simpl in H.
    destruct (select_user_by_username un (txn c)) as [r|].
    + unfold ret in H. apply IH in H as (extra & Hex & Hall). simpl in Hex.
      exists extra. split; [exact Hex|].
      eapply Forall_impl; [|exact Hall]. intros a Ha. now right.
    + match type of H with context [execute ?s ?c0] =>
        destruct (execute_cases s c0)
          as [(e & c1 & E1 & _) | (d1 & m & Hs & E1)] end;
        rewrite E1 in H; [discriminate|].
      simpl in Hs. unfold insert_user in Hs.
      destruct (existsb _ _); [discriminate|]. injection Hs as <-.
      apply IH in H as (extra & Hex & Hall). simpl in Hex.
      exists ([User.mk (uuid4 i) un pw rl] ++ extra)%list. split.
      * now rewrite Hex, <- app_assoc.
      * apply Forall_app. split.
        -- constructor; [now left | constructor].
        -- eapply Forall_impl; [|exact Hall]. intros a Ha. now right.
Qed.

(** X18: seeding makes the demo accounts usable.  After a run of
    [seed_users] that returned normally, for each entry of its table whose
    username was not in the store before, [get_user] with the username and
    password of the entry returns a user with that username and the role of
    the entry. *)
Theorem seeded_user_logs_in (uuid4 : nat -> string) (f : option nat)
  (d : database) (un pw rl : string) :
  In (un, pw, rl) demo_users ->
  select_user_by_username un d = None ->
  snd (with_connection (seed_users uuid4) f d) = inr tt ->
  exists r,
    snd (with_connection (get_user un pw) None
                         (run (seed_users uuid4) f d)) = inr (Some r)
    /\ User.username r = un /\ User.password r = pw /\ User.role r = rl.
Proof.
  intros Hentry Habsent.
  unfold run, with_connection, seed_users, bind.
  destruct (seed_loop uuid4 0 demo_users (mkconn d d f)) as [[] c1|e c1]
    eqn:E1; [|discriminate].
  destruct (commit_cases c1) as [E | [n E]]; rewrite E; cbn [fst snd durable];
    [discriminate|]. intros _.
  pose proof (seed_loop_done_present _ _ _ _ _ _ E1) as [_ Hpresent].
  pose proof (seed_loop_done_rows _ _ _ _ _ _ E1)
    as (extra & Hex & Hrows).
  cbn [txn] in Hex.
  rewrite Forall_forall in Hpresent, Hrows.
  assert (Hnew : forall r, In r (users (txn c1)) -> User.username r = un ->
                           User.password r = pw /\ User.role r = rl).
  { intros r Hr Hun. rewrite Hex in Hr. apply in_app_iff in Hr as [Hr | Hr].
    - unfold select_user_by_username in Habsent.
      pose proof (find_none _ _ Habsent r Hr) as Hf. simpl in Hf.
      apply String.eqb_neq in Hf. contradiction.
    - pose proof (Hrows r Hr) as Hin. rewrite Hun in Hin.
      destruct (demo_users_functional _ _ _ _ _ Hin Hentry). now split. }
  assert (Hfound : select_user_by_username un (txn c1) <> None)
    by (apply (Hpresent (un, pw, rl) Hentry)).
  unfold select_user_by_username in Hfound.
  destruct (find (fun r => User.username r =? un) (users (txn c1)))
    as [r0|] eqn:E0; [|contradiction].
  apply find_some in E0 as [Hr0 Hun0]. apply String.eqb_eq in Hun0.
  destruct (Hnew r0 Hr0 Hun0) as [Hpw0 _].
  cbn [get_user query bind store_call faults txn durable snd].
  unfold get_user, query, bind, store_call. cbn [faults txn snd].
  unfold select_user_by_login.
  destruct (find (fun r => (User.username r =? un) && (User.password r =? pw))
                 (users (txn c1))) as [r|] eqn:Er.
  - exists r. split; [reflexivity|].
    apply find_some in Er as [Hr Hm].
    apply andb_true_iff in Hm as [H1 H2]. apply String.eqb_eq in H1, H2.
    destruct (Hnew r Hr H1) as [_ Hrl]. now repeat split.
  - pose proof (find_none _ _ Er r0 Hr0) as Hf. simpl in Hf.
    rewrite Hun0, Hpw0, !String.eqb_refl in Hf. discriminate.
Qed.

Lemma seeded_user_logs_in_witness :
  exists r,
    snd (with_connection (get_user "finance_user" "finance_pass") None
                         (run (seed_users (numbered "u")) None init_db))
    = inr (Some r)
    /\ User.username r = "finance_user"
    /\ User.password r = "finance_pass" /\ User.role r = "finance".
Proof.
  apply seeded_user_logs_in.
  - vm_compute. tauto.
  - vm_compute. reflexivity.
  - vm_compute. reflexivity.
Defined.
